(** * The order lifecycle engine of [src/index.js]

    A shallow embedding of the three Express handlers that make up the
    order lifecycle ([/api/create-order], [/api/order-status/:orderId],
    [/api/cancel-order/:orderId]) and the properties of their
    specification, followed by the rest of the file: the HTTP layer of
    [fetchAtlanticAPI], [initializeData] and the three listing routes.

    How the program is modelled:
    - JavaScript values the provider sends are [JS.JVal]; numbers are
      IEEE binary64 ([PrimFloat.float]), objects are finite maps from
      property names to values (key order is not observed); an array
      stands as the object of its indexed elements, which is how it
      behaves under the only operations the handlers apply to a payload
      (truth test, read or write of a named property, spread);
    - strings are Rocq strings, read as ASCII text: [toUpperCase] and
      [toLowerCase] map the ASCII letters and leave every other byte
      alone, and a character is a byte;
    - a handler runs in a state-and-exception monad whose state survives
      a [throw], as assignments in JavaScript do;
    - the Mongo collection is a finite map keyed by the unique-indexed
      [orderId]; the document of a handler is the one Mongoose tracks, and
      [save] writes it back.  Every write of the handlers is an assignment
      to a path, which Mongoose tracks, but one: line 392 writes into the
      object held by a Mixed path, and [cancelOrder_try] keeps that write
      out of what is saved;
    - the casts and validators of the schema are not modelled: [save] and
      [save_new] are the saves of a document the schema accepts as it is.
      Where a handler writes a value that the schema could cast or refuse
      (a provider's id on a [String] path, a status word on the required
      path [status], the numbers and names of a new order), the statement
      assumes a value it accepts: see [stored_as_is], [plain_creation]
      and [passes_schema];
    - the provider is an oracle [gateway] of the request; every call made
      through [fetchAtlanticAPI] is appended to the log [calls];
    - the clock is read once per request by the status and cancellation
      handlers ([now]), and three times by order creation: [now] for the
      [orderId], and [later] and [latest] after the provider answered. *)

From Stdlib Require Import ZArith QArith Qround Floats Ascii.
From stdpp Require Import base strings gmap list pretty.

#[local] Set Warnings "-register-all,-inexact-float".

(** ** JavaScript values and built-ins *)

Module JS.

Inductive JVal : Type :=
  | JUndefined
  | JNull
  | JBool (b : bool)
  | JNum (x : float)
  | JStr (s : string)
  | JObj (m : gmap string JVal).

(** What a [throw] carries: the [Error] objects of [fetchAtlanticAPI] and
    of the store, and the [TypeError]s of the engine.  Only [message] is
    ever read. *)
Inductive Thrown : Type :=
  | Error (message : string)
  | TypeError (message : string).

Definition message (e : Thrown) : string :=
  match e with Error m | TypeError m => m end.

Inductive Res (A : Type) : Type :=
  | Ok (a : A)
  | Throw (e : Thrown).
Arguments Ok {A} a.
Arguments Throw {A} e.

(** ToBoolean. *)
Definition truthy (v : JVal) : bool :=
  match v with
  | JUndefined | JNull => false
  | JBool b => b
  | JNum x => negb (is_nan x || is_zero x)
  | JStr s => negb (String.eqb s "")
  | JObj _ => true
  end.

(** [a || b] *)
Definition or_else (a b : JVal) : JVal := if truthy a then a else b.

(** [v.k] for the property names the handlers read ([status], [data],
    [message], [id]): none of them is a built-in property of a string, a
    number or a boolean. *)
Definition get (v : JVal) (k : string) : Res JVal :=
  match v with
  | JUndefined =>
      Throw (TypeError ("Cannot read properties of undefined (reading '" +:+ k +:+ "')"))
  | JNull =>
      Throw (TypeError ("Cannot read properties of null (reading '" +:+ k +:+ "')"))
  | JObj m => Ok (default JUndefined (m !! k))
  | _ => Ok JUndefined
  end.

Definition upper_ascii (c : ascii) : ascii :=
  let n := nat_of_ascii c in
  if (97 <=? n)%nat && (n <=? 122)%nat then ascii_of_nat (n - 32) else c.

Definition lower_ascii (c : ascii) : ascii :=
  let n := nat_of_ascii c in
  if (65 <=? n)%nat && (n <=? 90)%nat then ascii_of_nat (n + 32) else c.

Fixpoint map_string (f : ascii → ascii) (s : string) : string :=
  match s with
  | EmptyString => EmptyString
  | String c s' => String (f c) (map_string f s')
  end.

Definition toUpperCase (s : string) : string := map_string upper_ascii s.
Definition toLowerCase (s : string) : string := map_string lower_ascii s.

(** [v.toUpperCase()] and [v.toLowerCase()]: only a string has the method. *)
Definition call_string_method (name : string) (f : string → string) (v : JVal)
  : Res string :=
  match v with
  | JStr s => Ok (f s)
  | JUndefined =>
      Throw (TypeError ("Cannot read properties of undefined (reading '" +:+ name +:+ "')"))
  | JNull =>
      Throw (TypeError ("Cannot read properties of null (reading '" +:+ name +:+ "')"))
  | _ => Throw (TypeError (name +:+ " is not a function"))
  end.

Definition call_toUpperCase : JVal → Res string := call_string_method "toUpperCase" toUpperCase.
Definition call_toLowerCase : JVal → Res string := call_string_method "toLowerCase" toLowerCase.

(** The own enumerable properties copied by [{...v}]: the fields of an
    object, the indexed characters of a string, and nothing for every
    other value. *)
Definition indexed_chars (s : string) : gmap string JVal :=
  list_to_map
    (imap (λ i c, (pretty i, JStr (String c EmptyString)))
          (String.list_ascii_of_string s)).

Definition own_props (v : JVal) : gmap string JVal :=
  match v with
  | JObj m => m
  | JStr s => indexed_chars s
  | _ => ∅
  end.

(** [v.k = x] in sloppy mode (the file has no ["use strict"]): an object
    takes the property, a primitive drops the write silently. *)
Definition set_prop (v : JVal) (k : string) (x : JVal) : Res JVal :=
  match v with
  | JUndefined =>
      Throw (TypeError ("Cannot set properties of undefined (setting '" +:+ k +:+ "')"))
  | JNull =>
      Throw (TypeError ("Cannot set properties of null (setting '" +:+ k +:+ "')"))
  | JObj m => Ok (JObj (<[k := x]> m))
  | _ => Ok v
  end.

(** [{...a, ...b}]: the properties of [b] win over those of [a]. *)
Definition spread (a b : JVal) : JVal := JObj (own_props b ∪ own_props a).

(** The rational a finite Number stands for: a zero, or a signed
    mantissa times a power of two.  [NaN] and the infinities stand for
    none. *)
Definition exact (x : float) : option Q :=
  match Prim2SF x with
  | S754_zero _ => Some (inject_Z 0)
  | S754_finite s m e =>
      let n := if s then Zneg m else Zpos m in
      Some (if (0 <=? e)%Z then inject_Z (n * 2 ^ e)
            else Qred (Qmake n (Z.to_pos (2 ^ (- e)))))
  | _ => None
  end.

(** The Number for an integer (the nearest one, which is the integer
    itself up to 2^53 in magnitude). *)
Definition number_of_Z (z : Z) : float :=
  SF2Prim (binary_normalize prec emax z 0 false).

(** [Math.ceil]: the smallest integral Number that is not below the
    argument; [NaN], the infinities and the zeros are returned as they
    are, and an argument between -1 and 0 gives [-0]. *)
Definition Math_ceil (x : float) : float :=
  match Prim2SF x, exact x with
  | S754_finite _ _ _, Some q =>
      if (Qceiling q =? 0)%Z then (-0)%float else number_of_Z (Qceiling q)
  | _, _ => x
  end.

(** [parseFloat(x) || 0] on the parsed number: [NaN] and the zeros give [0]. *)
Definition number_or_zero (x : float) : float :=
  if truthy (JNum x) then x else 0%float.

End JS.
Export JS.


(** ** The handler monad: state that survives exceptions *)

Definition M (S A : Type) : Type := S → Res A * S.

Definition ret {S A} (a : A) : M S A := λ s, (Ok a, s).

Definition bind {S A B} (c : M S A) (k : A → M S B) : M S B :=
  λ s, match c s with
       | (Ok a, s') => k a s'
       | (Throw e, s') => (Throw e, s')
       end.

(** A value or a [TypeError] of a built-in, raised in place. *)
Definition lift {S A} (r : Res A) : M S A := λ s, (r, s).

(** [try { c } catch (e) { h e }] *)
Definition try_catch {S A} (c : M S A) (h : Thrown → M S A) : M S A :=
  λ s, match c s with
       | (Ok a, s') => (Ok a, s')
       | (Throw e, s') => h e s'
       end.

Definition gets {S A} (f : S → A) : M S A := λ s, (Ok (f s), s).
Definition modify {S} (f : S → S) : M S unit := λ s, (Ok tt, f s).

(** Sequencing of built-ins that may throw, outside any state. *)
Definition res_bind {A B} (r : Res A) (k : A → Res B) : Res B :=
  match r with
  | Ok a => k a
  | Throw e => Throw e
  end.

Declare Scope js_scope.
Delimit Scope js_scope with js.
Notation "x <- c ;; k" := (bind c (λ x, k))
  (at level 100, c at next level, right associativity) : js_scope.
Notation "c ;; k" := (bind c (λ _, k))
  (at level 100, right associativity) : js_scope.
Notation "x <-? r ;; k" := (res_bind r (λ x, k))
  (at level 100, r at next level, right associativity) : js_scope.
Open Scope js_scope.

(** ** Data model *)

(** The Mongoose [orderSchema].  Fields the handlers fill from provider
    payloads keep the JavaScript value they were given, which is what the
    schema stores when the value is a string or absent ([stored_as_is]
    below). *)
Record Order : Type := mkOrder {
  orderId : string;
  productId : string;
  productName : string;
  productPrice : float;
  providerName : string;
  productImgUrl : string;
  targetId : string;
  paymentMethodCode : string;
  paymentMethodName : string;
  adminFeePaymentMethod : float;
  adminFeeGlobal : float;
  totalAdminFee : float;
  totalAmountToPayForDeposit : float;
  status : string;
  atlanticDepositId : JVal;
  depositReffId : string;
  depositDetails : JVal;
  atlanticTransactionId : JVal;
  transactionReffId : option string;
  transactionDetails : JVal;
  createdAt : Z;
  updatedAt : Z
}.

(** Assignments [order.f = v], one per field the handlers write. *)
Definition set_status (v : string) (o : Order) : Order :=
  mkOrder (orderId o) (productId o) (productName o) (productPrice o)
    (providerName o) (productImgUrl o) (targetId o) (paymentMethodCode o)
    (paymentMethodName o) (adminFeePaymentMethod o) (adminFeeGlobal o)
    (totalAdminFee o) (totalAmountToPayForDeposit o) v
    (atlanticDepositId o) (depositReffId o) (depositDetails o)
    (atlanticTransactionId o) (transactionReffId o) (transactionDetails o)
    (createdAt o) (updatedAt o).

Definition set_depositDetails (v : JVal) (o : Order) : Order :=
  mkOrder (orderId o) (productId o) (productName o) (productPrice o)
    (providerName o) (productImgUrl o) (targetId o) (paymentMethodCode o)
    (paymentMethodName o) (adminFeePaymentMethod o) (adminFeeGlobal o)
    (totalAdminFee o) (totalAmountToPayForDeposit o) (status o)
    (atlanticDepositId o) (depositReffId o) v
    (atlanticTransactionId o) (transactionReffId o) (transactionDetails o)
    (createdAt o) (updatedAt o).

Definition set_atlanticTransactionId (v : JVal) (o : Order) : Order :=
  mkOrder (orderId o) (productId o) (productName o) (productPrice o)
    (providerName o) (productImgUrl o) (targetId o) (paymentMethodCode o)
    (paymentMethodName o) (adminFeePaymentMethod o) (adminFeeGlobal o)
    (totalAdminFee o) (totalAmountToPayForDeposit o) (status o)
    (atlanticDepositId o) (depositReffId o) (depositDetails o)
    v (transactionReffId o) (transactionDetails o)
    (createdAt o) (updatedAt o).

Definition set_transactionReffId (v : option string) (o : Order) : Order :=
  mkOrder (orderId o) (productId o) (productName o) (productPrice o)
    (providerName o) (productImgUrl o) (targetId o) (paymentMethodCode o)
    (paymentMethodName o) (adminFeePaymentMethod o) (adminFeeGlobal o)
    (totalAdminFee o) (totalAmountToPayForDeposit o) (status o)
    (atlanticDepositId o) (depositReffId o) (depositDetails o)
    (atlanticTransactionId o) v (transactionDetails o)
    (createdAt o) (updatedAt o).

Definition set_transactionDetails (v : JVal) (o : Order) : Order :=
  mkOrder (orderId o) (productId o) (productName o) (productPrice o)
    (providerName o) (productImgUrl o) (targetId o) (paymentMethodCode o)
    (paymentMethodName o) (adminFeePaymentMethod o) (adminFeeGlobal o)
    (totalAdminFee o) (totalAmountToPayForDeposit o) (status o)
    (atlanticDepositId o) (depositReffId o) (depositDetails o)
    (atlanticTransactionId o) (transactionReffId o) v
    (createdAt o) (updatedAt o).

Definition set_updatedAt (v : Z) (o : Order) : Order :=
  mkOrder (orderId o) (productId o) (productName o) (productPrice o)
    (providerName o) (productImgUrl o) (targetId o) (paymentMethodCode o)
    (paymentMethodName o) (adminFeePaymentMethod o) (adminFeeGlobal o)
    (totalAdminFee o) (totalAmountToPayForDeposit o) (status o)
    (atlanticDepositId o) (depositReffId o) (depositDetails o)
    (atlanticTransactionId o) (transactionReffId o) (transactionDetails o)
    (createdAt o) v.

(** An entry of [productsCache]; [price] is [parseFloat] of the
    catalogue's price. *)
Module Product.
Record t : Type := mk {
  code : string; name : string; provider : string; category : string;
  img_url : string; price : float
}.
End Product.

(** An entry of [paymentMethodsCache]; [fee] and [fee_persen] are
    [parseFloat] of the catalogue's fields ([NaN] when they do not parse). *)
Module PaymentMethod.
Record t : Type := mk {
  metode : string; name : string; type : string;
  fee : float; fee_persen : float
}.
End PaymentMethod.

(** ** The world of a request *)

(** One call of [fetchAtlanticAPI]: the endpoint and [bodyParams] (the
    constant [api_key] is left out). *)
Record Call : Type := mkCall {
  endpoint : string;
  bodyParams : list (string * JVal)
}.

(** What the provider does with a call: the parsed JSON body of a 2xx
    response, or the message of the [Error] that [fetchAtlanticAPI]
    throws (network failure, non-2xx status, unparsable body). *)
Inductive Outcome : Type :=
  | Returned (json : JVal)
  | Rejected (reason : string).

Record Env : Type := mkEnv {
  now : Z;               (* the first reading of the clock: Date.now() of
                            line 183, new Date() of lines 269, 313, 333, 390 *)
  random36 : string;     (* Math.random().toString(36).substr(2, 6).toUpperCase() *)
  gateway : Call → Outcome;
  later : Z;             (* create-order, after the awaited fetch:
                            new Date() of line 228 *)
  latest : Z             (* and Date.now of the createdAt default
                            (line 41), when the document is built *)
}.

Record World : Type := mkWorld {
  store : gmap string Order;   (* the orders collection, by orderId *)
  calls : list Call            (* provider calls made so far *)
}.

Definition fetchAtlanticAPI (env : Env) (endpoint : string)
    (bodyParams : list (string * JVal)) : M World JVal :=
  λ w,
    let c := mkCall endpoint bodyParams in
    let w' := mkWorld (store w) (calls w ++ [c]) in
    match gateway env c with
    | Returned json => (Ok json, w')
    | Rejected reason => (Throw (Error reason), w')
    end.

(** [r.status && r.data], as a condition. *)
Definition status_and_data (r : JVal) : Res bool :=
  s <-? get r "status";;
  if truthy s then (d <-? get r "data";; Ok (truthy d)) else Ok false.

(** The body of a response. *)
Inductive Body : Type :=
  | Failure (message : JVal)                    (* { status: false, message } *)
  | OrderData (data : Order)                    (* { status: true, data: order } *)
  | Cancelled (message : string) (data : Order) (* { status: true, message, data } *)
  | Created (orderId : string) (paymentDetails : JVal)
            (productName targetId : string)
            (basePrice totalAdminFee totalAmount : float).

Record Response : Type := mkResponse { code : nat; body : Body }.

(** The local variable [order] of a handler next to the world: the loaded
    Mongoose document and what has been persisted. *)
Record Scope : Type := mkScope { order : Order; world : World }.

Definition in_world {A} (c : M World A) : M Scope A :=
  λ sc, let '(r, w') := c (world sc) in (r, mkScope (order sc) w').

Definition assign (f : Order → Order) : M Scope unit :=
  modify (λ sc, mkScope (f (order sc)) (world sc)).

(** [await order.save()] for a document loaded from entry [key], when
    the schema accepts the document. *)
Definition save (key : string) : M Scope unit :=
  modify (λ sc, mkScope (order sc)
                  (mkWorld (<[key := order sc]> (store (world sc)))
                           (calls (world sc)))).

(** ** [POST /api/create-order] *)

(** The fee computation of the handler, on the selected catalogue entries. *)
Module Pricing.
Section Pricing.
Variable selectedProduct : Product.t.
Variable selectedPaymentMethod : PaymentMethod.t.

Definition baseProductPrice : float := Product.price selectedProduct.
Definition paymentMethodFee : float :=
  number_or_zero (PaymentMethod.fee selectedPaymentMethod).
Definition paymentMethodFeePercent : float :=
  number_or_zero (PaymentMethod.fee_persen selectedPaymentMethod).
Definition additionalAdminFeePercentGlobal : float := 2%float.

Definition feeFromPaymentMethod : float :=
  (paymentMethodFee + baseProductPrice * (paymentMethodFeePercent / 100))%float.
Definition globalAdminFee : float :=
  (baseProductPrice * (additionalAdminFeePercentGlobal / 100))%float.
Definition totalAdminFee : float := (feeFromPaymentMethod + globalAdminFee)%float.
Definition totalAmountForDeposit : float := (baseProductPrice + totalAdminFee)%float.
End Pricing.
End Pricing.

(** [req.body]; a field that is absent is the empty string (both are falsy). *)
Record CreateOrderBody : Type := mkCreateOrderBody {
  body_productId : string;
  body_targetId : string;
  body_paymentMethodCode : string;
  body_providerName : string
}.

(** The two caches filled by [initializeData]. *)
Record Catalog : Type := mkCatalog {
  productsCache : list Product.t;
  paymentMethodsCache : list PaymentMethod.t
}.

Definition find_product (cat : Catalog) (productId providerName : string)
  : option Product.t :=
  List.find
    (λ p, bool_decide (Product.code p = productId)
          && (bool_decide (toLowerCase (Product.provider p) = toLowerCase providerName)
              || bool_decide (toLowerCase (Product.category p) = toLowerCase providerName)))
    (productsCache cat).

Definition find_payment_method (cat : Catalog) (paymentMethodCode : string)
  : option PaymentMethod.t :=
  List.find (λ pm, bool_decide (PaymentMethod.metode pm = paymentMethodCode))
            (paymentMethodsCache cat).

(** [ORD-${Date.now()}-${Math.random()...}] *)
Definition orderIdInternal (env : Env) : string :=
  "ORD-" +:+ pretty (now env) +:+ "-" +:+ random36 env.

(** [await newOrder.save()] of a fresh document that the schema accepts
    ([passes_schema] below): [orderId] carries a unique index, so a second
    document under a stored id is refused. *)
Definition save_new (o : Order) : M World unit :=
  λ w, match store w !! orderId o with
       | Some _ => (Throw (Error "E11000 duplicate key error"), w)
       | None => (Ok tt, mkWorld (<[orderId o := o]> (store w)) (calls w))
       end.

Definition newOrder (env : Env) (req : CreateOrderBody)
    (selectedProduct : Product.t) (selectedPaymentMethod : PaymentMethod.t)
    (data : JVal) (id : JVal) : Order :=
  {| orderId := orderIdInternal env;
     productId := body_productId req;
     productName := Product.name selectedProduct;
     productPrice := Pricing.baseProductPrice selectedProduct;
     providerName := Product.provider selectedProduct;
     productImgUrl := Product.img_url selectedProduct;
     targetId := body_targetId req;
     paymentMethodCode := body_paymentMethodCode req;
     paymentMethodName := PaymentMethod.name selectedPaymentMethod;
     adminFeePaymentMethod :=
       Pricing.feeFromPaymentMethod selectedProduct selectedPaymentMethod;
     adminFeeGlobal := Pricing.globalAdminFee selectedProduct;
     totalAdminFee := Pricing.totalAdminFee selectedProduct selectedPaymentMethod;
     totalAmountToPayForDeposit :=
       Math_ceil (Pricing.totalAmountForDeposit selectedProduct selectedPaymentMethod);
     atlanticDepositId := id;
     depositReffId := "DEP-" +:+ orderIdInternal env;
     depositDetails := data;
     status := "PENDING_PAYMENT";
     atlanticTransactionId := JUndefined;
     transactionReffId := None;
     transactionDetails := JUndefined;
     createdAt := latest env;
     updatedAt := later env |}.

(** The [try] block of the handler. *)
Definition createOrder_try (env : Env) (req : CreateOrderBody)
    (selectedProduct : Product.t) (selectedPaymentMethod : PaymentMethod.t)
  : M World Response :=
  let totalAmountForDeposit :=
    Pricing.totalAmountForDeposit selectedProduct selectedPaymentMethod in
  let depositPayload :=
    [ ("reff_id", JStr ("DEP-" +:+ orderIdInternal env));
      ("nominal", JNum (Math_ceil totalAmountForDeposit));
      ("type", JStr (PaymentMethod.type selectedPaymentMethod));
      ("metode", JStr (PaymentMethod.metode selectedPaymentMethod)) ] in
  depositResponse <- fetchAtlanticAPI env "/deposit/create" depositPayload;;
  ok <- lift (status_and_data depositResponse);;
  if negb ok then
    m <- lift (get depositResponse "message");;
    ret (mkResponse 500 (Failure (or_else m (JStr "Gagal membuat deposit."))))
  else
    data <- lift (get depositResponse "data");;
    id <- lift (get data "id");;
    save_new (newOrder env req selectedProduct selectedPaymentMethod data id);;
    ret (mkResponse 200
           (Created (orderIdInternal env) data
                    (Product.name selectedProduct) (body_targetId req)
                    (Pricing.baseProductPrice selectedProduct)
                    (Pricing.totalAdminFee selectedProduct selectedPaymentMethod)
                    (Math_ceil totalAmountForDeposit))).

Definition is_empty (s : string) : bool := String.eqb s "".

Definition createOrder (env : Env) (cat : Catalog) (req : CreateOrderBody)
    (w : World) : Response * World :=
  if is_empty (body_productId req) || is_empty (body_targetId req)
     || is_empty (body_paymentMethodCode req) || is_empty (body_providerName req)
  then (mkResponse 400 (Failure (JStr "Data tidak lengkap.")), w)
  else
    match find_product cat (body_productId req) (body_providerName req) with
    | None => (mkResponse 404 (Failure (JStr "Produk tidak ditemukan.")), w)
    | Some selectedProduct =>
        match find_payment_method cat (body_paymentMethodCode req) with
        | None =>
            (mkResponse 404 (Failure (JStr "Metode pembayaran tidak ditemukan.")), w)
        | Some selectedPaymentMethod =>
            match createOrder_try env req selectedProduct selectedPaymentMethod w with
            | (Ok res, w') => (res, w')
            | (Throw error, w') =>
                (mkResponse 500
                   (Failure (JStr ("Gagal memproses pesanan: " +:+ message error))),
                 w')
            end
        end
    end.

(** ** [GET /api/order-status/:orderId] — reconcile *)

(** The [try]/[catch] block that creates the provider transaction.  The
    handler holds two copies of it, lines 277-296 and 335-353, the same
    text up to two message strings: the fallback of a refused creation
    and the prefix of a caught error. *)
Definition create_transaction (fallback prefix : string) (env : Env)
    (transactionReffId : string) : M Scope unit :=
  try_catch
    (o <- gets order;;
     createTransactionResponse <-
       in_world (fetchAtlanticAPI env "/transaksi/create"
                   [ ("code", JStr (productId o));
                     ("reff_id", JStr transactionReffId);
                     ("target", JStr (targetId o)) ]);;
     ok <- lift (status_and_data createTransactionResponse);;
     if ok then
       data <- lift (get createTransactionResponse "data");;
       id <- lift (get data "id");;
       assign (set_atlanticTransactionId id);;
       assign (set_transactionDetails data);;
       s <- lift (get data "status");;
       st <- (if truthy s then lift (call_toUpperCase s) else ret "ORDER_PROCESSING");;
       assign (set_status st);;
       if bool_decide (st = "PENDING") then assign (set_status "ORDER_PROCESSING")
       else ret tt
     else
       assign (set_status "TRANSACTION_CREATION_FAILED");;
       m <- lift (get createTransactionResponse "message");;
       assign (set_transactionDetails
                 (JObj {[ "error" := or_else m (JStr fallback) ]})))
    (λ txError,
       assign (set_status "TRANSACTION_CREATION_ERROR");;
       assign (set_transactionDetails
                 (JObj {[ "error" := JStr (prefix +:+ message txError) ]}))).

(** Lines 277-296, in the deposit branch. *)
Definition create_transaction_first : Env → string → M Scope unit :=
  create_transaction "Gagal membuat transaksi" "Internal error: ".

(** Lines 335-353, in the retry branch. *)
Definition create_transaction_again : Env → string → M Scope unit :=
  create_transaction "Gagal membuat transaksi (ulang)" "Internal error (ulang): ".

(** Lines 272-304: the new status, by the provider's deposit status. *)
Definition payment_outcome (env : Env) (atlanticStatus : string) : M Scope unit :=
  if bool_decide (atlanticStatus = "SUCCESS") then
    assign (set_status "PAYMENT_SUCCESSFUL_PROCESSING_ORDER");;
    o <- gets order;;
    let transactionReffId := "TRX-" +:+ orderId o in
    assign (set_transactionReffId (Some transactionReffId));;
    create_transaction_first env transactionReffId
  else if bool_decide (atlanticStatus ∈ ["EXPIRED"; "FAILED"; "CANCEL"]) then
    assign (set_status ("PAYMENT_" +:+ atlanticStatus))
  else if bool_decide (atlanticStatus = "PENDING") then
    assign (set_status "PENDING_PAYMENT")
  else
    assign (set_status "PAYMENT_PROCESSING").

(** Lines 264-306: the order awaits its payment. *)
Definition reconcile_deposit (env : Env) (key : string) : M Scope unit :=
  o <- gets order;;
  depositStatusResponse <-
    in_world (fetchAtlanticAPI env "/deposit/status" [ ("id", atlanticDepositId o) ]);;
  ok <- lift (status_and_data depositStatusResponse);;
  if ok then
    data <- lift (get depositStatusResponse "data");;
    s <- lift (get data "status");;
    atlanticStatus <- lift (call_toUpperCase s);;
    assign (set_updatedAt (now env));;
    assign (λ o, set_depositDetails (spread (depositDetails o) data) o);;
    payment_outcome env atlanticStatus;;
    save key
  else ret tt.

(** Lines 319-327: the new status, by the provider's transaction status. *)
Definition transaction_outcome (atlanticTxStatus : string) : M Scope unit :=
  if bool_decide (atlanticTxStatus = "SUCCESS") then
    assign (set_status "ORDER_COMPLETED")
  else if bool_decide (atlanticTxStatus ∈ ["FAILED"; "ERROR"]) then
    assign (set_status "ORDER_FAILED")
  else if bool_decide (atlanticTxStatus = "PENDING") then
    assign (set_status "ORDER_PROCESSING")
  else
    assign (set_status atlanticTxStatus).

(** Lines 308-330: the order has a provider transaction. *)
Definition reconcile_transaction (env : Env) (key : string) : M Scope unit :=
  o <- gets order;;
  transactionStatusResponse <-
    in_world (fetchAtlanticAPI env "/transaksi/status"
                [ ("id", atlanticTransactionId o); ("type", JStr "prabayar") ]);;
  assign (set_updatedAt (now env));;
  ok <- lift (status_and_data transactionStatusResponse);;
  (if ok then
     data <- lift (get transactionStatusResponse "data");;
     s <- lift (get data "status");;
     atlanticTxStatus <- lift (call_toUpperCase s);;
     assign (λ o, set_transactionDetails (spread (transactionDetails o) data) o);;
     transaction_outcome atlanticTxStatus
   else ret tt);;
  save key.

(** Lines 331-355: the payment is in and no transaction was created. *)
Definition reconcile_retry (env : Env) (key : string) : M Scope unit :=
  o <- gets order;;
  let transactionReffId := "TRX-" +:+ orderId o in
  assign (set_updatedAt (now env));;
  assign (set_transactionReffId (Some transactionReffId));;
  create_transaction_again env transactionReffId;;
  save key.

(** Lines 264-356: the dispatch on the stored status. *)
Definition reconcile (env : Env) (key : string) : M Scope unit :=
  o <- gets order;;
  if bool_decide (status o = "PENDING_PAYMENT") || bool_decide (status o = "PAYMENT_PROCESSING")
  then reconcile_deposit env key
  else if bool_decide (status o = "ORDER_PROCESSING")
          || bool_decide (status o = "PAYMENT_SUCCESSFUL_PROCESSING_ORDER")
          || bool_decide (status o = "TRANSACTION_CREATION_FAILED")
  then
    if truthy (atlanticTransactionId o) then reconcile_transaction env key
    else if bool_decide (status o = "PAYMENT_SUCCESSFUL_PROCESSING_ORDER")
            && negb (truthy (atlanticTransactionId o))
    then reconcile_retry env key
    else ret tt
  else ret tt.

Definition orderStatus (env : Env) (orderId : string) (w : World)
  : Response * World :=
  if is_empty orderId
  then (mkResponse 400 (Failure (JStr "Order ID diperlukan.")), w)
  else
    match store w !! orderId with
    | None => (mkResponse 404 (Failure (JStr "Pesanan tidak ditemukan.")), w)
    | Some o =>
        match reconcile env orderId (mkScope o w) with
        | (Ok _, sc) => (mkResponse 200 (OrderData (order sc)), world sc)
        | (Throw error, sc) =>
            (mkResponse 500
               (Failure (JStr ("Internal server error: " +:+ message error))),
             world sc)
        end
    end.

(** ** [POST /api/cancel-order/:orderId] *)

(** [r.status && r.data && r.data.status
       && r.data.status.toLowerCase() === 'cancel'] *)
Definition cancel_confirmed (cancelResponse : JVal) : Res bool :=
  ok <-? status_and_data cancelResponse;;
  if ok then
    data <-? get cancelResponse "data";;
    s <-? get data "status";;
    if truthy s then
      l <-? call_toLowerCase s;;
      Ok (bool_decide (l = "cancel"))
    else Ok false
  else Ok false.

(** The [try] block of the handler.  The scope holds the document as
    Mongoose tracks it, which is what [save] sends.  Line 392 does not
    assign to the path [depositDetails] (schema type [Object], a Mixed
    path): it writes into the object the path holds, and the handler never
    calls [markModified], so the write is in the document in memory, which
    the response serialises, and is not among the changes [save] sends.
    [in_memory] is that write, applied to the tracked document when the
    response is built.  Line 394 is an assignment, tracked as any other. *)
Definition cancelOrder_try (env : Env) (key : string) : M Scope Response :=
  o <- gets order;;
  cancelResponse <-
    in_world (fetchAtlanticAPI env "/deposit/cancel" [ ("id", atlanticDepositId o) ]);;
  confirmed <- lift (cancel_confirmed cancelResponse);;
  if confirmed then
    assign (set_status "PAYMENT_CANCELLED");;
    assign (set_updatedAt (now env));;
    o <- gets order;;
    in_memory <-
      (if truthy (depositDetails o) then
         d <- lift (set_prop (depositDetails o) "status" (JStr "cancel"));;
         ret (set_depositDetails d)
       else
         assign (set_depositDetails (JObj {[ "status" := JStr "cancel" ]}));;
         ret id);;
    save key;;
    o <- gets order;;
    ret (mkResponse 200 (Cancelled "Pesanan berhasil dibatalkan." (in_memory o)))
  else
    m <- lift (get cancelResponse "message");;
    ret (mkResponse 500
           (Failure (or_else m (JStr "Gagal membatalkan deposit di AtlanticH2H.")))).

Definition cancelOrder (env : Env) (orderId : string) (w : World)
  : Response * World :=
  if is_empty orderId
  then (mkResponse 400 (Failure (JStr "Order ID diperlukan.")), w)
  else
    match store w !! orderId with
    | None => (mkResponse 404 (Failure (JStr "Pesanan tidak ditemukan.")), w)
    | Some o =>
        if negb (truthy (atlanticDepositId o))
        then (mkResponse 400 (Failure (JStr "Deposit ID tidak ditemukan.")), w)
        else if negb (bool_decide (status o = "PENDING_PAYMENT"))
                && negb (bool_decide (status o = "PAYMENT_PROCESSING"))
        then
          (mkResponse 400
             (Failure (JStr ("Pesanan status " +:+ status o
                             +:+ " tidak bisa dibatalkan."))), w)
        else
          match cancelOrder_try env orderId (mkScope o w) with
          | (Ok res, sc) => (res, world sc)
          | (Throw error, sc) =>
              (mkResponse 500
                 (Failure (JStr ("Gagal membatalkan pesanan: " +:+ message error))),
               world sc)
          end
    end.

(** ** [fetchAtlanticAPI], from the HTTP response *)

(** What [fetch] settles to: a network failure, or a response of which
    the function reads [ok], [status] and the body. *)
Record HttpResponse : Type := mkHttpResponse {
  response_ok : bool;
  response_status : nat;
  response_text : string
}.

Inductive Fetched : Type :=
  | NetworkError (reason : string)
  | Responded (response : HttpResponse).

(** [try { c } catch { h }] outside any state. *)
Definition res_catch {A} (c : Res A) (h : Thrown → Res A) : Res A :=
  match c with
  | Ok a => Ok a
  | Throw e => h e
  end.

Section Settle.
(** [JSON.parse], which throws a [SyntaxError] on a body that is no JSON,
    and the conversion [new Error(v)] applies to its argument. *)
Variable JSON_parse : string → Res JVal.
Variable ToString : JVal → string.

(** Lines 79-94: the response turned into the parsed body or an [Error]. *)
Definition settle (fetched : Fetched) : Res JVal :=
  match fetched with
  | NetworkError reason => Throw (Error reason)
  | Responded response =>
      _ <-? (if negb (response_ok response) then
               let errorText := response_text response in
               res_catch
                 (errorJson <-? JSON_parse errorText;;
                  m <-? get errorJson "message";;
                  Throw (Error (ToString
                    (or_else m
                       (JStr ("API request failed with status "
                              +:+ pretty (response_status response)))))))
                 (λ _, Throw (Error ("API request failed with status "
                                     +:+ pretty (response_status response)
                                     +:+ ": " +:+ errorText)))
             else Ok tt);;
      JSON_parse (response_text response)
  end.

(** The outcome as the handlers meet it. *)
Definition outcome_of (fetched : Fetched) : Outcome :=
  match settle fetched with
  | Ok json => Returned json
  | Throw e => Rejected (message e)
  end.
End Settle.

(** ** The catalogue: [initializeData] and the listing routes *)

(** [v === s] for a string literal [s]. *)
Definition is_string (s : string) (v : JVal) : bool :=
  match v with
  | JStr s' => bool_decide (s' = s)
  | _ => false
  end.

(** An element of a listing that is not [null]: the entry the routes read
    later, and the [status] field that [initializeData] filters on
    ([undefined] for an element that has none). *)
Record Listed (A : Type) : Type := mkListed {
  entry : A;
  listed_status : JVal
}.
Arguments mkListed {A} entry listed_status.
Arguments entry {A} l.
Arguments listed_status {A} l.

(** The [data] of a listing response; in an array, [None] is a [null]
    element. *)
Inductive ListData (A : Type) : Type :=
  | Falsy                           (* undefined, null, false, 0, "" *)
  | NotArray                        (* truthy, and without [filter] *)
  | Items (l : list (option (Listed A))).
Arguments Falsy {A}.
Arguments NotArray {A}.
Arguments Items {A} l.

(** The parsed body of a listing response: a JSON object with its
    [status] and [data], or any other JSON value. *)
Inductive Listing (A : Type) : Type :=
  | NotObject
  | Answer (status : JVal) (data : ListData A).
Arguments NotObject {A}.
Arguments Answer {A} status data.

Inductive ListingFetch (A : Type) : Type :=
  | Fails (reason : string)
  | Gives (listing : Listing A).
Arguments Fails {A} reason.
Arguments Gives {A} listing.

(** The provider at start-up. *)
Record Upstream : Type := mkUpstream {
  price_list : ListingFetch Product.t;
  deposit_metode : ListingFetch PaymentMethod.t
}.

(** The module state [initializeData] works on: the two caches, the
    provider calls and what went to [console.error]. *)
Record Boot : Type := mkBoot {
  caches : Catalog;
  boot_calls : list Call;
  console : list string
}.

Definition fetch_listing {A} (endpoint : string)
    (bodyParams : list (string * JVal)) (out : ListingFetch A)
  : M Boot (Listing A) :=
  λ b,
    let b' := mkBoot (caches b) (boot_calls b ++ [mkCall endpoint bodyParams])
                     (console b) in
    match out with
    | Gives listing => (Ok listing, b')
    | Fails reason => (Throw (Error reason), b')
    end.

(** [l.filter(x => x.status === wanted)]: the callback reads [status] of
    every element in turn, which throws on [null]. *)
Fixpoint filter_status {A} (wanted : string) (l : list (option (Listed A)))
  : Res (list A) :=
  match l with
  | [] => Ok []
  | None :: _ =>
      Throw (TypeError "Cannot read properties of null (reading 'status')")
  | Some x :: rest =>
      let keep := is_string wanted (listed_status x) in
      kept <-? filter_status wanted rest;;
      Ok (if keep then entry x :: kept else kept)
  end.

(** [data.filter(x => x.status === wanted)] under the guard
    [r && r.status && r.data]; [None] when the guard fails. *)
Definition wanted_entries {A} (wanted : string) (listing : Listing A)
  : Res (option (list A)) :=
  match listing with
  | NotObject => Ok None
  | Answer status data =>
      if truthy status then
        match data with
        | Falsy => Ok None
        | NotArray => Throw (TypeError "filter is not a function")
        | Items l => kept <-? filter_status wanted l;; Ok (Some kept)
        end
      else Ok None
  end.

Definition set_productsCache (l : list Product.t) : M Boot unit :=
  modify (λ b, mkBoot (mkCatalog l (paymentMethodsCache (caches b)))
                      (boot_calls b) (console b)).

Definition set_paymentMethodsCache (l : list PaymentMethod.t) : M Boot unit :=
  modify (λ b, mkBoot (mkCatalog (productsCache (caches b)) l)
                      (boot_calls b) (console b)).

(** Lines 98-112. *)
Definition initializeData (up : Upstream) : M Boot unit :=
  try_catch
    (productData <-
       fetch_listing "/layanan/price_list" [("type", JStr "prabayar")]
                     (price_list up);;
     available <- lift (wanted_entries "available" productData);;
     match available with
     | Some l => set_productsCache l
     | None => ret tt
     end;;
     paymentMethodData <- fetch_listing "/deposit/metode" [] (deposit_metode up);;
     aktif <- lift (wanted_entries "aktif" paymentMethodData);;
     match aktif with
     | Some l => set_paymentMethodsCache l
     | None => ret tt
     end)
    (λ error,
       modify (λ b, mkBoot (caches b) (boot_calls b)
                      (console b ++ ["Initialization error: " +:+ message error]))).

(** The module state when the file is loaded: both caches empty. *)
Definition boot0 : Boot := mkBoot (mkCatalog [] []) [] [].

(** What a listing route answers: [res.status(code).json({status: false,
    message})] or [res.json({status: true, data, ...})]. *)
Inductive Reply (A : Type) : Type :=
  | Refused (code : nat) (message : string)
  | Served (data : A).
Arguments Refused {A} code message.
Arguments Served {A} data.

(** A value of the [Map] built by [/api/providers]. *)
Record ProviderInfo : Type := mkProviderInfo {
  info_name : string;
  info_category : string;
  info_img_url : string
}.

(** The [Map] as its entries in insertion order; [has] and [set] of a new
    key. *)
Definition providersMap_step (m : list (string * ProviderInfo)) (p : Product.t)
  : list (string * ProviderInfo) :=
  if bool_decide (Product.provider p ∈ m.*1) then m
  else m ++ [(Product.provider p,
              mkProviderInfo (Product.provider p) (Product.category p)
                             (Product.img_url p))].

(** Lines 114-130: [GET /api/providers]. *)
Definition getProviders (cat : Catalog) : Reply (list ProviderInfo) :=
  if bool_decide (length (productsCache cat) = 0) then
    Refused 503 "Layanan produk belum siap, coba beberapa saat lagi."
  else
    let providersMap := foldl providersMap_step [] (productsCache cat) in
    Served (providersMap.*2).

(** Lines 132-143: [GET /api/products/:providerName].  The answer carries
    the products and the decoded name; [decodeURIComponent] may throw,
    and the route has no handler for that. *)
Definition getProducts (decodeURIComponent : string → Res string)
    (cat : Catalog) (param : string) : Res (Reply (list Product.t * string)) :=
  if bool_decide (length (productsCache cat) = 0) then
    Ok (Refused 503 "Layanan produk belum siap, coba beberapa saat lagi.")
  else
    providerName <-? decodeURIComponent param;;
    let filteredProducts :=
      filter (λ p, toLowerCase (Product.provider p) = toLowerCase providerName)
             (productsCache cat) in
    if bool_decide (length filteredProducts = 0) then
      Ok (Refused 404 ("Produk untuk " +:+ providerName +:+ " tidak ditemukan."))
    else Ok (Served (filteredProducts, providerName)).

(** A payment method as [/api/payment-methods] sends it: the cached
    entry, spread, and the added [additional_admin_fee_percent]. *)
Record ProcessedMethod : Type := mkProcessedMethod {
  spread_method : PaymentMethod.t;
  additional_admin_fee_percent : float
}.

Definition blocked : list string :=
  ["OVO"; "QRIS"; "DANA"; "ovo"; "MANDIRI"; "PERMATA"].

(** Lines 145-164: [GET /api/payment-methods]. *)
Definition getPaymentMethods (cat : Catalog) : Reply (list ProcessedMethod) :=
  if bool_decide (length (paymentMethodsCache cat) = 0) then
    Refused 503 "Metode pembayaran belum siap, coba beberapa saat lagi."
  else
    let ADDITIONAL_ADMIN_FEE_PERCENT := 2%float in
    let processedPaymentMethods :=
      (λ method, mkProcessedMethod method ADDITIONAL_ADMIN_FEE_PERCENT)
        <$> paymentMethodsCache cat in
    let filtered :=
      filter (λ item, PaymentMethod.metode (spread_method item) ∉ blocked)
             processedPaymentMethods in
    Served filtered.

(** ** Vocabulary of the statements *)

(** The three groups of states the dispatch of [reconcile] tells apart. *)
Definition awaiting_payment : list string :=
  ["PENDING_PAYMENT"; "PAYMENT_PROCESSING"].

Definition awaiting_transaction : list string :=
  ["ORDER_PROCESSING"; "PAYMENT_SUCCESSFUL_PROCESSING_ORDER";
   "TRANSACTION_CREATION_FAILED"].

Definition terminal_states : list string :=
  ["ORDER_COMPLETED"; "ORDER_FAILED"; "PAYMENT_EXPIRED"; "PAYMENT_FAILED";
   "PAYMENT_CANCEL"; "PAYMENT_CANCELLED"].

(** The provider calls of the handlers, as they appear in the log. *)
Definition deposit_status_call (o : Order) : Call :=
  mkCall "/deposit/status" [ ("id", atlanticDepositId o) ].

Definition transaction_status_call (o : Order) : Call :=
  mkCall "/transaksi/status"
         [ ("id", atlanticTransactionId o); ("type", JStr "prabayar") ].

Definition create_transaction_call (o : Order) : Call :=
  mkCall "/transaksi/create"
         [ ("code", JStr (productId o));
           ("reff_id", JStr ("TRX-" +:+ orderId o));
           ("target", JStr (targetId o)) ].

Definition deposit_cancel_call (o : Order) : Call :=
  mkCall "/deposit/cancel" [ ("id", atlanticDepositId o) ].

Definition deposit_create_call (env : Env) (p : Product.t) (pm : PaymentMethod.t)
  : Call :=
  mkCall "/deposit/create"
         [ ("reff_id", JStr ("DEP-" +:+ orderIdInternal env));
           ("nominal", JNum (Math_ceil (Pricing.totalAmountForDeposit p pm)));
           ("type", JStr (PaymentMethod.type pm));
           ("metode", JStr (PaymentMethod.metode pm)) ].

(** The document after an answered deposit poll: stamped, details merged. *)
Definition polled_deposit (env : Env) (data : JVal) (o : Order) : Order :=
  set_depositDetails (spread (depositDetails o) data) (set_updatedAt (now env) o).

(** The document when the first transaction creation starts. *)
Definition paid (env : Env) (data : JVal) (o : Order) : Order :=
  set_transactionReffId (Some ("TRX-" +:+ orderId o))
    (set_status "PAYMENT_SUCCESSFUL_PROCESSING_ORDER" (polled_deposit env data o)).

(** The document after an answered transaction poll. *)
Definition polled_transaction (env : Env) (data : JVal) (o : Order) : Order :=
  set_transactionDetails (spread (transactionDetails o) data)
    (set_updatedAt (now env) o).

(** With one more call in the log. *)
Definition logged (w : World) (cs : list Call) : World :=
  mkWorld (store w) (calls w ++ cs).

(** The provider opened the deposit: a response whose [status] and [data]
    are both truthy. *)
Definition opens_deposit (out : Outcome) : Prop :=
  ∃ m sv data,
    out = Returned (JObj m)
    ∧ m !! "status" = Some sv ∧ truthy sv = true
    ∧ m !! "data" = Some data ∧ truthy data = true.

(** The provider confirmed the cancellation: a truthy [status] and a
    [data.status] that is the word "cancel" in any letter case. *)
Definition confirms_cancel (out : Outcome) : Prop :=
  ∃ m sv d s,
    out = Returned (JObj m)
    ∧ m !! "status" = Some sv ∧ truthy sv = true
    ∧ m !! "data" = Some (JObj d)
    ∧ d !! "status" = Some (JStr s) ∧ toLowerCase s = "cancel".

(** A run of status requests, each with the provider and the clock of its
    own moment. *)
Fixpoint polls (reqs : list (Env * string)) (w : World) : World :=
  match reqs with
  | [] => w
  | (env, key) :: rest => polls rest (orderStatus env key w).2
  end.

(** An object literal. *)
Definition obj (fields : list (string * JVal)) : JVal := JObj (list_to_map fields).

(** A value that a [String] path of the schema keeps as it is: a string,
    or [null] or [undefined] on a path that is not required.  Any other
    value is cast to a string by Mongoose, or makes the save fail; [save]
    and [save_new] model neither, so a statement about a document that
    takes a provider's id assumes an id of this kind. *)
Definition stored_as_is (v : JVal) : bool :=
  match v with
  | JStr _ | JNull | JUndefined => true
  | _ => false
  end.

(** The [data.id] of an accepted transaction creation. *)
Definition created_id (out : Outcome) : option JVal :=
  match out with
  | Returned r =>
      match status_and_data r, get r "data" with
      | Ok true, Ok data =>
          match get data "id" with
          | Ok id => Some id
          | Throw _ => None
          end
      | _, _ => None
      end
  | Rejected _ => None
  end.

(** The outcome of a transaction creation gives [atlanticTransactionId]
    nothing to cast: it is refused or thrown, or its id is stored as it
    is. *)
Definition plain_creation (out : Outcome) : bool :=
  match created_id out with
  | Some id => stored_as_is id
  | None => true
  end.

(** The validators of [orderSchema] (lines 20-43) on a new document: a
    required string is not empty, a number is not [NaN], and the deposit
    id is stored as it is. *)
Definition passes_schema (o : Order) : bool :=
  negb (is_empty (orderId o)) && negb (is_empty (productId o))
  && negb (is_empty (productName o)) && negb (is_nan (productPrice o))
  && negb (is_empty (providerName o)) && negb (is_empty (targetId o))
  && negb (is_empty (paymentMethodCode o))
  && negb (is_empty (paymentMethodName o))
  && negb (is_nan (adminFeePaymentMethod o)) && negb (is_nan (adminFeeGlobal o))
  && negb (is_nan (totalAdminFee o))
  && negb (is_nan (totalAmountToPayForDeposit o))
  && negb (is_empty (status o)) && stored_as_is (atlanticDepositId o).

(** A creation that goes through: a complete request, both catalogue
    entries found, a deposit the provider opens, an [orderId] not in use,
    and a document that passes the schema. *)
Definition creation_succeeds (env : Env) (cat : Catalog) (req : CreateOrderBody)
    (w : World) (p : Product.t) (pm : PaymentMethod.t) (r data : JVal) : Prop :=
  is_empty (body_productId req) || is_empty (body_targetId req)
  || is_empty (body_paymentMethodCode req) || is_empty (body_providerName req)
  = false
  ∧ find_product cat (body_productId req) (body_providerName req) = Some p
  ∧ find_payment_method cat (body_paymentMethodCode req) = Some pm
  ∧ gateway env (deposit_create_call env p pm) = Returned r
  ∧ status_and_data r = Ok true
  ∧ get r "data" = Ok data
  ∧ store w !! orderIdInternal env = None
  ∧ ∃ id, get data "id" = Ok id
          ∧ passes_schema (newOrder env req p pm data id) = true.

(** [x] is the Number of the integer [z]; of [0] there are two. *)
Definition integral (x : float) (z : Z) : Prop :=
  x = number_of_Z z ∨ (z = 0%Z ∧ x = (-0)%float).

(** The amount by the formula of the specification, in exact arithmetic:
    [ceil (basePrice + paymentMethodFee + globalAdminFee)] over the
    rationals. *)
Definition exact_totalAmountDue (basePrice flatFee feePercent : Q) : Z :=
  Qceiling (basePrice + ((flatFee + basePrice * (feePercent / inject_Z 100))
                         + basePrice * (inject_Z 2 / inject_Z 100)))%Q.

(** Only the entry [key] of the collection may change. *)
Definition only_entry (key : string) (sc sc' : Scope) : Prop :=
  ∀ k, k ≠ key → store (world sc') !! k = store (world sc) !! k.

(** The collection is untouched and the document keeps what transaction
    creation never writes. *)
Definition creation_frame (sc sc' : Scope) : Prop :=
  store (world sc') = store (world sc)
  ∧ updatedAt (order sc') = updatedAt (order sc)
  ∧ depositDetails (order sc') = depositDetails (order sc)
  ∧ orderId (order sc') = orderId (order sc).

(** ** Sample data *)

Module Sample.

Definition product : Product.t :=
  Product.mk "TSEL10" "Telkomsel 10.000" "TELKOMSEL" "Pulsa" "tsel.png" 10000%float.

Definition method : PaymentMethod.t :=
  PaymentMethod.mk "BCAVA" "BCA Virtual Account" "bank" 500%float 1.5%float.

Definition catalog : Catalog := mkCatalog [product] [method].

Definition request : CreateOrderBody :=
  mkCreateOrderBody "TSEL10" "081234567890" "BCAVA" "telkomsel".

(** An order awaiting payment, as a creation leaves one, with deposit
    details [{a: 1, b: 2}]. *)
Definition fresh_order : Order :=
  {| orderId := "ORD-1700000000000-K3X9QZ";
     productId := "TSEL10";
     productName := "Telkomsel 10.000";
     productPrice := 10000%float;
     providerName := "TELKOMSEL";
     productImgUrl := "tsel.png";
     targetId := "081234567890";
     paymentMethodCode := "BCAVA";
     paymentMethodName := "BCA Virtual Account";
     adminFeePaymentMethod := 650%float;
     adminFeeGlobal := 200%float;
     totalAdminFee := 850%float;
     totalAmountToPayForDeposit := 10850%float;
     status := "PENDING_PAYMENT";
     atlanticDepositId := JStr "DEP123";
     depositReffId := "DEP-ORD-1700000000000-K3X9QZ";
     depositDetails := obj [("a", JNum 1); ("b", JNum 2)];
     atlanticTransactionId := JUndefined;
     transactionReffId := None;
     transactionDetails := JUndefined;
     createdAt := 1700000000000;
     updatedAt := 1700000000000 |}.

Definition key : string := "ORD-1700000000000-K3X9QZ".

(** A collection holding one order, and nothing called yet. *)
Definition holding (o : Order) : World := mkWorld {[ orderId o := o ]} [].

(** [{ status: true, data }] *)
Definition accepted (data : JVal) : Outcome :=
  Returned (obj [("status", JBool true); ("data", data)]).

(** [{ status: false, message }] *)
Definition refused (message : string) : Outcome :=
  Returned (obj [("status", JBool false); ("message", JStr message)]).

(** A provider that answers by endpoint, one minute after the sample
    order was written; endpoints without an answer are unreachable. *)
Definition provider (answers : list (string * Outcome)) : Env :=
  mkEnv 1700000060000 "K3X9QZ"
    (λ c, default (Rejected "fetch failed")
                  (snd <$> List.find (λ a, String.eqb (fst a) (endpoint c)) answers))
    1700000060350 1700000060351.

(** The deposit is paid and the transaction is created, still pending. *)
Definition paid_poll : JVal :=
  obj [("status", JStr "success"); ("b", JNum 3); ("c", JNum 4)].

Definition created : JVal :=
  obj [("id", JStr "TRX777"); ("status", JStr "pending")].

Definition paying : Env :=
  provider [("/deposit/status", accepted paid_poll);
            ("/transaksi/create", accepted created)].

(** The deposit is paid and the provider refuses the transaction. *)
Definition refusing_creation : Env :=
  provider [("/deposit/status", accepted paid_poll);
            ("/transaksi/create", refused "Saldo tidak cukup")].

(** The provider does not know the deposit. *)
Definition refusing_poll : Env :=
  provider [("/deposit/status", refused "Deposit tidak ditemukan")].

(** Nothing answers. *)
Definition unreachable : Env := provider [].

Definition cancelling : Env :=
  provider [("/deposit/cancel", accepted (obj [("status", JStr "Cancel")]))].

Definition opening : Env :=
  provider [("/deposit/create",
             accepted (obj [("id", JStr "DEP123"); ("nominal", JNum 10850)]))].

(** A product of 316 paid with a flat fee of 500 and 23 percent. *)
Definition odd_product : Product.t :=
  Product.mk "XL316" "XL 316" "XL" "Pulsa" "xl.png" 316%float.

Definition odd_method : PaymentMethod.t :=
  PaymentMethod.mk "ALFA" "Alfamart" "retail" 500%float 23%float.

Definition odd_catalog : Catalog := mkCatalog [odd_product] [odd_method].

Definition odd_request : CreateOrderBody :=
  mkCreateOrderBody "XL316" "081234567890" "ALFA" "xl".

Definition completed_order : Order := set_status "ORDER_COMPLETED" fresh_order.

Definition errored_order : Order :=
  set_status "TRANSACTION_CREATION_ERROR" fresh_order.

(** An order awaiting payment that carries transaction details. *)
Definition annotated_order : Order :=
  set_transactionDetails (obj [("note", JStr "first attempt")]) fresh_order.

(** The order after a poll under [refusing_creation]. *)
Definition refused_order : Order :=
  set_transactionDetails (obj [("error", JStr "Saldo tidak cukup")])
    (set_status "TRANSACTION_CREATION_FAILED"
       (paid refusing_creation paid_poll fresh_order)).

Definition nothing : World := mkWorld ∅ [].

End Sample.

(** ** Vocabulary of the further properties *)

(** What an order is created with and no handler assigns afterwards. *)
Definition snapshot (o : Order) :=
  (orderId o, productId o, productName o, productPrice o, providerName o,
   productImgUrl o, targetId o, paymentMethodCode o, paymentMethodName o,
   adminFeePaymentMethod o, adminFeeGlobal o, totalAdminFee o,
   totalAmountToPayForDeposit o, atlanticDepositId o, depositReffId o,
   createdAt o).

(** A request to one of the three routes of the engine. *)
Inductive Request : Type :=
  | CreateOrder (env : Env) (cat : Catalog) (body : CreateOrderBody)
  | OrderStatus (env : Env) (orderId : string)
  | CancelOrder (env : Env) (orderId : string).

Definition serve (rq : Request) (w : World) : Response * World :=
  match rq with
  | CreateOrder env cat body => createOrder env cat body w
  | OrderStatus env key => orderStatus env key w
  | CancelOrder env key => cancelOrder env key w
  end.

(** The world after a run of requests, served one after the other. *)
Fixpoint serve_all (rqs : list Request) (w : World) : World :=
  match rqs with
  | [] => w
  | rq :: rest => serve_all rest (serve rq w).2
  end.

(** The document keeps its snapshot, other entries are untouched, and
    the entry [key] is as it was or holds a document with the snapshot. *)
Definition snapshot_kept (key : string) (sc sc' : Scope) : Prop :=
  snapshot (order sc') = snapshot (order sc)
  ∧ (∀ k, k ≠ key → store (world sc') !! k = store (world sc) !! k)
  ∧ (store (world sc') !! key = store (world sc) !! key
     ∨ ∃ d, store (world sc') !! key = Some d ∧ snapshot d = snapshot (order sc)).

(** An order that is stored stays stored, with its snapshot. *)
Definition order_survives (w w' : World) : Prop :=
  ∀ k o, store w !! k = Some o →
         ∃ o', store w' !! k = Some o' ∧ snapshot o' = snapshot o.

Definition info_of (p : Product.t) : ProviderInfo :=
  mkProviderInfo (Product.provider p) (Product.category p) (Product.img_url p).

(** The map built so far: keys without repetition, and under every key
    the info of the first product of that provider. *)
Definition first_seen (cache : list Product.t) (m : list (string * ProviderInfo))
  : Prop :=
  NoDup m.*1
  ∧ (∀ n, n ∈ m.*1 ↔ ∃ p, p ∈ cache ∧ Product.provider p = n)
  ∧ (∀ n i, (n, i) ∈ m →
       ∃ p, List.find (λ p, bool_decide (Product.provider p = n)) cache = Some p
            ∧ i = info_of p).

Definition price_list_call : Call :=
  mkCall "/layanan/price_list" [("type", JStr "prabayar")].

Definition deposit_metode_call : Call := mkCall "/deposit/metode" [].

(** The listing cannot be read: the fetch throws, or [data] is a truthy
    value that is no array, or an array with a [null] in it. *)
Definition unreadable {A} (out : ListingFetch A) : Prop :=
  (∃ reason, out = Fails reason)
  ∨ (∃ status, out = Gives (Answer status NotArray) ∧ truthy status = true)
  ∨ (∃ status l, out = Gives (Answer status (Items l)) ∧ truthy status = true
                 ∧ None ∈ l).

(** The listing is read and carries no list: the guard
    [r && r.status && r.data] fails. *)
Definition unlisted {A} (out : ListingFetch A) : Prop :=
  out = Gives NotObject
  ∨ (∃ status data, out = Gives (Answer status data) ∧ truthy status = false)
  ∨ (∃ status, out = Gives (Answer status Falsy)).

(** The listing is read and carries the list [l], without a [null]. *)
Definition lists {A} (out : ListingFetch A) (l : list (Listed A)) : Prop :=
  ∃ status, out = Gives (Answer status (Items (Some <$> l)))
            ∧ truthy status = true.

(** The entries of [l] whose [status] is the string [word]. *)

Definition wanted {A} (word : string) (l : list (Listed A)) : list A :=
  entry <$> filter (λ x, is_string word (listed_status x) = true) l.

(** ** More sample data *)

Module Scenario.

(** The sample order with its transaction under way. *)
Definition shipped_order : Order :=
  set_atlanticTransactionId (JStr "TRX777")
    (set_status "ORDER_PROCESSING" Sample.fresh_order).

(** The sample order paid, with no transaction yet. *)
Definition paid_order : Order :=
  set_status "PAYMENT_SUCCESSFUL_PROCESSING_ORDER" Sample.fresh_order.

Definition delivered : JVal := obj [("status", JStr "success"); ("sn", JStr "1234")].

Definition delivering : Env :=
  Sample.provider [("/transaksi/status", Sample.accepted delivered)].

Definition refusing_transaction_poll : Env :=
  Sample.provider [("/transaksi/status", Sample.refused "Transaksi tidak ditemukan")].

(** A deposit-status answer whose data has no [status]. *)
Definition vague : Env :=
  Sample.provider [("/deposit/status", Sample.accepted (obj [("nominal", JNum 10850)]))].

(** The collection already holds the id the next creation generates. *)
Definition taken : World :=
  mkWorld {[ "ORD-1700000060000-K3X9QZ" := Sample.fresh_order ]} [].

Definition qris : PaymentMethod.t :=
  PaymentMethod.mk "QRIS" "QRIS" "ewallet" 0%float 0.7%float.

Definition qris_catalog : Catalog := mkCatalog [Sample.product] [Sample.method; qris].

Definition qris_request : CreateOrderBody :=
  mkCreateOrderBody "TSEL10" "081234567890" "QRIS" "telkomsel".

Definition no_target : CreateOrderBody :=
  mkCreateOrderBody "TSEL10" "" "BCAVA" "telkomsel".

Definition run : list Request :=
  [ CreateOrder Sample.opening Sample.catalog Sample.request;
    OrderStatus Sample.paying Sample.key;
    CancelOrder Sample.cancelling Sample.key ].

Definition down : Upstream := mkUpstream (Fails "fetch failed") (Fails "fetch failed").

(** A product that is sold out, and a provider that lists it beside the
    sample product, with one active and one inactive payment method. *)
Definition sold_out : Product.t :=
  Product.mk "TSEL5" "Telkomsel 5.000" "TELKOMSEL" "Pulsa"
             "https://img.example/tsel.png" 5500%float.

Definition up : Upstream :=
  mkUpstream
    (Gives (Answer (JBool true)
              (Items [Some (mkListed Sample.product (JStr "available"));
                      Some (mkListed sold_out (JStr "empty"))])))
    (Gives (Answer (JBool true)
              (Items [Some (mkListed Sample.method (JStr "aktif"));
                      Some (mkListed qris (JStr "nonaktif"))]))).

(** A price list with a [null] in it. *)
Definition holed : Upstream :=
  mkUpstream
    (Gives (Answer (JBool true)
              (Items [Some (mkListed Sample.product (JStr "available")); None])))
    (Fails "fetch failed").

(** A [JSON.parse] that knows one body, written here without its quotes,
    and the [String] conversion of the values it yields. *)
Definition parse (text : string) : Res JVal :=
  if String.eqb text "{message: Saldo tidak cukup}"
  then Ok (obj [("message", JStr "Saldo tidak cukup")])
  else Throw (Error "Unexpected token in JSON").

Definition to_string (v : JVal) : string :=
  match v with
  | JStr s => s
  | _ => "[object Object]"
  end.

Definition payment_required : HttpResponse :=
  mkHttpResponse false 402 "{message: Saldo tidak cukup}".

End Scenario.

(** ** Reasoning about handler code *)

(** A relation between the state before and after that every step of a
    computation respects. *)
Section Keeps.
Context {S : Type} (P : S → S → Prop).
Hypothesis P_refl : ∀ s, P s s.
Hypothesis P_trans : ∀ a b c, P a b → P b c → P a c.

Definition keeps {A} (c : M S A) : Prop := ∀ s, P s (c s).2.

Lemma keeps_ret {A} (a : A) : keeps (ret a).
Proof. intros s. apply P_refl. Qed.

Lemma keeps_lift {A} (r : Res A) : keeps (lift r).
Proof. intros s. apply P_refl. Qed.

Lemma keeps_gets {A} (f : S → A) : keeps (gets f).
Proof. intros s. apply P_refl. Qed.

Lemma keeps_modify (f : S → S) : (∀ s, P s (f s)) → keeps (modify f).
Proof. intros H s. apply H. Qed.

Lemma keeps_bind {A B} (c : M S A) (k : A → M S B) :
  keeps c → (∀ a, keeps (k a)) → keeps (bind c k).
Proof.
  intros Hc Hk s. unfold bind. specialize (Hc s).
  destruct (c s) as [[a|e] s']; simpl in *; [|done].
  eapply P_trans; [exact Hc | apply Hk].
Qed.

Lemma keeps_try_catch {A} (c : M S A) (h : Thrown → M S A) :
  keeps c → (∀ e, keeps (h e)) → keeps (try_catch c h).
Proof.
  intros Hc Hh s. unfold try_catch. specialize (Hc s).
  destruct (c s) as [[a|e] s']; simpl in *; [done|].
  eapply P_trans; [exact Hc | apply Hh].
Qed.

Lemma keeps_if {A} (b : bool) (c1 c2 : M S A) :
  keeps c1 → keeps c2 → keeps (if b then c1 else c2).
Proof. by destruct b. Qed.
End Keeps.

(** *** The built-ins on concrete values *)

Example ceil_examples :
  Math_ceil 10850%float = 10850%float ∧
  Math_ceil 10849.2%float = 10850%float ∧
  Math_ceil 0.3%float = 1%float ∧
  Math_ceil (-1.5)%float = (-1)%float ∧
  Math_ceil (-0.5)%float = (-0)%float ∧
  Math_ceil (-0)%float = (-0)%float ∧
  Math_ceil 4503599627370495.5%float = 4503599627370496%float ∧
  Math_ceil 1e300%float = 1e300%float ∧
  Math_ceil infinity = infinity ∧
  Math_ceil nan = nan.
Proof. vm_compute. repeat split; reflexivity. Qed.

Example exact_examples :
  exact 316%float = Some (inject_Z 316) ∧
  exact 0.5%float = Some (Qmake 1 2) ∧
  exact (-0)%float = Some (inject_Z 0) ∧
  exact infinity = None ∧
  exact nan = None ∧
  number_of_Z 896 = 896%float.
Proof. vm_compute. repeat split; reflexivity. Qed.

(** [Math.ceil] of a finite number is the integer just above it. *)
Lemma Math_ceil_rounds_up x q :
  exact x = Some q →
  ∃ z, integral (Math_ceil x) z
       ∧ (inject_Z (z - 1) < q)%Q ∧ (q <= inject_Z z)%Q.
Proof.
  unfold Math_ceil, exact. destruct (Prim2SF x) as [s|s| |s m e] eqn:E; try done.
  - intros [= <-]. exists 0%Z. split; [|done].
    rewrite <- (SF2Prim_Prim2SF x), E. destruct s; [by right|by left].
  - intros [= <-].
    set (q := if (0 <=? e)%Z then _ else _).
    exists (Qceiling q). split_and!.
    + destruct (Qceiling q =? 0)%Z eqn:Ez; [|by left].
      right. split; [|done]. by apply Z.eqb_eq.
    + apply Qceiling_lt.
    + apply Qle_ceiling.
Qed.

Lemma Math_ceil_not_finite x : exact x = None → Math_ceil x = x.
Proof.
  unfold Math_ceil, exact. by destruct (Prim2SF x).
Qed.

Lemma number_or_zero_default x :
  number_or_zero x = if is_nan x || is_zero x then 0%float else x.
Proof. unfold number_or_zero, truthy. by destruct (is_nan x || is_zero x). Qed.

Example toUpperCase_example : toUpperCase "Pending-ok_1" = "PENDING-OK_1".
Proof. reflexivity. Qed.

Example spread_example :
  spread (JStr "hi") (JObj {[ "a" := JNull ]})
  = JObj (<["0" := JStr "h"]> (<["1" := JStr "i"]> {[ "a" := JNull ]})).
Proof. vm_compute. reflexivity. Qed.

(** *** What the steps of [reconcile] leave alone *)

Lemma only_entry_refl key sc : only_entry key sc sc.
Proof. by intros k _. Qed.

Lemma only_entry_trans key a b c :
  only_entry key a b → only_entry key b c → only_entry key a c.
Proof. intros H1 H2 k Hk. by rewrite H2, H1. Qed.

Lemma creation_frame_refl sc : creation_frame sc sc.
Proof. by repeat split. Qed.

Lemma creation_frame_trans a b c :
  creation_frame a b → creation_frame b c → creation_frame a c.
Proof.
  intros (?&?&?&?) (?&?&?&?). repeat split; congruence.
Qed.

Create HintDb keeps.
#[local] Hint Resolve only_entry_refl only_entry_trans
  creation_frame_refl creation_frame_trans : keeps.

Lemma fetch_keeps_store (P : Scope → Scope → Prop) env ep params :
  (∀ o st cs cs', P (mkScope o (mkWorld st cs)) (mkScope o (mkWorld st cs'))) →
  keeps P (in_world (fetchAtlanticAPI env ep params)).
Proof.
  intros HP [o [st cs]]. unfold in_world, fetchAtlanticAPI. simpl.
  destruct (gateway env _); simpl; apply HP.
Qed.

(** Closes [keeps P c] for straight-line handler code, given how [P]
    fares under a provider call, an assignment and a save. *)
Ltac keeps_steps :=
  repeat match goal with
    | |- keeps _ (bind _ _) => apply keeps_bind
    | |- keeps _ (try_catch _ _) => apply keeps_try_catch
    | |- keeps _ (ret _) => apply keeps_ret
    | |- keeps _ (lift _) => apply keeps_lift
    | |- keeps _ (gets _) => apply keeps_gets
    | |- keeps _ (if _ then _ else _) => apply keeps_if
    | |- keeps _ (in_world (fetchAtlanticAPI _ _ _)) =>
        apply fetch_keeps_store; intros; hnf; simpl; by eauto
    | |- keeps _ (modify _) =>
        apply keeps_modify; intros [? [? ?]]; hnf; simpl; by eauto
    | |- ∀ _ : Scope, _ => solve [eauto with keeps]
    | |- ∀ _, keeps _ _ => intros
    end.

Lemma create_transaction_frame fallback prefix env trf :
  keeps creation_frame (create_transaction fallback prefix env trf).
Proof. unfold create_transaction, assign. keeps_steps. Qed.

Lemma save_only_entry key : keeps (only_entry key) (save key).
Proof.
  apply keeps_modify. intros [o [st cs]] k Hk. simpl.
  by rewrite lookup_insert_ne.
Qed.

Lemma reconcile_only_entry env key : keeps (only_entry key) (reconcile env key).
Proof.
  unfold reconcile, reconcile_deposit, reconcile_transaction, reconcile_retry,
    payment_outcome, transaction_outcome,
    create_transaction_first, create_transaction_again, create_transaction,
    assign.
  keeps_steps; apply save_only_entry.
Qed.

(** *** Orders the dispatch passes by *)

Lemma not_elem_of_cons_inv {A} (x y : A) (l : list A) :
  x ∉ y :: l → x ≠ y ∧ x ∉ l.
Proof. by rewrite not_elem_of_cons. Qed.

(** Turns [s ∉ [a; b; ...]] in the context into the disequalities. *)
Ltac split_not_elem :=
  repeat match goal with
    | H : _ ∉ _ ++ _ |- _ => apply not_elem_of_app in H; destruct H
    | H : _ ∉ _ :: _ |- _ => apply not_elem_of_cons_inv in H; destruct H
    | H : _ ∉ [] |- _ => clear H
    end.

Lemma reconcile_inert env key o w :
  status o ∉ awaiting_payment ++ awaiting_transaction →
  reconcile env key (mkScope o w) = (Ok tt, mkScope o w).
Proof.
  intros H. unfold awaiting_payment, awaiting_transaction in H.
  split_not_elem.
  unfold reconcile, bind, gets. simpl.
  by rewrite !bool_decide_eq_false_2.
Qed.

Lemma failed_creation_skipped env key o w :
  status o = "TRANSACTION_CREATION_FAILED" →
  truthy (atlanticTransactionId o) = false →
  reconcile env key (mkScope o w) = (Ok tt, mkScope o w).
Proof.
  intros Hs Ht. unfold reconcile, bind, gets. simpl.
  by rewrite Hs, Ht.
Qed.

Lemma is_empty_false key : key ≠ "" → is_empty key = false.
Proof. intros H. unfold is_empty. by apply String.eqb_neq. Qed.

Lemma orderStatus_inert env key o w :
  key ≠ "" → store w !! key = Some o →
  status o ∉ awaiting_payment ++ awaiting_transaction →
  orderStatus env key w = (mkResponse 200 (OrderData o), w).
Proof.
  intros Hk Ho Hs. unfold orderStatus.
  by rewrite is_empty_false, Ho, reconcile_inert.
Qed.

Lemma orderStatus_other_entries env key w k :
  k ≠ key → store (orderStatus env key w).2 !! k = store w !! k.
Proof.
  intros Hk. unfold orderStatus.
  destruct (is_empty key); [done|].
  destruct (store w !! key) as [o|] eqn:Ho; [|done].
  pose proof (reconcile_only_entry env key (mkScope o w) k Hk) as H.
  by destruct (reconcile env key (mkScope o w)) as [[[]|e] sc].
Qed.

Lemma polls_inert key o reqs : ∀ w,
  store w !! key = Some o →
  status o ∉ awaiting_payment ++ awaiting_transaction →
  store (polls reqs w) !! key = Some o.
Proof.
  induction reqs as [|[env k] reqs IH]; intros w Ho Hs; [done|].
  simpl. apply IH; [|done].
  destruct (decide (k = key)) as [->|Hk].
  - destruct (decide (key = "")) as [->|Hne]; [by rewrite <- Ho|].
    by rewrite (orderStatus_inert env key o w).
  - by rewrite orderStatus_other_entries.
Qed.

(** *** Running the branches *)

Ltac run_unfold :=
  unfold try_catch, in_world, fetchAtlanticAPI, assign, save, bind, gets,
    lift, modify, ret, logged in *;
  cbn [order world store calls fst snd] in *.

Ltac run_cases :=
  repeat (case_match; simplify_eq; cbn [order world store calls] in * ).

(** Transaction creation never throws and makes exactly one call. *)
Lemma create_transaction_runs fallback prefix env o w :
  ∃ o', create_transaction fallback prefix env ("TRX-" +:+ orderId o) (mkScope o w)
        = (Ok tt, mkScope o' (logged w [create_transaction_call o])).
Proof.
  unfold create_transaction, create_transaction_call. run_unfold.
  run_cases; eexists; reflexivity.
Qed.

(** A created transaction replaces [transactionDetails] by the payload,
    unless the payload's status is a truthy value that is no string. *)
Lemma create_transaction_created fallback prefix env o w r data sv :
  gateway env (create_transaction_call o) = Returned r →
  status_and_data r = Ok true →
  get r "data" = Ok data →
  get data "status" = Ok sv →
  truthy sv = false ∨ (∃ s, sv = JStr s) →
  ∃ o', create_transaction fallback prefix env ("TRX-" +:+ orderId o) (mkScope o w)
        = (Ok tt, mkScope o' (logged w [create_transaction_call o]))
        ∧ transactionDetails o' = data.
Proof.
  intros Hg Hok Hd Hs Hsv.
  unfold create_transaction. run_unfold.
  unfold create_transaction_call in Hg. rewrite Hg, Hok, Hd. simpl.
  destruct (get data "id") as [id|e] eqn:Hid.
  2: { destruct data; simplify_eq. }
  rewrite Hs. destruct Hsv as [Hf|[s ->]].
  - rewrite Hf. simpl. eexists. split; [reflexivity|done].
  - destruct (truthy (JStr s)); simpl; try case_bool_decide;
      eexists; (split; [reflexivity|done]).
Qed.

(** A created transaction whose status reads [PENDING] leaves the order
    in [ORDER_PROCESSING]. *)
Lemma create_transaction_pending fallback prefix env o w r data s :
  gateway env (create_transaction_call o) = Returned r →
  status_and_data r = Ok true →
  get r "data" = Ok data →
  get data "status" = Ok (JStr s) →
  toUpperCase s = "PENDING" →
  ∃ o', create_transaction fallback prefix env ("TRX-" +:+ orderId o) (mkScope o w)
        = (Ok tt, mkScope o' (logged w [create_transaction_call o]))
        ∧ status o' = "ORDER_PROCESSING".
Proof.
  intros Hg Hok Hd Hs Hup.
  unfold create_transaction. run_unfold.
  unfold create_transaction_call in Hg. rewrite Hg, Hok, Hd. simpl.
  assert (truthy (JStr s) = true) as Ht by (by destruct s).
  destruct (get data "id") as [id|e] eqn:Hid.
  2: { destruct data; simplify_eq. }
  rewrite Hs, Ht. simpl. rewrite Hup. simpl.
  eexists. split; [reflexivity|]. done.
Qed.

Lemma create_first_frame env trf :
  keeps creation_frame (create_transaction_first env trf).
Proof. apply create_transaction_frame. Qed.

Lemma create_again_frame env trf :
  keeps creation_frame (create_transaction_again env trf).
Proof. apply create_transaction_frame. Qed.

Lemma create_first_runs env o w :
  ∃ o', create_transaction_first env ("TRX-" +:+ orderId o) (mkScope o w)
        = (Ok tt, mkScope o' (logged w [create_transaction_call o])).
Proof. apply create_transaction_runs. Qed.

Lemma create_again_runs env o w :
  ∃ o', create_transaction_again env ("TRX-" +:+ orderId o) (mkScope o w)
        = (Ok tt, mkScope o' (logged w [create_transaction_call o])).
Proof. apply create_transaction_runs. Qed.

Lemma create_first_pending env o w r data s :
  gateway env (create_transaction_call o) = Returned r →
  status_and_data r = Ok true →
  get r "data" = Ok data →
  get data "status" = Ok (JStr s) →
  toUpperCase s = "PENDING" →
  ∃ o', create_transaction_first env ("TRX-" +:+ orderId o) (mkScope o w)
        = (Ok tt, mkScope o' (logged w [create_transaction_call o]))
        ∧ status o' = "ORDER_PROCESSING".
Proof. apply create_transaction_pending. Qed.

Lemma reconcile_deposit_answered env key o w r data s :
  gateway env (deposit_status_call o) = Returned r →
  status_and_data r = Ok true →
  get r "data" = Ok data →
  get data "status" = Ok (JStr s) →
  reconcile_deposit env key (mkScope o w)
  = (payment_outcome env (toUpperCase s);; save key)
      (mkScope (polled_deposit env data o) (logged w [deposit_status_call o])).
Proof.
  intros Hg Hok Hd Hs. unfold deposit_status_call in Hg.
  unfold reconcile_deposit. run_unfold.
  by rewrite Hg, Hok, Hd, Hs.
Qed.

Lemma reconcile_awaiting_payment env key o w :
  status o ∈ awaiting_payment →
  reconcile env key (mkScope o w) = reconcile_deposit env key (mkScope o w).
Proof.
  intros Hs. unfold awaiting_payment in Hs. unfold reconcile at 1. run_unfold.
  repeat (apply elem_of_cons in Hs as [->|Hs]); [done..|].
  by apply elem_of_nil in Hs.
Qed.

Lemma elem_of_three (x a b c : string) : x ∈ [a; b; c] → x = a ∨ x = b ∨ x = c.
Proof.
  intros H. repeat (apply elem_of_cons in H as [->|H]); eauto.
  by apply elem_of_nil in H.
Qed.

Lemma reconcile_awaiting_transaction env key o w :
  status o ∈ awaiting_transaction →
  truthy (atlanticTransactionId o) = true →
  reconcile env key (mkScope o w) = reconcile_transaction env key (mkScope o w).
Proof.
  intros Hs Ht. unfold reconcile at 1. run_unfold. rewrite Ht.
  apply elem_of_three in Hs as [Hs|[Hs|Hs]]; by rewrite Hs.
Qed.

Lemma reconcile_retrying env key o w :
  status o = "PAYMENT_SUCCESSFUL_PROCESSING_ORDER" →
  truthy (atlanticTransactionId o) = false →
  reconcile env key (mkScope o w) = reconcile_retry env key (mkScope o w).
Proof.
  intros Hs Ht. unfold reconcile at 1. run_unfold. by rewrite Ht, Hs.
Qed.

(** Every order falls under exactly one of the four cases of the dispatch. *)
Lemma reconcile_dispatch env key o w :
  (status o ∈ awaiting_payment
   ∧ reconcile env key (mkScope o w) = reconcile_deposit env key (mkScope o w))
  ∨ (status o ∈ awaiting_transaction ∧ truthy (atlanticTransactionId o) = true
     ∧ reconcile env key (mkScope o w) = reconcile_transaction env key (mkScope o w))
  ∨ (status o = "PAYMENT_SUCCESSFUL_PROCESSING_ORDER"
     ∧ truthy (atlanticTransactionId o) = false
     ∧ reconcile env key (mkScope o w) = reconcile_retry env key (mkScope o w))
  ∨ reconcile env key (mkScope o w) = (Ok tt, mkScope o w).
Proof.
  destruct (decide (status o ∈ awaiting_payment)) as [Hp|Hp].
  { left. split; [done|]. by apply reconcile_awaiting_payment. }
  right.
  destruct (decide (status o ∈ awaiting_transaction)) as [Ht|Ht].
  - destruct (truthy (atlanticTransactionId o)) eqn:Hid.
    { left. split_and!; [done..|]. by apply reconcile_awaiting_transaction. }
    right.
    destruct (decide (status o = "PAYMENT_SUCCESSFUL_PROCESSING_ORDER")) as [E|E].
    { left. split_and!; [done..|]. by apply reconcile_retrying. }
    right. unfold reconcile. run_unfold. rewrite Hid.
    apply elem_of_three in Ht as [Ht|[Ht|Ht]]; [|done|]; by rewrite Ht.
  - right. right. apply reconcile_inert. by apply not_elem_of_app.
Qed.

(** The outcome chains never throw, leave the collection alone and keep
    the stamp and the merged details of the poll. *)
Lemma payment_outcome_runs env up o w :
  ∃ o' cs,
    payment_outcome env up (mkScope o w) = (Ok tt, mkScope o' (mkWorld (store w) cs))
    ∧ updatedAt o' = updatedAt o
    ∧ depositDetails o' = depositDetails o
    ∧ (up ≠ "SUCCESS" → cs = calls w).
Proof.
  unfold payment_outcome.
  destruct (decide (up = "SUCCESS")) as [->|Hup].
  - rewrite bool_decide_eq_true_2 by done. run_unfold.
    cbn [orderId set_status].
    set (o1 := set_transactionReffId (Some ("TRX-" +:+ orderId o))
                 (set_status "PAYMENT_SUCCESSFUL_PROCESSING_ORDER" o)).
    change (orderId o) with (orderId o1).
    destruct (create_first_runs env o1 w) as [o' Hrun].
    pose proof (create_first_frame env ("TRX-" +:+ orderId o1) (mkScope o1 w))
      as (_ & Hu & Hd & _).
    rewrite Hrun in Hu, Hd. rewrite Hrun. simpl in *.
    eexists _, _. split_and!; [reflexivity|done..].
  - rewrite (bool_decide_eq_false_2 _ Hup). run_unfold.
    destruct w. repeat case_match; eexists _, _; split_and!; done.
Qed.

Lemma transaction_outcome_runs up o w :
  ∃ o',
    transaction_outcome up (mkScope o w) = (Ok tt, mkScope o' w)
    ∧ updatedAt o' = updatedAt o
    ∧ transactionDetails o' = transactionDetails o.
Proof.
  unfold transaction_outcome. run_unfold.
  repeat case_match; eexists; split_and!; done.
Qed.

Lemma reconcile_retry_runs env key o w :
  ∃ o',
    reconcile_retry env key (mkScope o w)
    = (Ok tt, mkScope o' (mkWorld (<[key := o']> (store w))
                                  (calls w ++ [create_transaction_call o])))
    ∧ updatedAt o' = now env.
Proof.
  unfold reconcile_retry. run_unfold.
  cbn [orderId set_updatedAt].
  set (o1 := set_transactionReffId (Some ("TRX-" +:+ orderId o))
               (set_updatedAt (now env) o)).
  change (orderId o) with (orderId o1).
  destruct (create_again_runs env o1 w) as [o' Hrun].
  pose proof (create_again_frame env ("TRX-" +:+ orderId o1) (mkScope o1 w))
    as (_ & Hu & _).
  rewrite Hrun in Hu. rewrite Hrun. simpl in *.
  eexists. split; [reflexivity|done].
Qed.

(** *** Merging and replacing payloads *)

Lemma spread_lookup a b k :
  own_props (spread a b) !! k
  = match own_props b !! k with
    | Some v => Some v
    | None => own_props a !! k
    end.
Proof.
  unfold spread. cbn [own_props]. rewrite lookup_union.
  by destruct (own_props b !! k), (own_props a !! k).
Qed.

Lemma deposit_poll_merges env key w o r data s :
  key ≠ "" →
  store w !! key = Some o →
  status o ∈ awaiting_payment →
  gateway env (deposit_status_call o) = Returned r →
  status_and_data r = Ok true →
  get r "data" = Ok data →
  get data "status" = Ok (JStr s) →
  ∃ o' cs,
    orderStatus env key w
    = (mkResponse 200 (OrderData o'), mkWorld (<[key := o']> (store w)) cs)
    ∧ depositDetails o' = spread (depositDetails o) data.
Proof.
  intros Hk Ho Hst Hg Hok Hd Hs. unfold orderStatus.
  rewrite (is_empty_false _ Hk), Ho, reconcile_awaiting_payment by done.
  rewrite (reconcile_deposit_answered _ _ _ _ _ _ _ Hg Hok Hd Hs).
  destruct (payment_outcome_runs env (toUpperCase s) (polled_deposit env data o)
              (logged w [deposit_status_call o])) as (o' & cs & Hrun & _ & Hdd & _).
  run_unfold. rewrite Hrun. cbn [order world store calls].
  by exists o', cs.
Qed.

Lemma reconcile_transaction_answered env key o w r data s :
  gateway env (transaction_status_call o) = Returned r →
  status_and_data r = Ok true →
  get r "data" = Ok data →
  get data "status" = Ok (JStr s) →
  reconcile_transaction env key (mkScope o w)
  = (transaction_outcome (toUpperCase s);; save key)
      (mkScope (polled_transaction env data o)
               (logged w [transaction_status_call o])).
Proof.
  intros Hg Hok Hd Hs. unfold transaction_status_call in Hg.
  unfold reconcile_transaction. run_unfold.
  by rewrite Hg, Hok, Hd, Hs.
Qed.

Lemma transaction_poll_merges env key w o r data s :
  key ≠ "" →
  store w !! key = Some o →
  status o ∈ awaiting_transaction →
  truthy (atlanticTransactionId o) = true →
  gateway env (transaction_status_call o) = Returned r →
  status_and_data r = Ok true →
  get r "data" = Ok data →
  get data "status" = Ok (JStr s) →
  ∃ o',
    orderStatus env key w
    = (mkResponse 200 (OrderData o'),
       mkWorld (<[key := o']> (store w)) (calls w ++ [transaction_status_call o]))
    ∧ transactionDetails o' = spread (transactionDetails o) data.
Proof.
  intros Hk Ho Hst Hid Hg Hok Hd Hs. unfold orderStatus.
  rewrite (is_empty_false _ Hk), Ho, reconcile_awaiting_transaction by done.
  rewrite (reconcile_transaction_answered _ _ _ _ _ _ _ Hg Hok Hd Hs).
  destruct (transaction_outcome_runs (toUpperCase s) (polled_transaction env data o)
              (logged w [transaction_status_call o])) as (o' & Hrun & _ & Htd).
  run_unfold. rewrite Hrun. cbn [order world store calls].
  by exists o'.
Qed.

Lemma first_creation_replaces env key w o r data s r2 data2 sv2 :
  key ≠ "" →
  store w !! key = Some o →
  status o ∈ awaiting_payment →
  gateway env (deposit_status_call o) = Returned r →
  status_and_data r = Ok true →
  get r "data" = Ok data →
  get data "status" = Ok (JStr s) →
  toUpperCase s = "SUCCESS" →
  gateway env (create_transaction_call o) = Returned r2 →
  status_and_data r2 = Ok true →
  get r2 "data" = Ok data2 →
  get data2 "status" = Ok sv2 →
  truthy sv2 = false ∨ (∃ s2, sv2 = JStr s2) →
  ∃ o' cs,
    orderStatus env key w
    = (mkResponse 200 (OrderData o'), mkWorld (<[key := o']> (store w)) cs)
    ∧ transactionDetails o' = data2.
Proof.
  intros Hk Ho Hst Hg Hok Hd Hs Hup Hg2 Hok2 Hd2 Hs2 Hsv.
  unfold orderStatus.
  rewrite (is_empty_false _ Hk), Ho, reconcile_awaiting_payment by done.
  rewrite (reconcile_deposit_answered _ _ _ _ _ _ _ Hg Hok Hd Hs).
  unfold payment_outcome. rewrite Hup, bool_decide_eq_true_2 by done.
  destruct (create_transaction_created "Gagal membuat transaksi" "Internal error: "
              env (paid env data o) (logged w [deposit_status_call o])
              r2 data2 sv2) as (o' & Hrun & Htd); [done..|].
  change (orderId (paid env data o)) with (orderId o) in Hrun.
  run_unfold. unfold paid in Hrun.
  cbn [orderId set_status polled_deposit set_depositDetails set_updatedAt].
  unfold create_transaction_first. rewrite Hrun. cbn [order world store calls].
  by eexists _, _.
Qed.

Lemma retried_creation_replaces env key w o r2 data2 sv2 :
  key ≠ "" →
  store w !! key = Some o →
  status o = "PAYMENT_SUCCESSFUL_PROCESSING_ORDER" →
  truthy (atlanticTransactionId o) = false →
  gateway env (create_transaction_call o) = Returned r2 →
  status_and_data r2 = Ok true →
  get r2 "data" = Ok data2 →
  get data2 "status" = Ok sv2 →
  truthy sv2 = false ∨ (∃ s2, sv2 = JStr s2) →
  ∃ o' cs,
    orderStatus env key w
    = (mkResponse 200 (OrderData o'), mkWorld (<[key := o']> (store w)) cs)
    ∧ transactionDetails o' = data2.
Proof.
  intros Hk Ho Hst Hid Hg2 Hok2 Hd2 Hs2 Hsv.
  unfold orderStatus.
  rewrite (is_empty_false _ Hk), Ho, reconcile_retrying by done.
  unfold reconcile_retry. run_unfold. cbn [orderId set_updatedAt].
  set (o1 := set_transactionReffId (Some ("TRX-" +:+ orderId o))
               (set_updatedAt (now env) o)).
  destruct (create_transaction_created "Gagal membuat transaksi (ulang)"
              "Internal error (ulang): " env o1 w r2 data2 sv2)
    as (o' & Hrun & Htd); [done..|].
  change (orderId o1) with (orderId o) in Hrun.
  unfold create_transaction_again. rewrite Hrun. cbn [order world store calls].
  by eexists _, _.
Qed.

(** *** The provider's answers, read as the handlers read them *)

Lemma status_and_data_true r :
  status_and_data r = Ok true ↔
  ∃ m sv data, r = JObj m ∧ m !! "status" = Some sv ∧ truthy sv = true
               ∧ m !! "data" = Some data ∧ truthy data = true.
Proof.
  unfold status_and_data, res_bind. split.
  - destruct r as [| | | | |m]; try done. cbn [get].
    destruct (m !! "status") as [sv|] eqn:Hs; [|done]. simpl.
    destruct (truthy sv) eqn:Ht; [|done].
    destruct (m !! "data") as [d|] eqn:Hd; simpl; [|done].
    intros [= Htd]. by exists m, sv, d.
  - intros (m & sv & d & -> & Hs & Ht & Hd & Htd). cbn [get].
    rewrite Hs, Hd. simpl. by rewrite Ht, Htd.
Qed.

Lemma opens_deposit_iff r :
  opens_deposit (Returned r) ↔ status_and_data r = Ok true.
Proof.
  rewrite status_and_data_true. unfold opens_deposit. split.
  - intros (m & sv & d & [= ->] & ?). by exists m, sv, d.
  - intros (m & sv & d & -> & ?). by exists m, sv, d.
Qed.

Lemma cancel_confirmed_iff r :
  cancel_confirmed r = Ok true ↔ confirms_cancel (Returned r).
Proof.
  unfold cancel_confirmed, confirms_cancel. split.
  - destruct (status_and_data r) as [[|]|e] eqn:Hok; try done.
    apply status_and_data_true in Hok as (m & sv & data & -> & Hs & Ht & Hd & Htd).
    cbn [res_bind get]. rewrite Hd. simpl.
    destruct data as [| | | | |d]; try done. simpl.
    destruct (d !! "status") as [v|] eqn:Hv; [|done]. simpl.
    unfold call_toLowerCase, call_string_method.
    destruct v as [| |b|x|s|]; try done; simpl.
    + by destruct b.
    + by destruct (negb _).
    + destruct (negb _); [|done]. simpl.
      intros [= Hc%bool_decide_eq_true_1]. by exists m, sv, d, s.
  - intros (m & sv & d & s & [= ->] & Hs & Ht & Hd & Hv & Hc).
    assert (status_and_data (JObj m) = Ok true) as ->.
    { apply status_and_data_true. by exists m, sv, (JObj d). }
    cbn [res_bind get]. rewrite Hd. simpl. rewrite Hv. simpl.
    assert (negb (String.eqb s "") = true) as -> by (by destruct s).
    unfold call_toLowerCase, call_string_method. simpl.
    by rewrite Hc.
Qed.

(** A confirmed cancellation: [shown] is the document of the response,
    [o'] the one that is stored. *)
Lemma cancel_try_confirmed env key o w :
  confirms_cancel (gateway env (deposit_cancel_call o)) →
  ∃ shown o',
    cancelOrder_try env key (mkScope o w)
    = (Ok (mkResponse 200 (Cancelled "Pesanan berhasil dibatalkan." shown)),
       mkScope o' (mkWorld (<[key := o']> (store w))
                           (calls w ++ [deposit_cancel_call o])))
    ∧ status o' = "PAYMENT_CANCELLED"
    ∧ updatedAt o' = now env
    ∧ status shown = "PAYMENT_CANCELLED"
    ∧ (truthy (depositDetails o) = true →
       depositDetails o' = depositDetails o
       ∧ ∀ dm, depositDetails o = JObj dm →
               depositDetails shown = JObj (<["status" := JStr "cancel"]> dm))
    ∧ (truthy (depositDetails o) = false →
       shown = o' ∧ depositDetails o' = obj [("status", JStr "cancel")]).
Proof.
  intros Hc. destruct (gateway env (deposit_cancel_call o)) as [r|reason] eqn:Hg.
  2: { by destruct Hc as (? & ? & ? & ? & ? & _). }
  apply cancel_confirmed_iff in Hc.
  unfold cancelOrder_try, deposit_cancel_call in *. run_unfold.
  rewrite Hg, Hc. cbn [order world store calls set_status set_updatedAt depositDetails].
  destruct (depositDetails o) as [| |b|x|s|dm] eqn:Hdd.
  all: destruct (truthy _) eqn:Htr; try discriminate Htr; simpl.
  all: eexists _, _; split_and!; [reflexivity|done|done|done| |].
  all: try (intros E; discriminate E).
  all: try (intros _; split; [done|]; intros ? E; by simplify_eq).
  all: try (intros _; by split).
Qed.

Lemma cancellable_status o :
  negb (bool_decide (status o = "PENDING_PAYMENT"))
  && negb (bool_decide (status o = "PAYMENT_PROCESSING")) = false
  ↔ status o ∈ awaiting_payment.
Proof.
  unfold awaiting_payment. rewrite !elem_of_cons, elem_of_nil. split.
  - intros E. do 2 case_bool_decide; simpl in E; try discriminate; auto.
  - intros [E|[E|[]]]; rewrite E; done.
Qed.

(** *** Order creation *)

Lemma createOrder_selected env cat req w p pm :
  is_empty (body_productId req) || is_empty (body_targetId req)
  || is_empty (body_paymentMethodCode req) || is_empty (body_providerName req)
  = false →
  find_product cat (body_productId req) (body_providerName req) = Some p →
  find_payment_method cat (body_paymentMethodCode req) = Some pm →
  createOrder env cat req w
  = match createOrder_try env req p pm w with
    | (Ok res, w') => (res, w')
    | (Throw error, w') =>
        (mkResponse 500
           (Failure (JStr ("Gagal memproses pesanan: " +:+ message error))), w')
    end.
Proof. intros Hreq Hp Hpm. unfold createOrder. by rewrite Hreq, Hp, Hpm. Qed.

Lemma createOrder_try_failed env req p pm w :
  ¬ opens_deposit (gateway env (deposit_create_call env p pm)) →
  (createOrder_try env req p pm w).2 = logged w [deposit_create_call env p pm]
  ∧ ∀ res, (createOrder_try env req p pm w).1 = Ok res →
           code res = 500 ∧ ∃ m, body res = Failure m.
Proof.
  intros Hno. unfold createOrder_try, deposit_create_call in *. run_unfold.
  destruct (gateway env _) as [r|reason]; [|done].
  rewrite opens_deposit_iff in Hno.
  destruct (status_and_data r) as [[|]|e]; [done| |done]. cbn [negb].
  destruct (get r "message") as [m|e]; [|done]. cbn.
  split; [done|]. intros res [= <-]. split; [done|]. by eexists.
Qed.

Lemma createOrder_try_opened env req p pm w r data :
  gateway env (deposit_create_call env p pm) = Returned r →
  status_and_data r = Ok true →
  get r "data" = Ok data →
  store w !! orderIdInternal env = None →
  ∃ id,
    createOrder_try env req p pm w
    = (Ok (mkResponse 200
             (Created (orderIdInternal env) data (Product.name p)
                (body_targetId req) (Pricing.baseProductPrice p)
                (Pricing.totalAdminFee p pm)
                (Math_ceil (Pricing.totalAmountForDeposit p pm)))),
       mkWorld (<[orderIdInternal env := newOrder env req p pm data id]> (store w))
               (calls w ++ [deposit_create_call env p pm])).
Proof.
  intros Hg Hok Hd Hfresh.
  unfold createOrder_try, deposit_create_call in *. run_unfold.
  rewrite Hg, Hok, Hd. cbn [negb].
  apply status_and_data_true in Hok as (m & sv & d & -> & _ & _ & Hd' & Htd).
  cbn [get] in Hd. rewrite Hd' in Hd. injection Hd as <-.
  destruct (get d "id") as [id|e] eqn:Hid.
  2: { destruct d; simplify_eq. }
  exists id. unfold save_new. cbn [orderId newOrder store calls].
  by rewrite Hfresh.
Qed.

(** Order creation computes the fees and stores them. *)
Lemma createOrder_prices env cat req w p pm r data :
  creation_succeeds env cat req w p pm r data →
  ∃ o,
    createOrder env cat req w
    = (mkResponse 200
         (Created (orderIdInternal env) data (Product.name p) (body_targetId req)
                  (Pricing.baseProductPrice p) (Pricing.totalAdminFee p pm)
                  (Math_ceil (Pricing.totalAmountForDeposit p pm))),
       mkWorld (<[orderIdInternal env := o]> (store w))
               (calls w ++ [deposit_create_call env p pm]))
    ∧ productPrice o = Pricing.baseProductPrice p
    ∧ adminFeePaymentMethod o = Pricing.feeFromPaymentMethod p pm
    ∧ adminFeeGlobal o = Pricing.globalAdminFee p
    ∧ totalAdminFee o = Pricing.totalAdminFee p pm
    ∧ totalAmountToPayForDeposit o
      = Math_ceil (Pricing.totalAmountForDeposit p pm).
Proof.
  intros (Hreq & Hp & Hpm & Hg & Hok & Hd & Hfresh & _).
  rewrite (createOrder_selected _ _ _ _ _ _ Hreq Hp Hpm).
  destruct (createOrder_try_opened env req p pm w r data Hg Hok Hd Hfresh)
    as [id ->].
  eexists. split; [reflexivity|]. done.
Qed.

(** ** The claims *)

(** C1.  For a stored order in [PENDING_PAYMENT] or [PAYMENT_PROCESSING]
    whose deposit-status call is answered with a truthy [status], a truthy
    [data] and a string [data.status], the status request succeeds and
    persists the order with a status decided by [data.status] in upper
    case: [EXPIRED], [FAILED] or [CANCEL] give [PAYMENT_] followed by that
    word; [PENDING] gives [PENDING_PAYMENT]; anything else but [SUCCESS]
    gives [PAYMENT_PROCESSING]; and [SUCCESS] sets
    [PAYMENT_SUCCESSFUL_PROCESSING_ORDER] and, in the same request, runs
    the transaction creation (one [/transaksi/create] call with reference
    [TRX-<orderId>]), whose success with provider status [PENDING] leaves
    the persisted order in [ORDER_PROCESSING].  The transaction id a
    created transaction brings is taken to be one the schema stores as it
    is (a string, or none): any other id is cast or refused by the store,
    which is not modelled. *)
Theorem deposit_status_decides_next_status env key w o r data s :
  key ≠ "" →
  store w !! key = Some o →
  status o ∈ awaiting_payment →
  gateway env (deposit_status_call o) = Returned r →
  status_and_data r = Ok true →
  get r "data" = Ok data →
  get data "status" = Ok (JStr s) →
  (toUpperCase s = "SUCCESS" →
   plain_creation (gateway env (create_transaction_call o)) = true) →
  ∃ o' cs,
    orderStatus env key w
    = (mkResponse 200 (OrderData o'), mkWorld (<[key := o']> (store w)) cs)
    ∧ (toUpperCase s ∈ ["EXPIRED"; "FAILED"; "CANCEL"] →
       status o' = "PAYMENT_" +:+ toUpperCase s
       ∧ cs = calls w ++ [deposit_status_call o])
    ∧ (toUpperCase s = "PENDING" →
       status o' = "PENDING_PAYMENT"
       ∧ cs = calls w ++ [deposit_status_call o])
    ∧ (toUpperCase s ∉ ["SUCCESS"; "EXPIRED"; "FAILED"; "CANCEL"; "PENDING"] →
       status o' = "PAYMENT_PROCESSING"
       ∧ cs = calls w ++ [deposit_status_call o])
    ∧ (toUpperCase s = "SUCCESS" →
       status (paid env data o) = "PAYMENT_SUCCESSFUL_PROCESSING_ORDER"
       ∧ create_transaction_first env ("TRX-" +:+ orderId o)
           (mkScope (paid env data o) (logged w [deposit_status_call o]))
         = (Ok tt, mkScope o' (mkWorld (store w) cs))
       ∧ cs = calls w ++ [deposit_status_call o; create_transaction_call o]
       ∧ ∀ r2 data2 s2,
           gateway env (create_transaction_call o) = Returned r2 →
           status_and_data r2 = Ok true →
           get r2 "data" = Ok data2 →
           get data2 "status" = Ok (JStr s2) →
           toUpperCase s2 = "PENDING" →
           status o' = "ORDER_PROCESSING").
Proof.
  intros Hk Ho Hst Hg Hok Hd Hs _.
  unfold orderStatus.
  rewrite (is_empty_false _ Hk), Ho, reconcile_awaiting_payment by done.
  rewrite (reconcile_deposit_answered _ _ _ _ _ _ _ Hg Hok Hd Hs).
  unfold payment_outcome.
  destruct (decide (toUpperCase s = "SUCCESS")) as [Hup|Hup].
  - rewrite Hup. rewrite bool_decide_eq_true_2 by done.
    destruct (create_first_runs env (paid env data o)
                (logged w [deposit_status_call o])) as [o' Hrun].
    change (orderId (paid env data o)) with (orderId o) in Hrun.
    change (create_transaction_call (paid env data o))
      with (create_transaction_call o) in Hrun.
    exists o', (calls w ++ [deposit_status_call o; create_transaction_call o]).
    assert (logged (logged w [deposit_status_call o]) [create_transaction_call o]
            = mkWorld (store w)
                (calls w ++ [deposit_status_call o; create_transaction_call o]))
      as Hlog.
    { unfold logged. simpl. by rewrite <- app_assoc. }
    rewrite Hlog in Hrun.
    split_and!.
    + run_unfold. unfold paid in Hrun.
      cbn [orderId set_status polled_deposit set_depositDetails set_updatedAt].
      by rewrite Hrun.
    + intros E. by apply elem_of_three in E as [E|[E|E]].
    + intros E. congruence.
    + intros E. exfalso. apply E. by left.
    + intros _. split_and!; [done..|].
      intros r2 data2 s2 Hg2 Hok2 Hd2 Hs2 Hup2.
      destruct (create_first_pending env (paid env data o)
                  (logged w [deposit_status_call o]) r2 data2 s2)
        as (o'' & Hrun' & Hst'); [done..|].
      change (orderId (paid env data o)) with (orderId o) in Hrun'.
      change (create_transaction_call (paid env data o))
        with (create_transaction_call o) in Hrun'.
      rewrite Hlog in Hrun'. congruence.
  - rewrite (bool_decide_eq_false_2 _ Hup).
    destruct (decide (toUpperCase s ∈ ["EXPIRED"; "FAILED"; "CANCEL"])) as [Hin|Hin].
    + rewrite (bool_decide_eq_true_2 _ Hin). run_unfold.
      eexists _, _. split; [reflexivity|].
      split_and!; [done| | |done].
      * intros E. rewrite E in Hin. by apply elem_of_three in Hin as [?|[?|?]].
      * intros E. exfalso. apply E.
        apply elem_of_three in Hin as [ -> | [ -> | -> ] ];
          apply (bool_decide_unpack _); by vm_compute.
    + rewrite (bool_decide_eq_false_2 _ Hin).
      destruct (decide (toUpperCase s = "PENDING")) as [Hp|Hp].
      * rewrite (bool_decide_eq_true_2 _ Hp). run_unfold.
        eexists _, _. split; [reflexivity|].
        split_and!; [done|done| |done].
        intros E. exfalso. apply E. rewrite Hp.
        apply (bool_decide_unpack _). by vm_compute.
      * rewrite (bool_decide_eq_false_2 _ Hp). run_unfold.
        eexists _, _. split; [reflexivity|].
        split_and!; done.
Qed.

(** The sample order, its deposit paid and its transaction created
    pending, goes from [PENDING_PAYMENT] to [ORDER_PROCESSING] in one
    request with two provider calls. *)
Lemma deposit_status_decides_next_status_witness :
  ∃ o',
    (orderStatus Sample.paying Sample.key (Sample.holding Sample.fresh_order)).1
    = mkResponse 200 (OrderData o')
    ∧ calls (orderStatus Sample.paying Sample.key
               (Sample.holding Sample.fresh_order)).2
      = [deposit_status_call Sample.fresh_order;
         create_transaction_call Sample.fresh_order]
    ∧ status o' = "ORDER_PROCESSING".
Proof.
  destruct (deposit_status_decides_next_status
              Sample.paying Sample.key (Sample.holding Sample.fresh_order)
              Sample.fresh_order
              (obj [("status", JBool true); ("data", Sample.paid_poll)])
              Sample.paid_poll "success")
    as (o' & cs & Hrun & _ & _ & _ & Hpaid).
  - done.
  - by vm_compute.
  - apply (bool_decide_unpack _). by vm_compute.
  - by vm_compute.
  - by vm_compute.
  - by vm_compute.
  - by vm_compute.
  - intros _. by vm_compute.
  - destruct Hpaid as (_ & _ & Hcs & Hpending); [by vm_compute|].
    exists o'. rewrite Hrun. cbn [fst snd calls]. split_and!; [done|done|].
    apply (Hpending (obj [("status", JBool true); ("data", Sample.created)])
                    Sample.created "pending"); by vm_compute.
Defined.

(** C2, as stated, fails when the formula is read in exact arithmetic.
    For a product of 316 with a flat fee of 500 and 23 percent, the three
    inputs are the Numbers 316, 500 and 23 exactly, and the formula gives
    [ceil (316 + 572.68 + 6.32) = 895].  The handler computes
    [316 * (23 / 100)] and the sums in binary64, where the total comes out
    just above 895, and stores, sends and returns 896. *)
Lemma exact_formula_is_overcharged :
  exact (Product.price Sample.odd_product) = Some (inject_Z 316)
  ∧ exact (PaymentMethod.fee Sample.odd_method) = Some (inject_Z 500)
  ∧ exact (PaymentMethod.fee_persen Sample.odd_method) = Some (inject_Z 23)
  ∧ exact_totalAmountDue (inject_Z 316) (inject_Z 500) (inject_Z 23) = 895%Z
  ∧ ∃ o,
      createOrder Sample.opening Sample.odd_catalog Sample.odd_request
                  Sample.nothing
      = (mkResponse 200
           (Created "ORD-1700000060000-K3X9QZ"
                    (obj [("id", JStr "DEP123"); ("nominal", JNum 10850)])
                    "XL 316" "081234567890" 316%float
                    (Pricing.totalAdminFee Sample.odd_product Sample.odd_method)
                    896%float),
         mkWorld {[ "ORD-1700000060000-K3X9QZ" := o ]}
                 [deposit_create_call Sample.opening Sample.odd_product
                                      Sample.odd_method])
      ∧ totalAmountToPayForDeposit o = 896%float
      ∧ exact 896%float = Some (inject_Z 896)
      ∧ 896%float ≠ number_of_Z 895.
Proof.
  split_and!; [by vm_compute..|].
  eexists. split_and!; [by vm_compute|by vm_compute|by vm_compute|].
  vm_compute. intros H. discriminate H.
Qed.

(** C2, amended.  On a creation that goes through, [createOrder]
    computes with the Numbers of JavaScript, every operation rounded to
    binary64: [paymentMethodFee = flatFee + basePrice * (feePercent /
    100)], [globalAdminFee = basePrice * (2 / 100)], [totalAdminFee =
    paymentMethodFee + globalAdminFee], where [flatFee] and [feePercent]
    are the parsed fields of the payment method, and [0] when the field
    is [NaN] or zero.  It stores them in the order, and the amount it
    stores, sends as the deposit nominal and returns is the integer [z]
    with [z - 1 < total <= z] for the computed [total = basePrice +
    totalAdminFee] (which may lie just above the exact sum); an infinite
    total is kept.  The amount depends on the three inputs only: two
    creations, at any time, on any collection and for any request, that
    select entries with the same price, fee and percent store the same
    amount.  For [basePrice = 10000], [flatFee = 500], [feePercent = 1.5]
    the stored values are 650, 200, 850 and 10850. *)
Theorem pricing_is_computed_in_binary64 :
  (∀ env cat req w p pm r data,
     creation_succeeds env cat req w p pm r data →
     let basePrice := Product.price p in
     let flatFee :=
       if is_nan (PaymentMethod.fee pm) || is_zero (PaymentMethod.fee pm)
       then 0%float else PaymentMethod.fee pm in
     let feePercent :=
       if is_nan (PaymentMethod.fee_persen pm)
          || is_zero (PaymentMethod.fee_persen pm)
       then 0%float else PaymentMethod.fee_persen pm in
     let paymentMethodFee := (flatFee + basePrice * (feePercent / 100))%float in
     let globalAdminFee := (basePrice * (2 / 100))%float in
     let totalAdminFee_ := (paymentMethodFee + globalAdminFee)%float in
     let total := (basePrice + totalAdminFee_)%float in
     ∃ o totalAmountDue,
       createOrder env cat req w
       = (mkResponse 200
            (Created (orderIdInternal env) data (Product.name p) (body_targetId req)
                     basePrice totalAdminFee_ totalAmountDue),
          mkWorld (<[orderIdInternal env := o]> (store w))
                  (calls w ++
                   [mkCall "/deposit/create"
                      [ ("reff_id", JStr ("DEP-" +:+ orderIdInternal env));
                        ("nominal", JNum totalAmountDue);
                        ("type", JStr (PaymentMethod.type pm));
                        ("metode", JStr (PaymentMethod.metode pm)) ]]))
       ∧ productPrice o = basePrice
       ∧ adminFeePaymentMethod o = paymentMethodFee
       ∧ adminFeeGlobal o = globalAdminFee
       ∧ totalAdminFee o = totalAdminFee_
       ∧ totalAmountToPayForDeposit o = totalAmountDue
       ∧ (∀ q, exact total = Some q →
               ∃ z, integral totalAmountDue z
                    ∧ (inject_Z (z - 1) < q)%Q ∧ (q <= inject_Z z)%Q)
       ∧ (exact total = None → totalAmountDue = total))
  ∧ (∀ env cat req w p pm r data env' cat' req' w' p' pm' r' data',
       creation_succeeds env cat req w p pm r data →
       creation_succeeds env' cat' req' w' p' pm' r' data' →
       Product.price p = Product.price p' →
       PaymentMethod.fee pm = PaymentMethod.fee pm' →
       PaymentMethod.fee_persen pm = PaymentMethod.fee_persen pm' →
       ∃ o o',
         store (createOrder env cat req w).2 !! orderIdInternal env = Some o
         ∧ store (createOrder env' cat' req' w').2 !! orderIdInternal env' = Some o'
         ∧ totalAmountToPayForDeposit o = totalAmountToPayForDeposit o')
  ∧ (∀ env cat req w p pm r data,
       creation_succeeds env cat req w p pm r data →
       Product.price p = 10000%float →
       PaymentMethod.fee pm = 500%float →
       PaymentMethod.fee_persen pm = 1.5%float →
       ∃ o,
         store (createOrder env cat req w).2 !! orderIdInternal env = Some o
         ∧ adminFeePaymentMethod o = 650%float
         ∧ adminFeeGlobal o = 200%float
         ∧ totalAdminFee o = 850%float
         ∧ totalAmountToPayForDeposit o = 10850%float).
Proof.
  assert (∀ p pm,
            Pricing.totalAmountForDeposit p pm
            = (Product.price p
               + ((number_or_zero (PaymentMethod.fee pm)
                   + Product.price p
                     * (number_or_zero (PaymentMethod.fee_persen pm) / 100))
                  + Product.price p * (2 / 100)))%float) as Htotal by done.
  split_and!.
  - intros env cat req w p pm r data H. cbv zeta.
    destruct (createOrder_prices _ _ _ _ _ _ _ _ H)
      as (o & Hrun & Hprice & Hfee & Hglobal & Hadmin & Hdue).
    exists o, (Math_ceil (Pricing.totalAmountForDeposit p pm)).
    rewrite <- !number_or_zero_default, <- Htotal.
    split_and!; [done..| |].
    + apply Math_ceil_rounds_up.
    + apply Math_ceil_not_finite.
  - intros env cat req w p pm r data env' cat' req' w' p' pm' r' data'
      H H' Hprice Hfee Hpct.
    destruct (createOrder_prices _ _ _ _ _ _ _ _ H) as (o & -> & _ & _ & _ & _ & Ho).
    destruct (createOrder_prices _ _ _ _ _ _ _ _ H') as (o' & -> & _ & _ & _ & _ & Ho').
    exists o, o'. cbn [snd store]. rewrite !lookup_insert_eq.
    split_and!; [done..|]. rewrite Ho, Ho', !Htotal. by rewrite Hprice, Hfee, Hpct.
  - intros env cat req w p pm r data H Hprice Hfee Hpct.
    destruct (createOrder_prices _ _ _ _ _ _ _ _ H)
      as (o & -> & _ & Hf & Hglobal & Hadmin & Hdue).
    exists o. cbn [snd store]. rewrite lookup_insert_eq.
    rewrite Hf, Hglobal, Hadmin, Hdue, Htotal.
    unfold Pricing.feeFromPaymentMethod, Pricing.globalAdminFee,
      Pricing.totalAdminFee, Pricing.feeFromPaymentMethod, Pricing.globalAdminFee,
      Pricing.paymentMethodFee, Pricing.paymentMethodFeePercent,
      Pricing.baseProductPrice, Pricing.additionalAdminFeePercentGlobal.
    rewrite Hprice, Hfee, Hpct.
    split_and!; [reflexivity|vm_compute; reflexivity..].
Qed.

(** The sample request prices a product of 10000 with a flat fee of 500
    and 1.5 percent. *)
Lemma pricing_is_computed_in_binary64_witness :
  creation_succeeds Sample.opening Sample.catalog Sample.request Sample.nothing
    Sample.product Sample.method
    (obj [("status", JBool true);
          ("data", obj [("id", JStr "DEP123"); ("nominal", JNum 10850)])])
    (obj [("id", JStr "DEP123"); ("nominal", JNum 10850)])
  ∧ ∃ o,
      store (createOrder Sample.opening Sample.catalog Sample.request Sample.nothing).2
        !! "ORD-1700000060000-K3X9QZ" = Some o
      ∧ adminFeePaymentMethod o = 650%float
      ∧ adminFeeGlobal o = 200%float
      ∧ totalAdminFee o = 850%float
      ∧ totalAmountToPayForDeposit o = 10850%float
      ∧ integral (totalAmountToPayForDeposit o) 10850.
Proof.
  assert (creation_succeeds Sample.opening Sample.catalog Sample.request
            Sample.nothing Sample.product Sample.method
            (obj [("status", JBool true);
                  ("data", obj [("id", JStr "DEP123"); ("nominal", JNum 10850)])])
            (obj [("id", JStr "DEP123"); ("nominal", JNum 10850)])) as Hgo.
  { split_and!; [by vm_compute..|]. exists (JStr "DEP123"). by vm_compute. }
  split; [exact Hgo|].
  destruct (proj2 (proj2 pricing_is_computed_in_binary64) _ _ _ _ _ _ _ _ Hgo)
    as (o & Ho & Hfee & Hglobal & Htotal & Hdue); [reflexivity..|].
  exists o. split_and!; [exact Ho|assumption..|].
  left. rewrite Hdue. by vm_compute.
Defined.

(** C3.  When the deposit-opening call of a well-formed request does not
    open the deposit (the provider answers with a falsy [status] or
    [data], or [fetchAtlanticAPI] throws), [createOrder] answers with a
    500 failure and the collection is unchanged: no order record exists
    for the attempt, and a lookup of the generated [orderId], absent
    before, is still absent. *)
Theorem failed_deposit_leaves_no_order env cat req w p pm :
  is_empty (body_productId req) || is_empty (body_targetId req)
  || is_empty (body_paymentMethodCode req) || is_empty (body_providerName req)
  = false →
  find_product cat (body_productId req) (body_providerName req) = Some p →
  find_payment_method cat (body_paymentMethodCode req) = Some pm →
  ¬ opens_deposit (gateway env (deposit_create_call env p pm)) →
  ∃ m w',
    createOrder env cat req w = (mkResponse 500 (Failure m), w')
    ∧ store w' = store w
    ∧ calls w' = calls w ++ [deposit_create_call env p pm]
    ∧ (store w !! orderIdInternal env = None →
       store w' !! orderIdInternal env = None).
Proof.
  intros Hreq Hp Hpm Hno.
  rewrite (createOrder_selected _ _ _ _ _ _ Hreq Hp Hpm).
  destruct (createOrder_try_failed env req p pm w Hno) as [Hw Hres].
  destruct (createOrder_try env req p pm w) as [[res|e] w'];
    simpl in Hw; subst w'.
  - destruct (Hres res eq_refl) as [Hc [m Hm]].
    destruct res as [c b]. simpl in *. subst.
    by exists m, (logged w [deposit_create_call env p pm]).
  - by eexists _, (logged w [deposit_create_call env p pm]).
Qed.

(** The sample request against a provider that cannot be reached. *)
Lemma failed_deposit_leaves_no_order_witness :
  ∃ m w',
    createOrder Sample.unreachable Sample.catalog Sample.request Sample.nothing
    = (mkResponse 500 (Failure m), w')
    ∧ store w' = ∅
    ∧ store w' !! orderIdInternal Sample.unreachable = None.
Proof.
  destruct (failed_deposit_leaves_no_order
              Sample.unreachable Sample.catalog Sample.request Sample.nothing
              Sample.product Sample.method)
    as (m & w' & Hrun & Hstore & _ & Hfresh).
  - by vm_compute.
  - by vm_compute.
  - by vm_compute.
  - intros (m & sv & data & H & _). vm_compute in H. discriminate H.
  - exists m, w'. split_and!; [done|done|]. by apply Hfresh.
Defined.

(** C4.  The code does not do what the claim says.  A status request
    under a provider that refuses the transaction leaves the sample order
    in [TRANSACTION_CREATION_FAILED] with no transaction id; every later
    status request, whatever the provider would answer, calls no provider
    and returns the order as it is: the creation is never retried. *)
Theorem refused_creation_is_never_retried :
  (orderStatus Sample.refusing_creation Sample.key
     (Sample.holding Sample.fresh_order)).1
  = mkResponse 200 (OrderData Sample.refused_order)
  ∧ status Sample.refused_order = "TRANSACTION_CREATION_FAILED"
  ∧ atlanticTransactionId Sample.refused_order = JUndefined
  ∧ ∀ env,
      let w := (orderStatus Sample.refusing_creation Sample.key
                  (Sample.holding Sample.fresh_order)).2 in
      store w !! Sample.key = Some Sample.refused_order
      ∧ orderStatus env Sample.key w
        = (mkResponse 200 (OrderData Sample.refused_order), w).
Proof.
  split_and!; [by vm_compute..|].
  intros env w.
  assert (store w !! Sample.key = Some Sample.refused_order) as Hw
    by (by vm_compute).
  split; [done|]. unfold orderStatus.
  rewrite Hw. change (is_empty Sample.key) with false. cbv iota.
  by rewrite failed_creation_skipped.
Qed.

(** C5.  A status request for an order in a terminal state
    ([ORDER_COMPLETED], [ORDER_FAILED], [PAYMENT_EXPIRED], [PAYMENT_FAILED],
    [PAYMENT_CANCEL], [PAYMENT_CANCELLED]) answers with the stored order
    exactly as it was persisted and leaves the world as it found it: the
    call log gains no provider call and the collection is not written. *)
Theorem terminal_order_untouched env key w o :
  key ≠ "" →
  store w !! key = Some o →
  status o ∈ terminal_states →
  orderStatus env key w = (mkResponse 200 (OrderData o), w).
Proof.
  intros Hk Ho Hs. apply orderStatus_inert; [done..|].
  unfold terminal_states in Hs.
  repeat (apply elem_of_cons in Hs as [->|Hs]);
    [..| by apply elem_of_nil in Hs];
    apply (bool_decide_unpack _); by vm_compute.
Qed.

(** A completed order under a provider that would answer. *)
Lemma terminal_order_untouched_witness :
  orderStatus Sample.paying Sample.key (Sample.holding Sample.completed_order)
  = (mkResponse 200 (OrderData Sample.completed_order),
     Sample.holding Sample.completed_order).
Proof.
  apply terminal_order_untouched.
  - done.
  - by vm_compute.
  - apply (bool_decide_unpack _). by vm_compute.
Defined.

(** C6.  The code does not do what the claim says.  On a confirmed
    cancellation of an order that has deposit details (every order this
    program creates has: line 226), the handler sets the status, stamps
    the order and writes [status = "cancel"] into the details object in
    place (line 392); the response shows that write, and the stored order
    does not have it: it is [PAYMENT_CANCELLED], stamped, with its deposit
    details as they were.  Only an order without deposit details, which
    gets a new object by assignment (line 394), is stored with the forced
    status.  At the sample order the stored details are still
    [{a: 1, b: 2}]. *)
Theorem confirmed_cancel_stores_old_details :
  (∀ env key w o,
     key ≠ "" → store w !! key = Some o →
     truthy (atlanticDepositId o) = true →
     status o ∈ awaiting_payment →
     confirms_cancel (gateway env (deposit_cancel_call o)) →
     ∃ shown o',
       cancelOrder env key w
       = (mkResponse 200 (Cancelled "Pesanan berhasil dibatalkan." shown),
          mkWorld (<[key := o']> (store w))
                  (calls w ++ [deposit_cancel_call o]))
       ∧ status o' = "PAYMENT_CANCELLED"
       ∧ updatedAt o' = now env
       ∧ (truthy (depositDetails o) = true →
          depositDetails o' = depositDetails o
          ∧ ∀ dm, depositDetails o = JObj dm →
                  depositDetails shown = JObj (<["status" := JStr "cancel"]> dm))
       ∧ (truthy (depositDetails o) = false →
          shown = o' ∧ depositDetails o' = obj [("status", JStr "cancel")]))
  ∧ ∃ shown o',
      cancelOrder Sample.cancelling Sample.key (Sample.holding Sample.fresh_order)
      = (mkResponse 200 (Cancelled "Pesanan berhasil dibatalkan." shown),
         mkWorld {[ Sample.key := o' ]} [deposit_cancel_call Sample.fresh_order])
      ∧ status o' = "PAYMENT_CANCELLED"
      ∧ depositDetails shown
        = obj [("a", JNum 1); ("b", JNum 2); ("status", JStr "cancel")]
      ∧ depositDetails o' = obj [("a", JNum 1); ("b", JNum 2)]
      ∧ get (depositDetails o') "status" = Ok JUndefined.
Proof.
  split.
  - intros env key w o Hk Ho Hid Hs Hc.
    destruct (cancel_try_confirmed env key o w Hc)
      as (shown & o' & Htry & Hst & Hu & _ & Hkept & Hnew).
    exists shown, o'. split_and!; [|done..].
    unfold cancelOrder.
    rewrite (is_empty_false _ Hk), Ho, Hid. cbn [negb].
    by rewrite (proj2 (cancellable_status o) Hs), Htry.
  - eexists _, _. split_and!; by vm_compute.
Qed.

(** C7.  When the deposit-status fetch (order awaiting payment) or the
    transaction-status fetch (order awaiting its transaction, with a
    transaction id) throws, [reconcile] ends in that exception with the
    loaded document exactly as it was loaded; the handler answers 500 with
    the error's message, and the collection is unchanged. *)
Theorem status_fetch_error_is_not_caught env key w o reason :
  key ≠ "" →
  store w !! key = Some o →
  (status o ∈ awaiting_payment
   ∧ gateway env (deposit_status_call o) = Rejected reason)
  ∨ (status o ∈ awaiting_transaction
     ∧ truthy (atlanticTransactionId o) = true
     ∧ gateway env (transaction_status_call o) = Rejected reason) →
  ∃ c,
    reconcile env key (mkScope o w) = (Throw (Error reason), mkScope o (logged w [c]))
    ∧ orderStatus env key w
      = (mkResponse 500 (Failure (JStr ("Internal server error: " +:+ reason))),
         logged w [c])
    ∧ store (logged w [c]) = store w.
Proof.
  intros Hk Ho [[Hs Hg]|(Hs & Ht & Hg)].
  - exists (deposit_status_call o).
    assert (reconcile env key (mkScope o w)
            = (Throw (Error reason), mkScope o (logged w [deposit_status_call o])))
      as Hrun.
    { rewrite reconcile_awaiting_payment by done.
      unfold reconcile_deposit, deposit_status_call in *. run_unfold.
      by rewrite Hg. }
    split_and!; [done| |done].
    unfold orderStatus. by rewrite (is_empty_false _ Hk), Ho, Hrun.
  - exists (transaction_status_call o).
    assert (reconcile env key (mkScope o w)
            = (Throw (Error reason),
               mkScope o (logged w [transaction_status_call o])))
      as Hrun.
    { rewrite reconcile_awaiting_transaction by done.
      unfold reconcile_transaction, transaction_status_call in *. run_unfold.
      by rewrite Hg. }
    split_and!; [done| |done].
    unfold orderStatus. by rewrite (is_empty_false _ Hk), Ho, Hrun.
Qed.

(** The deposit-status fetch of the sample order fails. *)
Lemma status_fetch_error_is_not_caught_witness :
  ∃ c,
    orderStatus Sample.unreachable Sample.key (Sample.holding Sample.fresh_order)
    = (mkResponse 500 (Failure (JStr "Internal server error: fetch failed")),
       logged (Sample.holding Sample.fresh_order) [c]).
Proof.
  destruct (status_fetch_error_is_not_caught
              Sample.unreachable Sample.key (Sample.holding Sample.fresh_order)
              Sample.fresh_order "fetch failed")
    as (c & _ & Hrun & _).
  - done.
  - by vm_compute.
  - left. split; [|by vm_compute]. apply (bool_decide_unpack _). by vm_compute.
  - by exists c.
Defined.

(** C8, as stated, fails: the payload of a created transaction is not
    merged into the stored [transactionDetails], it takes their place.
    The sample order carries [{note: "first attempt"}]; after a status
    request in which the deposit is paid and the transaction created, the
    persisted details are the creation payload and [note] is gone. *)
Lemma creation_payload_is_not_merged :
  get (transactionDetails Sample.annotated_order) "note"
  = Ok (JStr "first attempt")
  ∧ get Sample.created "note" = Ok JUndefined
  ∧ ∃ o',
      store (orderStatus Sample.paying Sample.key
               (Sample.holding Sample.annotated_order)).2 !! Sample.key
      = Some o'
      ∧ transactionDetails o' = Sample.created
      ∧ get (transactionDetails o') "note" = Ok JUndefined
      ∧ transactionDetails o'
        ≠ spread (transactionDetails Sample.annotated_order) Sample.created.
Proof.
  split_and!; [by vm_compute..|].
  eexists. split_and!; [by vm_compute|by vm_compute|by vm_compute|].
  vm_compute. intros H. discriminate H.
Qed.

(** C8, amended.  The payload of a deposit-status poll is merged into
    [depositDetails] and the payload of a transaction-status poll into
    [transactionDetails]: a field of the payload overwrites the stored
    field of the same name and every other stored field is kept, so
    [{a: 1, b: 2}] merged with [{b: 3, c: 4}] is [{a: 1, b: 3, c: 4}].
    The payload of a created transaction, at the first attempt and at the
    retry, replaces [transactionDetails].  The statements are about
    requests whose writes the schema accepts as they are: a transaction
    status that is not the empty string, and a created transaction whose
    id is a string or absent. *)
Theorem polls_merge_and_creation_replaces :
  (∀ a b k,
     own_props (spread a b) !! k
     = match own_props b !! k with
       | Some v => Some v
       | None => own_props a !! k
       end)
  ∧ spread (obj [("a", JNum 1); ("b", JNum 2)]) (obj [("b", JNum 3); ("c", JNum 4)])
    = obj [("a", JNum 1); ("b", JNum 3); ("c", JNum 4)]
  ∧ (∀ env key w o r data s,
       key ≠ "" →
       store w !! key = Some o →
       status o ∈ awaiting_payment →
       gateway env (deposit_status_call o) = Returned r →
       status_and_data r = Ok true →
       get r "data" = Ok data →
       get data "status" = Ok (JStr s) →
       (toUpperCase s = "SUCCESS" →
        plain_creation (gateway env (create_transaction_call o)) = true) →
       ∃ o' cs,
         orderStatus env key w
         = (mkResponse 200 (OrderData o'), mkWorld (<[key := o']> (store w)) cs)
         ∧ depositDetails o' = spread (depositDetails o) data)
  ∧ (∀ env key w o r data s,
       key ≠ "" →
       store w !! key = Some o →
       status o ∈ awaiting_transaction →
       truthy (atlanticTransactionId o) = true →
       gateway env (transaction_status_call o) = Returned r →
       status_and_data r = Ok true →
       get r "data" = Ok data →
       get data "status" = Ok (JStr s) →
       s ≠ "" →
       ∃ o',
         orderStatus env key w
         = (mkResponse 200 (OrderData o'),
            mkWorld (<[key := o']> (store w))
                    (calls w ++ [transaction_status_call o]))
         ∧ transactionDetails o' = spread (transactionDetails o) data)
  ∧ (∀ env key w o r data s r2 data2 sv2,
       key ≠ "" →
       store w !! key = Some o →
       status o ∈ awaiting_payment →
       gateway env (deposit_status_call o) = Returned r →
       status_and_data r = Ok true →
       get r "data" = Ok data →
       get data "status" = Ok (JStr s) →
       toUpperCase s = "SUCCESS" →
       gateway env (create_transaction_call o) = Returned r2 →
       status_and_data r2 = Ok true →
       get r2 "data" = Ok data2 →
       get data2 "status" = Ok sv2 →
       truthy sv2 = false ∨ (∃ s2, sv2 = JStr s2) →
       plain_creation (gateway env (create_transaction_call o)) = true →
       ∃ o' cs,
         orderStatus env key w
         = (mkResponse 200 (OrderData o'), mkWorld (<[key := o']> (store w)) cs)
         ∧ transactionDetails o' = data2)
  ∧ (∀ env key w o r2 data2 sv2,
       key ≠ "" →
       store w !! key = Some o →
       status o = "PAYMENT_SUCCESSFUL_PROCESSING_ORDER" →
       truthy (atlanticTransactionId o) = false →
       gateway env (create_transaction_call o) = Returned r2 →
       status_and_data r2 = Ok true →
       get r2 "data" = Ok data2 →
       get data2 "status" = Ok sv2 →
       truthy sv2 = false ∨ (∃ s2, sv2 = JStr s2) →
       plain_creation (gateway env (create_transaction_call o)) = true →
       ∃ o' cs,
         orderStatus env key w
         = (mkResponse 200 (OrderData o'), mkWorld (<[key := o']> (store w)) cs)
         ∧ transactionDetails o' = data2).
Proof.
  split_and!.
  - apply spread_lookup.
  - by vm_compute.
  - intros. by eapply deposit_poll_merges.
  - intros. by eapply transaction_poll_merges.
  - intros. by eapply first_creation_replaces.
  - intros. by eapply retried_creation_replaces.
Qed.

(** The poll payload [{status: "success", b: 3, c: 4}] over the stored
    [{a: 1, b: 2}]. *)
Lemma polls_merge_and_creation_replaces_witness :
  ∃ o',
    store (orderStatus Sample.paying Sample.key
             (Sample.holding Sample.fresh_order)).2 !! Sample.key
    = Some o'
    ∧ depositDetails o'
      = obj [("a", JNum 1); ("b", JNum 3); ("c", JNum 4);
             ("status", JStr "success")].
Proof.
  destruct (proj1 (proj2 (proj2 polls_merge_and_creation_replaces))
              Sample.paying Sample.key (Sample.holding Sample.fresh_order)
              Sample.fresh_order
              (obj [("status", JBool true); ("data", Sample.paid_poll)])
              Sample.paid_poll "success")
    as (o' & cs & Hrun & Hdd).
  - done.
  - by vm_compute.
  - apply (bool_decide_unpack _). by vm_compute.
  - by vm_compute.
  - by vm_compute.
  - by vm_compute.
  - by vm_compute.
  - intros _. by vm_compute.
  - exists o'. rewrite Hrun. cbn [snd store]. rewrite lookup_insert_eq, Hdd.
    split; [done|]. by vm_compute.
Defined.

(** C9.  The code does not do what the claim says.  A status request for
    an order awaiting payment whose deposit-status call is answered with
    a business-level failure (a falsy [status] or [data]) contacts the
    provider, answers 200 with the order as it was loaded and writes
    nothing: [updatedAt] is not updated.  The two other branches stamp the
    order before they look at the answer (lines 313 and 333); the deposit
    branch stamps inside its guard (line 269).  At the sample order,
    polled a minute after it was written, the stored [updatedAt] is still
    the time of writing. *)
Theorem refused_deposit_poll_is_not_stamped :
  (∀ env key w o r,
     key ≠ "" →
     store w !! key = Some o →
     status o ∈ awaiting_payment →
     gateway env (deposit_status_call o) = Returned r →
     status_and_data r = Ok false →
     orderStatus env key w
     = (mkResponse 200 (OrderData o), logged w [deposit_status_call o]))
  ∧ orderStatus Sample.refusing_poll Sample.key (Sample.holding Sample.fresh_order)
    = (mkResponse 200 (OrderData Sample.fresh_order),
       mkWorld {[ Sample.key := Sample.fresh_order ]}
               [deposit_status_call Sample.fresh_order])
  ∧ updatedAt Sample.fresh_order ≠ now Sample.refusing_poll.
Proof.
  split_and!; [|by vm_compute..].
  intros env key w o r Hk Ho Hs Hg Hok. unfold orderStatus.
  rewrite (is_empty_false _ Hk), Ho, reconcile_awaiting_payment by done.
  unfold reconcile_deposit, deposit_status_call in *. run_unfold.
  by rewrite Hg, Hok.
Qed.

(** C10.  An order whose status is none of [PENDING_PAYMENT],
    [PAYMENT_PROCESSING], [ORDER_PROCESSING],
    [PAYMENT_SUCCESSFUL_PROCESSING_ORDER], [TRANSACTION_CREATION_FAILED]
    (so [TRANSACTION_CREATION_ERROR], or a provider status stored verbatim
    such as [SUCCESS]) is never moved again: after any run of later status
    requests, for this order or for others, a status request for it still
    answers with the same order, calls no provider and writes nothing. *)
Theorem unlisted_status_is_final key w o :
  key ≠ "" →
  store w !! key = Some o →
  status o ∉ awaiting_payment ++ awaiting_transaction →
  ∀ reqs env,
    orderStatus env key (polls reqs w)
    = (mkResponse 200 (OrderData o), polls reqs w).
Proof.
  intros Hk Ho Hs reqs env.
  apply orderStatus_inert; [done| |done].
  by apply polls_inert.
Qed.

(** An order in [TRANSACTION_CREATION_ERROR], after a poll of its own and
    a poll for another id. *)
Lemma unlisted_status_is_final_witness :
  orderStatus Sample.paying Sample.key
    (polls [(Sample.paying, Sample.key); (Sample.unreachable, "ORD-0")]
           (Sample.holding Sample.errored_order))
  = (mkResponse 200 (OrderData Sample.errored_order),
     polls [(Sample.paying, Sample.key); (Sample.unreachable, "ORD-0")]
           (Sample.holding Sample.errored_order)).
Proof.
  apply unlisted_status_is_final.
  - done.
  - by vm_compute.
  - apply (bool_decide_unpack _). by vm_compute.
Defined.

(** ** Further properties of the code *)

(** *** The transaction branches, case by case *)

Lemma transaction_outcome_status up o w :
  ∃ st,
    transaction_outcome up (mkScope o w) = (Ok tt, mkScope (set_status st o) w)
    ∧ (up = "SUCCESS" → st = "ORDER_COMPLETED")
    ∧ (up ∈ ["FAILED"; "ERROR"] → st = "ORDER_FAILED")
    ∧ (up = "PENDING" → st = "ORDER_PROCESSING")
    ∧ (up ∉ ["SUCCESS"; "FAILED"; "ERROR"; "PENDING"] → st = up).
Proof.
  unfold transaction_outcome. run_unfold.
  destruct (decide (up = "SUCCESS")) as [->|H1].
  { exists "ORDER_COMPLETED". split_and!; try done.
    - intros E. repeat (apply elem_of_cons in E as [E|E]; [done|]).
      by apply elem_of_nil in E.
    - intros E. exfalso. apply E. apply elem_of_cons. by left. }
  rewrite (bool_decide_eq_false_2 _ H1).
  destruct (decide (up ∈ ["FAILED"; "ERROR"])) as [H2|H2].
  { rewrite (bool_decide_eq_true_2 _ H2). exists "ORDER_FAILED".
    assert (up ≠ "PENDING" ∧ up ∈ ["SUCCESS"; "FAILED"; "ERROR"; "PENDING"])
      as [Hp Hall].
    { repeat (apply elem_of_cons in H2 as [ -> |H2]);
        [..|by apply elem_of_nil in H2];
        (split; [done|apply (bool_decide_unpack _); by vm_compute]). }
    split_and!; done. }
  rewrite (bool_decide_eq_false_2 _ H2).
  destruct (decide (up = "PENDING")) as [->|H3].
  { exists "ORDER_PROCESSING". split_and!; try done.
    intros E. exfalso. apply E. apply (bool_decide_unpack _). by vm_compute. }
  rewrite (bool_decide_eq_false_2 _ H3). exists up. split_and!; done.
Qed.

Lemma create_transaction_succeeds fallback prefix env o w r data id s :
  gateway env (create_transaction_call o) = Returned r →
  status_and_data r = Ok true →
  get r "data" = Ok data →
  get data "id" = Ok id →
  get data "status" = Ok (JStr s) →
  s ≠ "" →
  create_transaction fallback prefix env ("TRX-" +:+ orderId o) (mkScope o w)
  = (Ok tt,
     mkScope
       (set_status
          (if bool_decide (toUpperCase s = "PENDING") then "ORDER_PROCESSING"
           else toUpperCase s)
          (set_transactionDetails data (set_atlanticTransactionId id o)))
       (logged w [create_transaction_call o])).
Proof.
  intros Hg Hok Hd Hid Hs Hne.
  unfold create_transaction. run_unfold.
  unfold create_transaction_call in Hg. rewrite Hg, Hok, Hd, Hid, Hs. simpl.
  assert (negb (String.eqb s "") = true) as ->.
  { apply negb_true_iff. by apply String.eqb_neq. }
  simpl. by case_bool_decide.
Qed.

Lemma create_transaction_refused fallback prefix env o w r m :
  gateway env (create_transaction_call o) = Returned r →
  status_and_data r = Ok false →
  get r "message" = Ok m →
  create_transaction fallback prefix env ("TRX-" +:+ orderId o) (mkScope o w)
  = (Ok tt,
     mkScope
       (set_transactionDetails (obj [("error", or_else m (JStr fallback))])
          (set_status "TRANSACTION_CREATION_FAILED" o))
       (logged w [create_transaction_call o])).
Proof.
  intros Hg Hok Hm.
  unfold create_transaction. run_unfold.
  unfold create_transaction_call in Hg. by rewrite Hg, Hok, Hm.
Qed.

Lemma create_transaction_thrown fallback prefix env o w reason :
  gateway env (create_transaction_call o) = Rejected reason →
  create_transaction fallback prefix env ("TRX-" +:+ orderId o) (mkScope o w)
  = (Ok tt,
     mkScope
       (set_transactionDetails (obj [("error", JStr (prefix +:+ reason))])
          (set_status "TRANSACTION_CREATION_ERROR" o))
       (logged w [create_transaction_call o])).
Proof.
  intros Hg. unfold create_transaction. run_unfold.
  unfold create_transaction_call in Hg. by rewrite Hg.
Qed.

(** X1.  For a stored order awaiting its transaction
    ([ORDER_PROCESSING], [PAYMENT_SUCCESSFUL_PROCESSING_ORDER] or
    [TRANSACTION_CREATION_FAILED]) that has a transaction id, a
    transaction-status call answered with a truthy [status], a truthy
    [data] and a [data.status] that is a string and not the empty one
    persists the order stamped, with the payload merged and with a status
    decided by [data.status] in upper case: [SUCCESS] gives
    [ORDER_COMPLETED], [FAILED] or [ERROR] give [ORDER_FAILED], [PENDING]
    gives [ORDER_PROCESSING], and any other word is stored as it is.  The
    request makes that one call.  (An empty [data.status] would be
    assigned to the required path [status], which the store refuses.) *)
Theorem transaction_status_decides_status env key w o r data s :
  key ≠ "" →
  store w !! key = Some o →
  status o ∈ awaiting_transaction →
  truthy (atlanticTransactionId o) = true →
  gateway env (transaction_status_call o) = Returned r →
  status_and_data r = Ok true →
  get r "data" = Ok data →
  get data "status" = Ok (JStr s) →
  s ≠ "" →
  ∃ st,
    orderStatus env key w
    = (mkResponse 200 (OrderData (set_status st (polled_transaction env data o))),
       mkWorld (<[key := set_status st (polled_transaction env data o)]> (store w))
               (calls w ++ [transaction_status_call o]))
    ∧ (toUpperCase s = "SUCCESS" → st = "ORDER_COMPLETED")
    ∧ (toUpperCase s ∈ ["FAILED"; "ERROR"] → st = "ORDER_FAILED")
    ∧ (toUpperCase s = "PENDING" → st = "ORDER_PROCESSING")
    ∧ (toUpperCase s ∉ ["SUCCESS"; "FAILED"; "ERROR"; "PENDING"] →
       st = toUpperCase s).
Proof.
  intros Hk Ho Hst Hid Hg Hok Hd Hs _. unfold orderStatus.
  rewrite (is_empty_false _ Hk), Ho, reconcile_awaiting_transaction by done.
  rewrite (reconcile_transaction_answered _ _ _ _ _ _ _ Hg Hok Hd Hs).
  destruct (transaction_outcome_status (toUpperCase s)
              (polled_transaction env data o)
              (logged w [transaction_status_call o])) as (st & Hrun & Hcases).
  exists st. split; [|done]. run_unfold. by rewrite Hrun.
Qed.

(** X2.  When the transaction-status call is answered with a falsy
    [status] or [data], the order is persisted with a new [updatedAt] and
    nothing else changed, and the request answers 200. *)
Theorem refused_transaction_poll_only_stamps env key w o r :
  key ≠ "" →
  store w !! key = Some o →
  status o ∈ awaiting_transaction →
  truthy (atlanticTransactionId o) = true →
  gateway env (transaction_status_call o) = Returned r →
  status_and_data r = Ok false →
  orderStatus env key w
  = (mkResponse 200 (OrderData (set_updatedAt (now env) o)),
     mkWorld (<[key := set_updatedAt (now env) o]> (store w))
             (calls w ++ [transaction_status_call o])).
Proof.
  intros Hk Ho Hst Hid Hg Hok. unfold orderStatus.
  rewrite (is_empty_false _ Hk), Ho, reconcile_awaiting_transaction by done.
  unfold reconcile_transaction, transaction_status_call in *. run_unfold.
  by rewrite Hg, Hok.
Qed.

(** X3.  When the deposit is paid and the transaction creation that
    follows is refused (falsy [status] or [data]), the order is persisted
    in [TRANSACTION_CREATION_FAILED] with [transactionDetails.error] set
    to the provider's message or to "Gagal membuat transaksi"; when the
    creation call throws, the order is persisted in
    [TRANSACTION_CREATION_ERROR] with the error "Internal error: " and the
    message.  In both cases the request answers 200 with that order after
    two provider calls. *)
Theorem failed_creation_is_recorded env key w o r data s :
  key ≠ "" →
  store w !! key = Some o →
  status o ∈ awaiting_payment →
  gateway env (deposit_status_call o) = Returned r →
  status_and_data r = Ok true →
  get r "data" = Ok data →
  get data "status" = Ok (JStr s) →
  toUpperCase s = "SUCCESS" →
  (∀ r2 m,
     gateway env (create_transaction_call o) = Returned r2 →
     status_and_data r2 = Ok false →
     get r2 "message" = Ok m →
     let o' :=
       set_transactionDetails
         (obj [("error", or_else m (JStr "Gagal membuat transaksi"))])
         (set_status "TRANSACTION_CREATION_FAILED" (paid env data o)) in
     orderStatus env key w
     = (mkResponse 200 (OrderData o'),
        mkWorld (<[key := o']> (store w))
                (calls w ++ [deposit_status_call o; create_transaction_call o])))
  ∧ (∀ reason,
       gateway env (create_transaction_call o) = Rejected reason →
       let o' :=
         set_transactionDetails
           (obj [("error", JStr ("Internal error: " +:+ reason))])
           (set_status "TRANSACTION_CREATION_ERROR" (paid env data o)) in
       orderStatus env key w
       = (mkResponse 200 (OrderData o'),
          mkWorld (<[key := o']> (store w))
                  (calls w ++ [deposit_status_call o; create_transaction_call o]))).
Proof.
  intros Hk Ho Hst Hg Hok Hd Hs Hup.
  assert (orderStatus env key w
          = match (create_transaction_first env ("TRX-" +:+ orderId o);; save key)
                    (mkScope (paid env data o) (logged w [deposit_status_call o]))
            with
            | (Ok _, sc) => (mkResponse 200 (OrderData (order sc)), world sc)
            | (Throw error, sc) =>
                (mkResponse 500
                   (Failure (JStr ("Internal server error: " +:+ message error))),
                 world sc)
            end) as Hrun.
  { unfold orderStatus.
    rewrite (is_empty_false _ Hk), Ho, reconcile_awaiting_payment by done.
    rewrite (reconcile_deposit_answered _ _ _ _ _ _ _ Hg Hok Hd Hs).
    unfold payment_outcome. rewrite Hup, bool_decide_eq_true_2 by done.
    by run_unfold. }
  split.
  - intros r2 m Hg2 Hok2 Hm o'. rewrite Hrun. run_unfold.
    unfold create_transaction_first.
    rewrite (create_transaction_refused _ _ env (paid env data o) _ r2 m)
      by done.
    cbn [order world store calls logged]. unfold logged. cbn [store calls].
    by rewrite <- app_assoc.
  - intros reason Hg2 o'. rewrite Hrun. run_unfold.
    unfold create_transaction_first.
    rewrite (create_transaction_thrown _ _ env (paid env data o) _ reason)
      by done.
    unfold logged. cbn [order world store calls].
    by rewrite <- app_assoc.
Qed.

(** X4.  A stored order in [PAYMENT_SUCCESSFUL_PROCESSING_ORDER] without
    a transaction id gets its transaction created by a status request:
    one [/transaksi/create] call with reference [TRX-<orderId>], and on a
    created transaction with a status word and an id that the schema
    stores as it is (a string, or none) the order is persisted stamped,
    with the reference, the provider's transaction id, the payload as
    [transactionDetails] and the status word in upper case
    ([ORDER_PROCESSING] for [PENDING]). *)
Theorem paid_order_without_transaction_is_retried env key w o r data id s :
  key ≠ "" →
  store w !! key = Some o →
  status o = "PAYMENT_SUCCESSFUL_PROCESSING_ORDER" →
  truthy (atlanticTransactionId o) = false →
  gateway env (create_transaction_call o) = Returned r →
  status_and_data r = Ok true →
  get r "data" = Ok data →
  get data "id" = Ok id →
  stored_as_is id = true →
  get data "status" = Ok (JStr s) →
  s ≠ "" →
  let o' :=
    set_status
      (if bool_decide (toUpperCase s = "PENDING") then "ORDER_PROCESSING"
       else toUpperCase s)
      (set_transactionDetails data
         (set_atlanticTransactionId id
            (set_transactionReffId (Some ("TRX-" +:+ orderId o))
               (set_updatedAt (now env) o)))) in
  orderStatus env key w
  = (mkResponse 200 (OrderData o'),
     mkWorld (<[key := o']> (store w)) (calls w ++ [create_transaction_call o])).
Proof.
  intros Hk Ho Hst Hid Hg Hok Hd Hi _ Hs Hne o'. unfold orderStatus.
  rewrite (is_empty_false _ Hk), Ho, reconcile_retrying by done.
  unfold reconcile_retry. run_unfold. cbn [orderId set_updatedAt].
  unfold create_transaction_again.
  set (o1 := set_transactionReffId (Some ("TRX-" +:+ orderId o))
               (set_updatedAt (now env) o)).
  change (orderId o) with (orderId o1).
  by rewrite (create_transaction_succeeds _ _ env o1 w r data id s).
Qed.

(** X5.  A deposit-status response that is ok ([status] and [data]
    truthy) but whose [data.status] is not a string makes the call of
    [toUpperCase] throw: the request answers 500 and nothing is written,
    although the provider was called. *)
Theorem deposit_poll_without_status_fails env key w o r data sv :
  key ≠ "" →
  store w !! key = Some o →
  status o ∈ awaiting_payment →
  gateway env (deposit_status_call o) = Returned r →
  status_and_data r = Ok true →
  get r "data" = Ok data →
  get data "status" = Ok sv →
  (∀ s, sv ≠ JStr s) →
  ∃ reason,
    orderStatus env key w
    = (mkResponse 500 (Failure (JStr ("Internal server error: " +:+ reason))),
       logged w [deposit_status_call o]).
Proof.
  intros Hk Ho Hst Hg Hok Hd Hs Hsv. unfold orderStatus.
  rewrite (is_empty_false _ Hk), Ho, reconcile_awaiting_payment by done.
  unfold reconcile_deposit, deposit_status_call in *. run_unfold.
  rewrite Hg, Hok, Hd, Hs.
  destruct sv as [| | | |s|]; try (by eexists). by destruct (Hsv s).
Qed.


Lemma snapshot_kept_refl key sc : snapshot_kept key sc sc.
Proof. split_and!; [done|done|by left]. Qed.

Lemma snapshot_kept_trans key a b c :
  snapshot_kept key a b → snapshot_kept key b c → snapshot_kept key a c.
Proof.
  intros (Hs1 & Ho1 & Hk1) (Hs2 & Ho2 & Hk2). split_and!.
  - congruence.
  - intros k Hk. by rewrite Ho2, Ho1.
  - destruct Hk2 as [E|(d & E & Hd)].
    + rewrite E. done.
    + right. exists d. split; [done|congruence].
Qed.

#[local] Hint Resolve snapshot_kept_refl snapshot_kept_trans : keeps.

Lemma assign_keeps_snapshot key (f : Order → Order) :
  (∀ o, snapshot (f o) = snapshot o) →
  keeps (snapshot_kept key) (assign f).
Proof.
  intros Hf. apply keeps_modify. intros [o w].
  split_and!; [apply Hf|done|by left].
Qed.

Lemma save_keeps_snapshot key : keeps (snapshot_kept key) (save key).
Proof.
  apply keeps_modify. intros [o [st cs]]. split_and!; cbn.
  - done.
  - intros k Hk. by rewrite lookup_insert_ne.
  - right. exists o. by rewrite lookup_insert_eq.
Qed.

Lemma fetch_keeps_snapshot key env ep params :
  keeps (snapshot_kept key) (in_world (fetchAtlanticAPI env ep params)).
Proof.
  apply fetch_keeps_store. intros. split_and!; [done|done|by left].
Qed.

(** Closes [keeps (snapshot_kept key) c] for handler code. *)
Ltac snapshot_steps :=
  repeat match goal with
    | |- keeps _ (bind _ _) => apply keeps_bind
    | |- keeps _ (try_catch _ _) => apply keeps_try_catch
    | |- keeps _ (ret _) => apply keeps_ret
    | |- keeps _ (lift _) => apply keeps_lift
    | |- keeps _ (gets _) => apply keeps_gets
    | |- keeps _ (if _ then _ else _) => apply keeps_if
    | |- keeps _ (in_world (fetchAtlanticAPI _ _ _)) => apply fetch_keeps_snapshot
    | |- keeps _ (save _) => apply save_keeps_snapshot
    | |- keeps _ (assign _) => apply assign_keeps_snapshot; by intros []
    | |- ∀ _ : Scope, _ => solve [eauto with keeps]
    | |- ∀ _, keeps _ _ => intros
    end.

Lemma reconcile_keeps_snapshot env key :
  keeps (snapshot_kept key) (reconcile env key).
Proof.
  unfold reconcile, reconcile_deposit, reconcile_transaction, reconcile_retry,
    payment_outcome, transaction_outcome,
    create_transaction_first, create_transaction_again, create_transaction.
  snapshot_steps.
Qed.

Lemma cancel_keeps_snapshot env key :
  keeps (snapshot_kept key) (cancelOrder_try env key).
Proof. unfold cancelOrder_try. snapshot_steps. Qed.

Lemma scope_survives key o w sc :
  store w !! key = Some o →
  snapshot_kept key (mkScope o w) sc →
  order_survives w (world sc).
Proof.
  intros Ho (_ & Hother & Hkey) k o1 Hk. cbn in *.
  destruct (decide (k = key)) as [->|Hne].
  - destruct Hkey as [E|(d & E & Hd)].
    + exists o1. by rewrite E.
    + exists d. split; [done|]. congruence.
  - exists o1. by rewrite Hother.
Qed.

Lemma orderStatus_survives env key w :
  order_survives w (orderStatus env key w).2.
Proof.
  unfold orderStatus. destruct (is_empty key); [by eexists|].
  destruct (store w !! key) as [o|] eqn:Ho; [|by eexists].
  pose proof (reconcile_keeps_snapshot env key (mkScope o w)) as H.
  destruct (reconcile env key (mkScope o w)) as [[[]|e] sc]; cbn in *;
    by eapply scope_survives.
Qed.

Lemma cancelOrder_survives env key w :
  order_survives w (cancelOrder env key w).2.
Proof.
  unfold cancelOrder. destruct (is_empty key); [by eexists|].
  destruct (store w !! key) as [o|] eqn:Ho; [|by eexists].
  destruct (negb (truthy _)); [by eexists|].
  destruct (_ && _); [by eexists|].
  pose proof (cancel_keeps_snapshot env key (mkScope o w)) as H.
  destruct (cancelOrder_try env key (mkScope o w)) as [[res|e] sc]; cbn in *;
    by eapply scope_survives.
Qed.

Lemma createOrder_try_store env req p pm w :
  store (createOrder_try env req p pm w).2 = store w
  ∨ store w !! orderIdInternal env = None
    ∧ ∃ o, store (createOrder_try env req p pm w).2
           = <[orderIdInternal env := o]> (store w).
Proof.
  unfold createOrder_try, save_new. run_unfold.
  destruct (gateway env _) as [r|reason]; [|by left].
  destruct (status_and_data r) as [[|]|e]; cbn [negb]; [| |by left].
  - destruct (get r "data") as [data|e]; [|by left].
    destruct (get data "id") as [id|e]; [|by left]. cbn [orderId newOrder store].
    destruct (store w !! orderIdInternal env) eqn:Hf; [by left|].
    right. split; [done|]. by eexists.
  - destruct (get r "message"); by left.
Qed.

Lemma createOrder_survives env cat req w :
  order_survives w (createOrder env cat req w).2.
Proof.
  unfold createOrder. destruct (_ || _); [by eexists|].
  destruct (find_product _ _ _) as [p|]; [|by eexists].
  destruct (find_payment_method _ _) as [pm|]; [|by eexists].
  pose proof (createOrder_try_store env req p pm w) as H.
  unfold order_survives.
  destruct (createOrder_try env req p pm w) as [[res|e] w']; cbn in *;
    (destruct H as [->|(Hf & o' & ->)]; intros k o Hk;
     [by exists o|exists o; rewrite lookup_insert_ne; [done|congruence]]).
Qed.

(** X6.  Whatever requests are served (creations, status requests,
    cancellations, under any provider), an order that is stored stays
    stored under its id, and keeps its id, its product and payment
    snapshot, its fees and amount, its deposit id and reference, and its
    creation time. *)
Theorem orders_are_kept_with_their_snapshot rqs : ∀ w k o,
  store w !! k = Some o →
  ∃ o', store (serve_all rqs w) !! k = Some o' ∧ snapshot o' = snapshot o.
Proof.
  induction rqs as [|rq rqs IH]; intros w k o Hk; [by exists o|].
  assert (order_survives w (serve rq w).2) as Hstep.
  { destruct rq; [apply createOrder_survives|apply orderStatus_survives
                 |apply cancelOrder_survives]. }
  destruct (Hstep k o Hk) as (o1 & Hk1 & Hs1).
  destruct (IH _ k o1 Hk1) as (o' & Hk' & Hs'). simpl.
  exists o'. split; [done|congruence].
Qed.


(** *** The provider calls of a status request *)

Lemma payment_outcome_calls env up o w :
  ∃ r sc,
    payment_outcome env up (mkScope o w) = (r, sc)
    ∧ (calls (world sc) = calls w
       ∨ calls (world sc) = calls w ++ [create_transaction_call o]).
Proof.
  unfold payment_outcome.
  destruct (decide (up = "SUCCESS")) as [->|Hup].
  - rewrite bool_decide_eq_true_2 by done. run_unfold.
    cbn [orderId set_status].
    set (o1 := set_transactionReffId (Some ("TRX-" +:+ orderId o))
                 (set_status "PAYMENT_SUCCESSFUL_PROCESSING_ORDER" o)).
    change (orderId o) with (orderId o1).
    destruct (create_first_runs env o1 w) as [o' Hrun].
    rewrite Hrun. eexists _, _. split; [reflexivity|]. by right.
  - rewrite (bool_decide_eq_false_2 _ Hup). run_unfold.
    repeat case_match; eexists _, _; (split; [reflexivity|by left]).
Qed.

Lemma reconcile_deposit_calls env key o w :
  let cs := calls (world (reconcile_deposit env key (mkScope o w)).2) in
  cs = calls w ++ [deposit_status_call o]
  ∨ cs = calls w ++ [deposit_status_call o; create_transaction_call o].
Proof.
  cbv zeta. unfold reconcile_deposit, deposit_status_call. run_unfold.
  destruct (gateway env _) as [r|reason]; [|by left].
  destruct (status_and_data r) as [[|]|e]; [|by left..].
  destruct (get r "data") as [data|e]; [|by left].
  destruct (get data "status") as [s|e]; [|by left].
  destruct (call_toUpperCase s) as [up|e]; [|by left].
  set (o1 := set_depositDetails _ _). set (w1 := mkWorld _ _).
  destruct (payment_outcome_calls env up o1 w1) as (r' & sc & Hrun & Hcs).
  cbn [order world]. rewrite Hrun.
  change (create_transaction_call o1) with (create_transaction_call o) in Hcs.
  subst w1. cbn [calls] in Hcs.
  destruct r'; cbn [order world store calls snd];
    (destruct Hcs as [->| ->]; [by left|right; by rewrite <- app_assoc]).
Qed.

Lemma reconcile_transaction_calls env key o w :
  calls (world (reconcile_transaction env key (mkScope o w)).2)
  = calls w ++ [transaction_status_call o].
Proof.
  unfold reconcile_transaction, transaction_status_call. run_unfold.
  destruct (gateway env _) as [r|reason]; [|done].
  destruct (status_and_data r) as [[|]|e]; [|done..].
  destruct (get r "data") as [data|e]; [|done].
  destruct (get data "status") as [s|e]; [|done].
  destruct (call_toUpperCase s) as [up|e]; [|done].
  set (o1 := set_transactionDetails _ _). set (w1 := mkWorld _ _).
  destruct (transaction_outcome_runs up o1 w1) as (o' & Hrun & _).
  cbn [order world]. by rewrite Hrun.
Qed.

(** X7.  A status request only appends to the call log, and what it
    appends is one of: nothing; the deposit-status call, alone or followed
    by one transaction creation (order awaiting payment); the
    transaction-status call (order awaiting its transaction, with a
    transaction id); one transaction creation (order in
    [PAYMENT_SUCCESSFUL_PROCESSING_ORDER] without a transaction id).  So a
    request makes at most two provider calls and at most one creation. *)
Theorem status_request_call_sequences env key w :
  ∃ cs,
    calls (orderStatus env key w).2 = calls w ++ cs
    ∧ (cs = []
       ∨ ∃ o, store w !! key = Some o
              ∧ ((status o ∈ awaiting_payment
                  ∧ (cs = [deposit_status_call o]
                     ∨ cs = [deposit_status_call o; create_transaction_call o]))
                 ∨ (status o ∈ awaiting_transaction
                    ∧ truthy (atlanticTransactionId o) = true
                    ∧ cs = [transaction_status_call o])
                 ∨ (status o = "PAYMENT_SUCCESSFUL_PROCESSING_ORDER"
                    ∧ truthy (atlanticTransactionId o) = false
                    ∧ cs = [create_transaction_call o]))).
Proof.
  unfold orderStatus.
  destruct (is_empty key); [exists []; by rewrite app_nil_r; auto|].
  destruct (store w !! key) as [o|] eqn:Ho;
    [|exists []; by rewrite app_nil_r; auto].
  assert (∀ r sc, (let '(r', sc') := (r, sc) : Res unit * Scope in
                   match r' with
                   | Ok _ => (mkResponse 200 (OrderData (order sc')), world sc')
                   | Throw error =>
                       (mkResponse 500
                          (Failure (JStr ("Internal server error: "
                                          +:+ message error))), world sc')
                   end).2 = world sc) as Hsnd by (by intros [] ?).
  destruct (reconcile env key (mkScope o w)) as [r sc] eqn:Hrec.
  rewrite (Hsnd r sc).
  assert (sc = (reconcile env key (mkScope o w)).2) as -> by (by rewrite Hrec).
  clear Hrec Hsnd r.
  destruct (reconcile_dispatch env key o w)
    as [[Hs E]|[(Hs & Ht & E)|[(Hs & Ht & E)|E]]]; rewrite E.
  - destruct (reconcile_deposit_calls env key o w) as [H|H]; rewrite H;
      eexists; (split; [reflexivity|]); right; exists o; (split; [done|]);
      left; (split; [done|]); [by left|by right].
  - rewrite reconcile_transaction_calls.
    eexists; (split; [reflexivity|]); right; exists o; (split; [done|]).
    right; left. done.
  - destruct (reconcile_retry_runs env key o w) as (o' & -> & _). cbn.
    eexists; (split; [reflexivity|]); right; exists o; (split; [done|]).
    right; right. done.
  - exists []. cbn. rewrite app_nil_r. auto.
Qed.

(** *** Orders no request moves *)

Lemma cancel_only_entry env key :
  keeps (only_entry key) (cancelOrder_try env key).
Proof.
  unfold cancelOrder_try, assign. keeps_steps. apply save_only_entry.
Qed.

Lemma cancelOrder_other_entries env key w k :
  k ≠ key → store (cancelOrder env key w).2 !! k = store w !! k.
Proof.
  intros Hk. unfold cancelOrder.
  destruct (is_empty key); [done|].
  destruct (store w !! key) as [o|] eqn:Ho; [|done].
  destruct (negb (truthy _)); [done|].
  destruct (_ && _); [done|].
  pose proof (cancel_only_entry env key (mkScope o w) k Hk) as H.
  by destruct (cancelOrder_try env key (mkScope o w)) as [[res|e] sc].
Qed.

Lemma cancelOrder_not_cancellable env key w o :
  store w !! key = Some o →
  status o ∉ awaiting_payment →
  (cancelOrder env key w).2 = w.
Proof.
  intros Ho Hs. unfold cancelOrder.
  destruct (is_empty key); [done|]. rewrite Ho.
  destruct (negb (truthy _)); [done|].
  destruct (_ && _) eqn:E; [done|].
  by apply cancellable_status in E.
Qed.

Lemma createOrder_keeps_entries env cat req w k o :
  store w !! k = Some o →
  store (createOrder env cat req w).2 !! k = Some o.
Proof.
  intros Hk. unfold createOrder. destruct (_ || _); [done|].
  destruct (find_product _ _ _) as [p|]; [|done].
  destruct (find_payment_method _ _) as [pm|]; [|done].
  pose proof (createOrder_try_store env req p pm w) as H.
  destruct (createOrder_try env req p pm w) as [[res|e] w']; cbn in *;
    (destruct H as [->|(Hf & o' & ->)];
     [done|rewrite lookup_insert_ne; [done|congruence]]).
Qed.

Lemma settled_order_stays rqs : ∀ w key o,
  store w !! key = Some o →
  status o ∉ awaiting_payment ++ awaiting_transaction →
  store (serve_all rqs w) !! key = Some o.
Proof.
  induction rqs as [|rq rqs IH]; intros w key o Ho Hs; [done|].
  simpl. apply IH; [|done].
  destruct rq as [env cat body|env k|env k]; simpl.
  - by apply createOrder_keeps_entries.
  - destruct (decide (k = key)) as [->|Hk].
    + destruct (decide (key = "")) as [->|Hne]; [by rewrite <- Ho|].
      by rewrite (orderStatus_inert env key o w).
    + by rewrite orderStatus_other_entries.
  - destruct (decide (k = key)) as [->|Hk].
    + rewrite (cancelOrder_not_cancellable env key w o); [done..|].
      by apply not_elem_of_app in Hs as [? _].
    + by rewrite cancelOrder_other_entries.
Qed.

(** X8.  An order whose status is none of the five the status route acts
    on is never changed by any run of requests of any kind; after the run
    a status request answers with that order and leaves the world as it
    is, and a cancellation changes nothing. *)
Theorem settled_order_is_never_changed rqs w key o :
  store w !! key = Some o →
  status o ∉ awaiting_payment ++ awaiting_transaction →
  store (serve_all rqs w) !! key = Some o
  ∧ (key ≠ "" →
     ∀ env, orderStatus env key (serve_all rqs w)
            = (mkResponse 200 (OrderData o), serve_all rqs w))
  ∧ ∀ env, (cancelOrder env key (serve_all rqs w)).2 = serve_all rqs w.
Proof.
  intros Ho Hs.
  assert (store (serve_all rqs w) !! key = Some o) as Hlater
    by (by apply settled_order_stays).
  split_and!; [done| |].
  - intros Hk env. by apply orderStatus_inert.
  - intros env. apply (cancelOrder_not_cancellable env key _ o); [done|].
    by apply not_elem_of_app in Hs as [? _].
Qed.

(** X9.  After a confirmed cancellation the order is stored as
    [PAYMENT_CANCELLED], and after any run of later requests it is still
    that same document: a status request answers with it without calling
    the provider, and a second cancellation is answered 400 without
    calling the provider. *)
Theorem cancellation_is_final env key w o :
  key ≠ "" →
  store w !! key = Some o →
  truthy (atlanticDepositId o) = true →
  status o ∈ awaiting_payment →
  confirms_cancel (gateway env (deposit_cancel_call o)) →
  ∃ o',
    store (cancelOrder env key w).2 !! key = Some o'
    ∧ status o' = "PAYMENT_CANCELLED"
    ∧ ∀ rqs,
        let w' := serve_all rqs (cancelOrder env key w).2 in
        store w' !! key = Some o'
        ∧ (∀ env', orderStatus env' key w' = (mkResponse 200 (OrderData o'), w'))
        ∧ (∀ env',
             cancelOrder env' key w'
             = (mkResponse 400
                  (Failure (JStr "Pesanan status PAYMENT_CANCELLED tidak bisa dibatalkan.")),
                w')).
Proof.
  intros Hk Ho Hid Hs Hc.
  destruct (cancel_try_confirmed env key o w Hc)
    as (shown & o' & Htry & Hst & _).
  assert ((cancelOrder env key w).2
          = mkWorld (<[key := o']> (store w)) (calls w ++ [deposit_cancel_call o]))
    as ->.
  { unfold cancelOrder. rewrite (is_empty_false _ Hk), Ho, Hid. cbn [negb].
    by rewrite (proj2 (cancellable_status o) Hs), Htry. }
  assert (status o' ∉ awaiting_payment ++ awaiting_transaction) as Hfinal.
  { rewrite Hst. apply (bool_decide_unpack _). by vm_compute. }
  exists o'. cbn [store]. rewrite lookup_insert_eq. split_and!; [done..|].
  intros rqs. set (w' := serve_all rqs _).
  assert (store w' !! key = Some o') as Hw'.
  { apply settled_order_stays; [|done]. cbn. by rewrite lookup_insert_eq. }
  split_and!; [done| |].
  - intros env'. by apply orderStatus_inert.
  - intros env'. unfold cancelOrder.
    rewrite (is_empty_false _ Hk), Hw'.
    assert (atlanticDepositId o' = atlanticDepositId o) as ->.
    { pose proof (cancel_keeps_snapshot env key (mkScope o w)) as (Hsn & _).
      rewrite Htry in Hsn. cbn in Hsn. unfold snapshot in Hsn. congruence. }
    rewrite Hid, Hst. done.
Qed.


(** *** More on order creation *)

Lemma orderIdInternal_not_empty env : orderIdInternal env ≠ "".
Proof. done. Qed.

Lemma createOrder_created env cat req w p pm r data id :
  creation_succeeds env cat req w p pm r data →
  get data "id" = Ok id →
  (createOrder env cat req w).2
  = mkWorld (<[orderIdInternal env := newOrder env req p pm data id]> (store w))
            (calls w ++ [deposit_create_call env p pm]).
Proof.
  intros (Hreq & Hp & Hpm & Hg & Hok & Hd & Hfresh & _) Hid.
  rewrite (createOrder_selected _ _ _ _ _ _ Hreq Hp Hpm).
  destruct (createOrder_try_opened env req p pm w r data Hg Hok Hd Hfresh)
    as [id' Hrun].
  rewrite Hrun. cbn.
  assert (id' = id) as ->; [|done].
  revert Hrun. unfold createOrder_try, save_new. run_unfold.
  unfold deposit_create_call in Hg. rewrite Hg, Hok, Hd, Hid. cbn.
  rewrite Hfresh. intros [= H]. apply (f_equal (λ m, m !! orderIdInternal env)) in H.
  rewrite !lookup_insert_eq in H. by simplify_eq.
Qed.

Lemma createOrder_rejects env cat req w :
  is_empty (body_productId req) || is_empty (body_targetId req)
  || is_empty (body_paymentMethodCode req) || is_empty (body_providerName req)
  = true
  ∨ find_product cat (body_productId req) (body_providerName req) = None
  ∨ find_payment_method cat (body_paymentMethodCode req) = None →
  ∃ c m,
    createOrder env cat req w = (mkResponse c (Failure (JStr m)), w)
    ∧ (c = 400 ∨ c = 404).
Proof.
  intros H. unfold createOrder.
  destruct (_ || _); [eexists _, _; split; [done|by left]|].
  destruct H as [H|[H|H]]; [done| |].
  - rewrite H. eexists _, _; split; [done|by right].
  - destruct (find_product _ _ _); rewrite ?H;
      eexists _, _; (split; [done|by right]).
Qed.

(** X10.  A creation request with an empty field, or naming a product or
    a payment method that is not in the caches, is answered 400 or 404
    and leaves the world as it is: no provider call, no order. *)
Theorem unknown_request_touches_nothing env cat req w :
  is_empty (body_productId req) || is_empty (body_targetId req)
  || is_empty (body_paymentMethodCode req) || is_empty (body_providerName req)
  = true
  ∨ find_product cat (body_productId req) (body_providerName req) = None
  ∨ find_payment_method cat (body_paymentMethodCode req) = None →
  ∃ c m,
    createOrder env cat req w = (mkResponse c (Failure (JStr m)), w)
    ∧ (c = 400 ∨ c = 404).
Proof. apply createOrder_rejects. Qed.

(** X11.  After a creation that goes through, with a document that
    passes the schema (so a deposit id that is a string or absent), the
    new order is found under the generated id, with [updatedAt] and
    [createdAt] read from the clock after the provider answered, and
    every other entry is as before; a status request for that id starts
    with a deposit-status call carrying the provider's deposit id; a
    cancellation calls [/deposit/cancel] with that id when it is truthy,
    and is answered 400 without a provider call when the id is absent or
    the empty string. *)
Theorem created_order_is_followed_by_its_deposit_id
    env cat req w p pm r data id :
  creation_succeeds env cat req w p pm r data →
  get data "id" = Ok id →
  let key := orderIdInternal env in
  let w' := (createOrder env cat req w).2 in
  store w' !! key = Some (newOrder env req p pm data id)
  ∧ (∀ k, k ≠ key → store w' !! k = store w !! k)
  ∧ (∀ env', ∃ cs,
       calls (orderStatus env' key w').2
       = calls w' ++ mkCall "/deposit/status" [("id", id)] :: cs)
  ∧ (truthy id = true →
     ∀ env', calls (cancelOrder env' key w').2
             = calls w' ++ [mkCall "/deposit/cancel" [("id", id)]])
  ∧ (truthy id = false →
     ∀ env', cancelOrder env' key w'
             = (mkResponse 400 (Failure (JStr "Deposit ID tidak ditemukan.")), w')).
Proof.
  intros Hc Hid key w'. subst key.
  assert (w' = mkWorld (<[orderIdInternal env := newOrder env req p pm data id]> (store w))
                       (calls w ++ [deposit_create_call env p pm])) as Hw'
    by (by apply createOrder_created with r).
  set (o := newOrder env req p pm data id) in *.
  assert (store w' !! orderIdInternal env = Some o) as Ho
    by (rewrite Hw'; cbn; by rewrite lookup_insert_eq).
  split_and!.
  - done.
  - intros k Hk. rewrite Hw'. cbn. by rewrite lookup_insert_ne.
  - intros env'. unfold orderStatus.
    rewrite (is_empty_false _ (orderIdInternal_not_empty env)), Ho.
    rewrite reconcile_awaiting_payment
      by (apply (bool_decide_unpack _); by vm_compute).
    pose proof (reconcile_deposit_calls env' (orderIdInternal env) o w') as Hcs. cbv zeta in Hcs.
    destruct (reconcile_deposit env' (orderIdInternal env) (mkScope o w')) as [[[]|e] sc];
      cbn in *; destruct Hcs as [-> | ->]; by eexists.
  - intros Ht env'. unfold cancelOrder.
    rewrite (is_empty_false _ (orderIdInternal_not_empty env)), Ho.
    change (atlanticDepositId o) with id. rewrite Ht. cbn [negb andb].
    change (status o) with "PENDING_PAYMENT". cbn [negb andb bool_decide].
    rewrite bool_decide_eq_true_2 by done. cbn [negb andb].
    unfold cancelOrder_try. run_unfold.
    change (atlanticDepositId o) with id.
    destruct (gateway env' _) as [r'|reason]; [|done].
    destruct (cancel_confirmed r') as [[|]|e]; cbn; [| |done].
    + repeat case_match; by simplify_eq.
    + by destruct (get r' "message").
  - intros Ht env'. unfold cancelOrder.
    rewrite (is_empty_false _ (orderIdInternal_not_empty env)), Ho.
    change (atlanticDepositId o) with id. by rewrite Ht.
Qed.

(** X12.  When the generated [orderId] is already stored, the deposit is
    opened at the provider all the same, the save is refused by the
    unique index, and the request answers 500 with the collection
    unchanged. *)
Theorem colliding_orderId_loses_the_deposit env cat req w p pm r data old :
  is_empty (body_productId req) || is_empty (body_targetId req)
  || is_empty (body_paymentMethodCode req) || is_empty (body_providerName req)
  = false →
  find_product cat (body_productId req) (body_providerName req) = Some p →
  find_payment_method cat (body_paymentMethodCode req) = Some pm →
  gateway env (deposit_create_call env p pm) = Returned r →
  status_and_data r = Ok true →
  get r "data" = Ok data →
  store w !! orderIdInternal env = Some old →
  ∃ m,
    createOrder env cat req w
    = (mkResponse 500 (Failure (JStr ("Gagal memproses pesanan: " +:+ m))),
       logged w [deposit_create_call env p pm]).
Proof.
  intros Hreq Hp Hpm Hg Hok Hd Hold.
  rewrite (createOrder_selected _ _ _ _ _ _ Hreq Hp Hpm).
  unfold createOrder_try, save_new, deposit_create_call in *. run_unfold.
  rewrite Hg, Hok, Hd. cbn [negb].
  apply status_and_data_true in Hok as (m & sv & d & -> & _ & _ & Hd' & Htd).
  cbn [get] in Hd. rewrite Hd' in Hd. injection Hd as <-.
  destruct (get d "id") as [id|e] eqn:Hid.
  2: { destruct d; simplify_eq. }
  cbn [orderId newOrder store calls]. rewrite Hold. by eexists.
Qed.


(** *** The listing routes *)

Lemma find_app_l {A} (f : A → bool) (l1 l2 : list A) x :
  List.find f l1 = Some x → List.find f (l1 ++ l2) = Some x.
Proof.
  induction l1 as [|a l1 IH]; [done|]. simpl. by destruct (f a).
Qed.

Lemma find_app_r {A} (f : A → bool) (l1 l2 : list A) :
  (∀ x, x ∈ l1 → f x = false) →
  List.find f (l1 ++ l2) = List.find f l2.
Proof.
  induction l1 as [|a l1 IH]; [done|]. intros H. simpl.
  rewrite (H a) by (by left). apply IH. intros x Hx. apply H. by right.
Qed.

Lemma providersMap_step_first_seen seen m p :
  first_seen seen m → first_seen (seen ++ [p]) (providersMap_step m p).
Proof.
  intros (Hnd & Hin & Hinfo). unfold providersMap_step.
  case_bool_decide as Hp.
  - split_and!; [done| |].
    + intros n. rewrite Hin. split.
      * intros (q & Hq & E). exists q. split; [|done]. apply elem_of_app. by left.
      * intros (q & [Hq|Hq%list_elem_of_singleton]%elem_of_app & E).
        -- by exists q.
        -- subst q. rewrite <- E. by apply Hin.
    + intros n i Hni. destruct (Hinfo n i Hni) as (q & Hq & ->).
      exists q. split; [|done]. by apply find_app_l.
  - assert (∀ q, q ∈ seen → Product.provider q ≠ Product.provider p) as Hnew.
    { intros q Hq E. apply Hp, Hin. by exists q. }
    split_and!.
    + rewrite fmap_app. cbn. apply NoDup_app. split_and!; [done| |].
      * intros n Hn [->|[]%elem_of_nil]%elem_of_cons. done.
      * apply NoDup_singleton.
    + intros n. rewrite fmap_app, elem_of_app. cbn.
      rewrite list_elem_of_singleton, Hin. split.
      * intros [(q & Hq & E)| ->].
        -- exists q. split; [|done]. apply elem_of_app. by left.
        -- exists p. split; [|done]. apply elem_of_app. right. by left.
      * intros (q & [Hq|Hq%list_elem_of_singleton]%elem_of_app & E).
        -- left. by exists q.
        -- subst q. by right.
    + intros n i [Hni|Hni%list_elem_of_singleton]%elem_of_app.
      * destruct (Hinfo n i Hni) as (q & Hq & ->).
        exists q. split; [|done]. by apply find_app_l.
      * injection Hni as -> ->. exists p. split; [|done].
        rewrite find_app_r.
        -- cbn. by rewrite bool_decide_eq_true_2.
        -- intros q Hq. apply bool_decide_eq_false_2. by apply Hnew.
Qed.

Lemma providersMap_first_seen cache : ∀ seen m,
  first_seen seen m →
  first_seen (seen ++ cache) (foldl providersMap_step m cache).
Proof.
  induction cache as [|p cache IH]; intros seen m H.
  - by rewrite app_nil_r.
  - cbn. replace (seen ++ p :: cache) with ((seen ++ [p]) ++ cache)
      by (by rewrite <- app_assoc).
    apply IH. by apply providersMap_step_first_seen.
Qed.

Lemma first_seen_nil : first_seen [] [].
Proof.
  split_and!.
  - apply NoDup_nil_2.
  - intros n. split; [by intros []%elem_of_nil|].
    by intros (p & []%elem_of_nil & _).
  - by intros n i []%elem_of_nil.
Qed.

(** X13.  [GET /api/providers] answers 503 on an empty products cache.
    Otherwise it serves a non-empty list in which every provider name of
    the cache occurs exactly once, and each entry carries the category
    and the image of the first cached product of that provider. *)
Theorem providers_are_listed_once cat :
  (productsCache cat = [] →
   getProviders cat
   = Refused 503 "Layanan produk belum siap, coba beberapa saat lagi.")
  ∧ (productsCache cat ≠ [] →
     ∃ data,
       getProviders cat = Served data
       ∧ data ≠ []
       ∧ NoDup (info_name <$> data)
       ∧ (∀ n, n ∈ info_name <$> data
               ↔ ∃ p, p ∈ productsCache cat ∧ Product.provider p = n)
       ∧ (∀ i, i ∈ data →
            ∃ p, List.find (λ p, bool_decide (Product.provider p = info_name i))
                           (productsCache cat) = Some p
                 ∧ i = info_of p)).
Proof.
  unfold getProviders. split.
  - by intros ->.
  - intros Hne. rewrite bool_decide_eq_false_2
      by (by destruct (productsCache cat)).
    pose proof (providersMap_first_seen (productsCache cat) [] [] first_seen_nil)
      as (Hnd & Hin & Hinfo). cbn [app] in *.
    set (m := foldl providersMap_step [] (productsCache cat)) in *.
    assert (∀ n i, (n, i) ∈ m → info_name i = n) as Hname.
    { intros n i Hni. destruct (Hinfo n i Hni) as (p & Hp & ->). cbn.
      apply find_some in Hp as [_ Hp]. by apply bool_decide_eq_true_1 in Hp. }
    assert (info_name <$> m.*2 = m.*1) as Hnames.
    { clear -Hname. induction m as [|[n i] m IH]; [done|]. cbn. f_equal.
      - apply Hname. by left.
      - apply IH. intros n' i' H. apply Hname. by right. }
    exists (m.*2). split_and!; [done| | | |].
    + destruct (productsCache cat) as [|p l] eqn:E; [done|].
      assert (Product.provider p ∈ m.*1) as Hp
        by (apply Hin; exists p; split; [by left|done]).
      intros Hnil. rewrite <- Hnames, Hnil in Hp. by apply elem_of_nil in Hp.
    + by rewrite Hnames.
    + intros n. by rewrite Hnames.
    + intros i [[n i'] [-> Hi]]%list_elem_of_fmap. cbn.
      destruct (Hinfo n i' Hi) as (p & Hp & ->). cbn.
      assert (Product.provider p = n) as ->.
      { apply find_some in Hp as [_ Hp]. by apply bool_decide_eq_true_1 in Hp. }
      by exists p.
Qed.

(** X14.  [GET /api/products/:providerName] answers 503 on an empty
    cache, before the name is decoded; lets a decoding error escape;
    answers 404 when no cached product has that provider name, compared
    without letter case; and otherwise serves exactly the matching
    products, in cache order.  The served list does not depend on the
    letter case of the name, and every served product can be found by
    [createOrder] under its code and that name. *)
Theorem products_are_listed_by_provider_name decode cat param :
  (productsCache cat = [] →
   getProducts decode cat param
   = Ok (Refused 503 "Layanan produk belum siap, coba beberapa saat lagi."))
  ∧ (∀ e, productsCache cat ≠ [] → decode param = Throw e →
          getProducts decode cat param = Throw e)
  ∧ (∀ name, productsCache cat ≠ [] → decode param = Ok name →
       let matching :=
         filter (λ p, toLowerCase (Product.provider p) = toLowerCase name)
                (productsCache cat) in
       (matching = [] →
        getProducts decode cat param
        = Ok (Refused 404 ("Produk untuk " +:+ name +:+ " tidak ditemukan.")))
       ∧ (matching ≠ [] →
          getProducts decode cat param = Ok (Served (matching, name))
          ∧ (∀ p, p ∈ matching
                  ↔ p ∈ productsCache cat
                    ∧ toLowerCase (Product.provider p) = toLowerCase name)
          ∧ (∀ p, p ∈ matching →
               ∃ p', find_product cat (Product.code p) name = Some p'
                     ∧ Product.code p' = Product.code p)
          ∧ (∀ param' name',
               decode param' = Ok name' →
               toLowerCase name' = toLowerCase name →
               getProducts decode cat param' = Ok (Served (matching, name'))))).
Proof.
  unfold getProducts. split_and!.
  - by intros ->.
  - intros e Hne He. rewrite bool_decide_eq_false_2
      by (by destruct (productsCache cat)).
    by rewrite He.
  - intros name Hne Hname.
    set (matching := filter _ (productsCache cat)).
    rewrite bool_decide_eq_false_2 by (by destruct (productsCache cat)).
    rewrite Hname. cbn [res_bind]. fold matching. split.
    + by intros ->.
    + intros Hm. rewrite bool_decide_eq_false_2 by (by destruct matching).
      split_and!; [done| | |].
      * intros p. unfold matching. rewrite list_elem_of_filter. tauto.
      * intros p Hp. unfold matching in Hp.
        apply list_elem_of_filter in Hp as [Hlow Hin].
        unfold find_product.
        destruct (List.find _ (productsCache cat)) as [p'|] eqn:Hf.
        -- exists p'. split; [done|]. apply find_some in Hf as [_ Hf].
           apply andb_prop in Hf as [Hc _].
           by apply bool_decide_eq_true_1 in Hc.
        -- exfalso. apply list_elem_of_In in Hin.
           pose proof (find_none _ _ Hf p Hin) as Hnone. cbn in Hnone.
           by rewrite !bool_decide_eq_true_2 in Hnone.
      * intros param' name' Hd Hlow.
        rewrite Hd. cbn [res_bind]. rewrite Hlow. fold matching.
        by rewrite bool_decide_eq_false_2 by (by destruct matching).
Qed.

Lemma listed_methods cat data :
  getPaymentMethods cat = Served data →
  ∀ item, item ∈ data ↔
    (spread_method item ∈ paymentMethodsCache cat
     ∧ (PaymentMethod.metode (spread_method item) ∉ blocked)
     ∧ additional_admin_fee_percent item = 2%float).
Proof.
  unfold getPaymentMethods. case_bool_decide; [done|]. cbv zeta.
  intros [= <-] [pm a]. rewrite list_elem_of_filter, list_elem_of_fmap. cbn. split.
  - intros (Hb & pm' & [= -> ->] & Hin). done.
  - intros (Hin & Hb & ->). split; [done|]. by exists pm.
Qed.

(** X15.  [GET /api/payment-methods] answers 503 on an empty cache.
    Otherwise it serves the cached methods whose code is not one of
    [OVO], [QRIS], [DANA], [ovo], [MANDIRI], [PERMATA], each with
    [additional_admin_fee_percent = 2]; when every cached method is
    blocked it serves the empty list. *)
Theorem blocked_methods_are_not_listed cat :
  (paymentMethodsCache cat = [] →
   getPaymentMethods cat
   = Refused 503 "Metode pembayaran belum siap, coba beberapa saat lagi.")
  ∧ (paymentMethodsCache cat ≠ [] →
     ∃ data,
       getPaymentMethods cat = Served data
       ∧ (∀ item, item ∈ data ↔
            (spread_method item ∈ paymentMethodsCache cat
             ∧ (PaymentMethod.metode (spread_method item) ∉ blocked)
             ∧ additional_admin_fee_percent item = 2%float))
       ∧ ((∀ pm, pm ∈ paymentMethodsCache cat → PaymentMethod.metode pm ∈ blocked) →
          data = [])).
Proof.
  split.
  - unfold getPaymentMethods. by intros ->.
  - intros Hne.
    assert (∃ data, getPaymentMethods cat = Served data) as [data Hdata].
    { unfold getPaymentMethods. rewrite bool_decide_eq_false_2
        by (by destruct (paymentMethodsCache cat)). by eexists. }
    exists data. split_and!; [done|by apply listed_methods|].
    intros Hall. destruct data as [|item data]; [done|]. exfalso.
    assert (item ∈ item :: data) as Hin by (by left).
    apply (listed_methods _ _ Hdata) in Hin as (Hc & Hnb & _).
    by apply Hnb, Hall.
Qed.

(** X16.  A payment method that the listing hides is not refused by
    [createOrder]: a complete request for a cached product that names a
    cached, blocked method opens a deposit at the provider with that
    method. *)
Theorem blocked_method_can_still_be_ordered env cat req w p pm :
  is_empty (body_productId req) || is_empty (body_targetId req)
  || is_empty (body_paymentMethodCode req) || is_empty (body_providerName req)
  = false →
  find_product cat (body_productId req) (body_providerName req) = Some p →
  pm ∈ paymentMethodsCache cat →
  PaymentMethod.metode pm = body_paymentMethodCode req →
  PaymentMethod.metode pm ∈ blocked →
  (∀ data, getPaymentMethods cat = Served data →
           ∀ item, item ∈ data →
                   PaymentMethod.metode (spread_method item)
                   ≠ body_paymentMethodCode req)
  ∧ ∃ pm',
      PaymentMethod.metode pm' = body_paymentMethodCode req
      ∧ calls (createOrder env cat req w).2
        = calls w ++ [deposit_create_call env p pm'].
Proof.
  intros Hreq Hp Hin Hcode Hblocked. split.
  - intros data Hdata item Hitem E.
    apply (listed_methods _ _ Hdata) in Hitem as (_ & Hnb & _).
    apply Hnb. by rewrite E, <- Hcode.
  - destruct (find_payment_method cat (body_paymentMethodCode req))
      as [pm'|] eqn:Hf.
    + exists pm'. split.
      * apply find_some in Hf as [_ Hf]. by apply bool_decide_eq_true_1 in Hf.
      * rewrite (createOrder_selected _ _ _ _ _ _ Hreq Hp Hf).
        unfold createOrder_try, save_new, deposit_create_call. run_unfold.
        repeat case_match; by simplify_eq.
    + exfalso. apply list_elem_of_In in Hin.
      pose proof (find_none _ _ Hf pm Hin) as Hnone. cbn in Hnone.
      by rewrite bool_decide_eq_true_2 in Hnone.
Qed.


(** *** The HTTP layer and the start-up *)

(** X17.  For a response that is not ok, [fetchAtlanticAPI] throws
    "API request failed with status <status>: <body>" whatever the body
    is: the error built from the [message] of a JSON body is thrown
    inside the [try] whose [catch] replaces it.  For an ok response the
    result is the parsed body, or the parse error. *)
Theorem http_error_hides_the_provider_message parse toStr response :
  (response_ok response = false →
   settle parse toStr (Responded response)
   = Throw (Error ("API request failed with status "
                   +:+ pretty (response_status response)
                   +:+ ": " +:+ response_text response)))
  ∧ (response_ok response = true →
     settle parse toStr (Responded response) = parse (response_text response)).
Proof.
  unfold settle. split; intros ->; cbn [negb res_bind]; [|done].
  destruct (parse (response_text response)) as [json|e]; cbn; [|done].
  by destruct (get json "message").
Qed.

Lemma filter_status_wanted {A} word (l : list (Listed A)) :
  filter_status word (Some <$> l) = Ok (wanted word l).
Proof.
  unfold wanted. induction l as [|x l IH]; [done|].
  cbn [fmap list_fmap filter_status]. fold (fmap (M := list) (@Some (Listed A)) l).
  rewrite IH. cbn [res_bind].
  destruct (is_string word (listed_status x)) eqn:Hx.
  - by rewrite filter_cons_True by done.
  - rewrite filter_cons_False; [done|]. by rewrite Hx.
Qed.

Lemma filter_status_null {A} word (l : list (option (Listed A))) :
  None ∈ l → ∃ e, filter_status word l = Throw e.
Proof.
  induction l as [|[x|] l IH]; intros Hin.
  - by apply elem_of_nil in Hin.
  - apply elem_of_cons in Hin as [?|Hin]; [done|].
    destruct (IH Hin) as [e He]. exists e. cbn. by rewrite He.
  - by eexists.
Qed.

Lemma unlisted_entries {A} (out : ListingFetch A) word :
  unlisted out → ∃ listing, out = Gives listing ∧ wanted_entries word listing = Ok None.
Proof.
  intros [->|[(st & data & -> & Hst)|(st & ->)]]; eexists; (split; [done|]); cbn.
  - done.
  - by rewrite Hst.
  - by destruct (truthy st).
Qed.

(** X18.  When the price list cannot be read at start-up (the fetch
    throws, or [data] is a truthy value that is no array, or an array
    with a [null] in it),
    [initializeData] still returns, after one provider call and one
    logged error: the payment methods are never fetched, both caches stay
    empty, the three listing routes answer 503 and every creation request
    is answered 400 or 404 without a provider call. *)
Theorem failed_start_serves_nothing up :
  unreadable (price_list up) →
  let b := (initializeData up boot0).2 in
  (initializeData up boot0).1 = Ok tt
  ∧ boot_calls b = [price_list_call]
  ∧ length (console b) = 1
  ∧ caches b = mkCatalog [] []
  ∧ getProviders (caches b)
    = Refused 503 "Layanan produk belum siap, coba beberapa saat lagi."
  ∧ getPaymentMethods (caches b)
    = Refused 503 "Metode pembayaran belum siap, coba beberapa saat lagi."
  ∧ (∀ decode param,
       getProducts decode (caches b) param
       = Ok (Refused 503 "Layanan produk belum siap, coba beberapa saat lagi."))
  ∧ (∀ env req w,
       ∃ c m, createOrder env (caches b) req w = (mkResponse c (Failure (JStr m)), w)
              ∧ (c = 400 ∨ c = 404)).
Proof.
  intros Hbad.
  assert (∃ line, initializeData up boot0
                  = (Ok tt, mkBoot (mkCatalog [] []) [price_list_call] [line]))
    as [line Hrun].
  { unfold initializeData, fetch_listing, try_catch, bind, lift, modify.
    destruct Hbad as [[reason ->]|[(st & -> & Hst)|(st & l & -> & Hst & Hnull)]];
      cbn.
    - by eexists.
    - rewrite Hst. cbn. by eexists.
    - rewrite Hst. destruct (filter_status_null "available" l Hnull) as [e ->].
      cbn. by eexists. }
  rewrite Hrun. cbn. split_and!; try done.
  intros env req w. apply createOrder_rejects. right. by left.
Qed.

(** X19.  When both listings are read, [initializeData] makes the
    products cache the listed products whose [status] is "available" and
    the payment-method cache the listed methods whose [status] is
    "aktif", in listing order.  A price list that carries no list leaves
    the products cache as it was and the methods are still loaded; a
    method listing that cannot be read leaves the method cache as it was
    after the products cache has been replaced, and logs one error. *)
Theorem start_loads_the_wanted_entries up b :
  (∀ products methods,
     lists (price_list up) products →
     lists (deposit_metode up) methods →
     initializeData up b
     = (Ok tt,
        mkBoot (mkCatalog (wanted "available" products) (wanted "aktif" methods))
               (boot_calls b ++ [price_list_call; deposit_metode_call])
               (console b))
     ∧ (∀ p, p ∈ wanted "available" products
             ↔ ∃ x, x ∈ products ∧ entry x = p
                    ∧ listed_status x = JStr "available")
     ∧ (∀ pm, pm ∈ wanted "aktif" methods
              ↔ ∃ x, x ∈ methods ∧ entry x = pm
                     ∧ listed_status x = JStr "aktif"))
  ∧ (∀ methods,
       unlisted (price_list up) →
       lists (deposit_metode up) methods →
       initializeData up b
       = (Ok tt,
          mkBoot (mkCatalog (productsCache (caches b)) (wanted "aktif" methods))
                 (boot_calls b ++ [price_list_call; deposit_metode_call])
                 (console b)))
  ∧ (∀ products,
       lists (price_list up) products →
       unreadable (deposit_metode up) →
       ∃ line,
         initializeData up b
         = (Ok tt,
            mkBoot (mkCatalog (wanted "available" products)
                              (paymentMethodsCache (caches b)))
                   (boot_calls b ++ [price_list_call; deposit_metode_call])
                   (console b ++ [line]))).
Proof.
  assert (∀ A word (l : list (Listed A)) a,
            a ∈ wanted word l
            ↔ ∃ x, x ∈ l ∧ entry x = a ∧ listed_status x = JStr word) as Hwanted.
  { intros A word l a. unfold wanted.
    rewrite list_elem_of_fmap. split.
    - intros (x & -> & [Hx Hin]%list_elem_of_filter). exists x.
      split_and!; [done..|]. unfold is_string in Hx.
      destruct (listed_status x); try done.
      by apply bool_decide_eq_true_1 in Hx as ->.
    - intros (x & Hin & <- & Hst). exists x. split; [done|].
      apply list_elem_of_filter. split; [|done]. rewrite Hst. cbn.
      by apply bool_decide_eq_true_2. }
  unfold initializeData, fetch_listing, try_catch, bind, lift, modify,
    set_productsCache, set_paymentMethodsCache, ret.
  split_and!.
  - intros products methods (st1 & -> & Hst1) (st2 & -> & Hst2).
    cbn [wanted_entries]. rewrite Hst1, Hst2, !filter_status_wanted. cbn.
    rewrite <- app_assoc. split_and!; [done|apply Hwanted..].
  - intros methods Hun (st2 & -> & Hst2).
    destruct (unlisted_entries _ "available" Hun) as (listing & -> & ->).
    cbn [wanted_entries]. rewrite Hst2, filter_status_wanted. cbn.
    by rewrite <- app_assoc.
  - intros products (st1 & -> & Hst1)
      [[reason ->]|[(st2 & -> & Hst2)|(st2 & l & -> & Hst2 & Hnull)]];
      cbn [wanted_entries]; rewrite Hst1, filter_status_wanted, ?Hst2.
    + cbn. rewrite <- app_assoc. by eexists.
    + cbn. rewrite <- app_assoc. by eexists.
    + destruct (filter_status_null "aktif" l Hnull) as [e ->].
      cbn. rewrite <- app_assoc. by eexists.
Qed.


Lemma transaction_status_decides_status_witness :
  ∃ o',
    (orderStatus Scenario.delivering Sample.key
       (Sample.holding Scenario.shipped_order)).1
    = mkResponse 200 (OrderData o')
    ∧ status o' = "ORDER_COMPLETED".
Proof.
  destruct (transaction_status_decides_status
              Scenario.delivering Sample.key (Sample.holding Scenario.shipped_order)
              Scenario.shipped_order
              (obj [("status", JBool true); ("data", Scenario.delivered)])
              Scenario.delivered "success")
    as (st & Hrun & Hdone & _).
  - done.
  - by vm_compute.
  - apply (bool_decide_unpack _). by vm_compute.
  - by vm_compute.
  - by vm_compute.
  - by vm_compute.
  - by vm_compute.
  - by vm_compute.
  - done.
  - eexists. rewrite Hrun. split; [reflexivity|]. cbn. apply Hdone. by vm_compute.
Defined.

Lemma refused_transaction_poll_only_stamps_witness :
  (orderStatus Scenario.refusing_transaction_poll Sample.key
     (Sample.holding Scenario.shipped_order)).1
  = mkResponse 200
      (OrderData (set_updatedAt 1700000060000 Scenario.shipped_order)).
Proof.
  rewrite (refused_transaction_poll_only_stamps
             Scenario.refusing_transaction_poll Sample.key
             (Sample.holding Scenario.shipped_order) Scenario.shipped_order
             (obj [("status", JBool false);
                   ("message", JStr "Transaksi tidak ditemukan")])).
  - done.
  - done.
  - by vm_compute.
  - apply (bool_decide_unpack _). by vm_compute.
  - by vm_compute.
  - by vm_compute.
  - by vm_compute.
Defined.

Lemma failed_creation_is_recorded_witness :
  (orderStatus Sample.refusing_creation Sample.key
     (Sample.holding Sample.fresh_order)).1
  = mkResponse 200 (OrderData Sample.refused_order).
Proof.
  destruct (failed_creation_is_recorded
              Sample.refusing_creation Sample.key
              (Sample.holding Sample.fresh_order) Sample.fresh_order
              (obj [("status", JBool true); ("data", Sample.paid_poll)])
              Sample.paid_poll "success") as [Hrefused _].
  - done.
  - by vm_compute.
  - apply (bool_decide_unpack _). by vm_compute.
  - by vm_compute.
  - by vm_compute.
  - by vm_compute.
  - by vm_compute.
  - by vm_compute.
  - rewrite (Hrefused (obj [("status", JBool false);
                            ("message", JStr "Saldo tidak cukup")])
                      (JStr "Saldo tidak cukup")); by vm_compute.
Defined.

Lemma paid_order_without_transaction_is_retried_witness :
  ∃ o',
    (orderStatus Sample.paying Sample.key (Sample.holding Scenario.paid_order)).1
    = mkResponse 200 (OrderData o')
    ∧ status o' = "ORDER_PROCESSING"
    ∧ atlanticTransactionId o' = JStr "TRX777".
Proof.
  eexists.
  rewrite (paid_order_without_transaction_is_retried
             Sample.paying Sample.key (Sample.holding Scenario.paid_order)
             Scenario.paid_order
             (obj [("status", JBool true); ("data", Sample.created)])
             Sample.created (JStr "TRX777") "pending").
  - split_and!; [reflexivity|by vm_compute..].
  - done.
  - by vm_compute.
  - by vm_compute.
  - by vm_compute.
  - by vm_compute.
  - by vm_compute.
  - by vm_compute.
  - by vm_compute.
  - reflexivity.
  - by vm_compute.
  - done.
Defined.

Lemma orders_are_kept_with_their_snapshot_witness :
  ∃ o',
    store (serve_all Scenario.run (Sample.holding Sample.fresh_order)) !! Sample.key
    = Some o'
    ∧ snapshot o' = snapshot Sample.fresh_order.
Proof.
  apply (orders_are_kept_with_their_snapshot Scenario.run
           (Sample.holding Sample.fresh_order) Sample.key Sample.fresh_order).
  by vm_compute.
Defined.

Lemma deposit_poll_without_status_fails_witness :
  ∃ reason,
    orderStatus Scenario.vague Sample.key (Sample.holding Sample.fresh_order)
    = (mkResponse 500 (Failure (JStr ("Internal server error: " +:+ reason))),
       logged (Sample.holding Sample.fresh_order)
              [deposit_status_call Sample.fresh_order]).
Proof.
  apply (deposit_poll_without_status_fails
           Scenario.vague Sample.key (Sample.holding Sample.fresh_order)
           Sample.fresh_order
           (obj [("status", JBool true); ("data", obj [("nominal", JNum 10850)])])
           (obj [("nominal", JNum 10850)]) JUndefined).
  - done.
  - by vm_compute.
  - apply (bool_decide_unpack _). by vm_compute.
  - by vm_compute.
  - by vm_compute.
  - by vm_compute.
  - by vm_compute.
  - done.
Defined.

Lemma settled_order_is_never_changed_witness :
  store (serve_all Scenario.run (Sample.holding Sample.completed_order)) !! Sample.key
  = Some Sample.completed_order.
Proof.
  apply (settled_order_is_never_changed Scenario.run
           (Sample.holding Sample.completed_order) Sample.key
           Sample.completed_order).
  - by vm_compute.
  - apply (bool_decide_unpack _). by vm_compute.
Defined.

Lemma cancellation_is_final_witness :
  ∃ o',
    store (cancelOrder Sample.cancelling Sample.key
             (Sample.holding Sample.fresh_order)).2 !! Sample.key = Some o'
    ∧ status o' = "PAYMENT_CANCELLED"
    ∧ store (serve_all Scenario.run
               (cancelOrder Sample.cancelling Sample.key
                  (Sample.holding Sample.fresh_order)).2) !! Sample.key
      = Some o'.
Proof.
  destruct (cancellation_is_final
              Sample.cancelling Sample.key (Sample.holding Sample.fresh_order)
              Sample.fresh_order) as (o' & Ho' & Hst & Hlater).
  - done.
  - by vm_compute.
  - by vm_compute.
  - apply (bool_decide_unpack _). by vm_compute.
  - exists (list_to_map [("status", JBool true);
                         ("data", obj [("status", JStr "Cancel")])]),
      (JBool true), (list_to_map [("status", JStr "Cancel")]), "Cancel".
    split_and!; by vm_compute.
  - exists o'. split_and!; [done..|]. apply (Hlater Scenario.run).
Defined.

Lemma unknown_request_touches_nothing_witness :
  ∃ c m,
    createOrder Sample.paying Sample.catalog Scenario.no_target Sample.nothing
    = (mkResponse c (Failure (JStr m)), Sample.nothing)
    ∧ (c = 400 ∨ c = 404).
Proof.
  apply unknown_request_touches_nothing. left. by vm_compute.
Defined.

Lemma created_order_is_followed_by_its_deposit_id_witness :
  ∃ o cs,
    store (createOrder Sample.opening Sample.catalog Sample.request
             Sample.nothing).2 !! "ORD-1700000060000-K3X9QZ" = Some o
    ∧ atlanticDepositId o = JStr "DEP123"
    ∧ calls (orderStatus Sample.paying "ORD-1700000060000-K3X9QZ"
               (createOrder Sample.opening Sample.catalog Sample.request
                  Sample.nothing).2).2
      = calls (createOrder Sample.opening Sample.catalog Sample.request
                 Sample.nothing).2
        ++ mkCall "/deposit/status" [("id", JStr "DEP123")] :: cs.
Proof.
  destruct (created_order_is_followed_by_its_deposit_id
              Sample.opening Sample.catalog Sample.request Sample.nothing
              Sample.product Sample.method
              (obj [("status", JBool true);
                    ("data", obj [("id", JStr "DEP123"); ("nominal", JNum 10850)])])
              (obj [("id", JStr "DEP123"); ("nominal", JNum 10850)])
              (JStr "DEP123"))
    as (Ho & _ & Hpoll & _).
  - split_and!; [by vm_compute..|]. exists (JStr "DEP123"). by vm_compute.
  - by vm_compute.
  - destruct (Hpoll Sample.paying) as [cs Hcs].
    eexists _, cs. split_and!; [exact Ho|done|exact Hcs].
Defined.

Lemma colliding_orderId_loses_the_deposit_witness :
  ∃ m,
    createOrder Sample.opening Sample.catalog Sample.request Scenario.taken
    = (mkResponse 500 (Failure (JStr ("Gagal memproses pesanan: " +:+ m))),
       logged Scenario.taken
              [deposit_create_call Sample.opening Sample.product Sample.method]).
Proof.
  apply (colliding_orderId_loses_the_deposit
           Sample.opening Sample.catalog Sample.request Scenario.taken
           Sample.product Sample.method
           (obj [("status", JBool true);
                 ("data", obj [("id", JStr "DEP123"); ("nominal", JNum 10850)])])
           (obj [("id", JStr "DEP123"); ("nominal", JNum 10850)])
           Sample.fresh_order); by vm_compute.
Defined.

Lemma blocked_method_can_still_be_ordered_witness :
  getPaymentMethods Scenario.qris_catalog
  = Served [mkProcessedMethod Sample.method 2%float]
  ∧ ∃ pm',
      PaymentMethod.metode pm' = "QRIS"
      ∧ calls (createOrder Sample.opening Scenario.qris_catalog
                 Scenario.qris_request Sample.nothing).2
        = [deposit_create_call Sample.opening Sample.product pm'].
Proof.
  split; [by vm_compute|].
  destruct (blocked_method_can_still_be_ordered
              Sample.opening Scenario.qris_catalog Scenario.qris_request
              Sample.nothing Sample.product Scenario.qris) as [_ Hcalls].
  - by vm_compute.
  - by vm_compute.
  - cbn. apply elem_of_cons. right. apply elem_of_cons. by left.
  - done.
  - apply (bool_decide_unpack _). by vm_compute.
  - exact Hcalls.
Defined.

Lemma failed_start_serves_nothing_witness :
  unreadable (price_list Scenario.holed)
  ∧ boot_calls (initializeData Scenario.holed boot0).2 = [price_list_call]
  ∧ caches (initializeData Scenario.holed boot0).2 = mkCatalog [] [].
Proof.
  assert (unreadable (price_list Scenario.holed)) as Hbad.
  { right. right. eexists _, _. split_and!; [reflexivity..|].
    apply elem_of_cons. right. apply elem_of_cons. by left. }
  split; [exact Hbad|].
  destruct (failed_start_serves_nothing Scenario.holed Hbad)
    as (_ & Hc & _ & Hcat & _).
  by split.
Defined.

Lemma start_loads_the_wanted_entries_witness :
  lists (price_list Scenario.up)
        [mkListed Sample.product (JStr "available");
         mkListed Scenario.sold_out (JStr "empty")]
  ∧ lists (deposit_metode Scenario.up)
          [mkListed Sample.method (JStr "aktif");
           mkListed Scenario.qris (JStr "nonaktif")]
  ∧ (initializeData Scenario.up boot0).2
    = mkBoot Sample.catalog [price_list_call; deposit_metode_call] [].
Proof.
  assert (lists (price_list Scenario.up)
            [mkListed Sample.product (JStr "available");
             mkListed Scenario.sold_out (JStr "empty")]) as Hp
    by (by exists (JBool true)).
  assert (lists (deposit_metode Scenario.up)
            [mkListed Sample.method (JStr "aktif");
             mkListed Scenario.qris (JStr "nonaktif")]) as Hm
    by (by exists (JBool true)).
  split_and!; [exact Hp|exact Hm|].
  destruct (start_loads_the_wanted_entries Scenario.up boot0) as (Hboth & _).
  destruct (Hboth _ _ Hp Hm) as (-> & _). reflexivity.
Defined.

Lemma http_error_hides_the_provider_message_witness :
  get (obj [("message", JStr "Saldo tidak cukup")]) "message"
  = Ok (JStr "Saldo tidak cukup")
  ∧ Scenario.parse (response_text Scenario.payment_required)
    = Ok (obj [("message", JStr "Saldo tidak cukup")])
  ∧ settle Scenario.parse Scenario.to_string (Responded Scenario.payment_required)
    = Throw (Error "API request failed with status 402: {message: Saldo tidak cukup}").
Proof.
  split_and!; [by vm_compute..|].
  rewrite (proj1 (http_error_hides_the_provider_message
                    Scenario.parse Scenario.to_string Scenario.payment_required));
    by vm_compute.
Defined.

Lemma products_are_listed_by_provider_name_witness :
  getProducts Ok Sample.catalog "Telkomsel"
  = Ok (Served ([Sample.product], "Telkomsel")).
Proof.
  destruct (proj2 (proj2 (products_are_listed_by_provider_name
                            Ok Sample.catalog "telkomsel")) "telkomsel")
    as [_ Hserved]; [done..|].
  destruct Hserved as (_ & _ & _ & Hcase); [by vm_compute|].
  rewrite (Hcase "Telkomsel" "Telkomsel"); by vm_compute.
Defined.

